(** * TOTP device service: a shallow embedding and its verified properties

    The development embeds the device one-time-password service of this
    repository: [app/otp_service.py] (class [EnterpriseOTPService] and the
    test client [ClientOTP]), its tables [app/database.py], its settings
    [app/config.py], its endpoints [app/main.py], the stand-alone variant
    [otp.py] (classes [Server] and [Client], and [main]) and the variant
    with in-memory tables [simple_app.py].

    Layout: the model comes first (byte strings, the hash functions the
    service calls, [struct], the tables and the SQLAlchemy session, the
    service itself, then Base64 decoding, the endpoints and the in-memory
    variant); the lemmas and theorems follow, in two parts. *)

From Stdlib Require Import String Ascii ZArith List Bool Lia.
Import ListNotations.
Local Open Scope Z_scope.

(* ===================================================================== *)
(** * Part I: the model                                                  *)
(* ===================================================================== *)

(** ** Byte strings

    A Python [bytes] value is a list of integers, each in [0, 256). A Python
    [str] is carried as the byte string of its UTF-8 encoding, so that
    [s.encode()] is the identity on the carried bytes and [b.decode()] of
    ASCII output is too. *)

Module Bytes.

Definition bytes := list Z.

Definition of_ascii (c : ascii) : Z := Z.of_N (N_of_ascii c).

Definition to_ascii (b : Z) : ascii := ascii_of_N (Z.to_N b).

(** [s.encode()] *)
Definition encode (s : string) : bytes := map of_ascii (list_ascii_of_string s).

(** [b.decode()] *)
Definition decode (b : bytes) : string := string_of_list_ascii (map to_ascii b).

(** [n] bytes of [x], most significant first. *)
Definition big_endian (n : nat) (x : Z) : bytes :=
  map (fun i => Z.land (Z.shiftr x (8 * Z.of_nat i)) 255) (rev (seq 0 n)).

(** The integer a byte string denotes, most significant byte first. *)
Definition from_big_endian (bs : bytes) : Z :=
  fold_left (fun acc b => acc * 256 + b) bs 0.

(** [l[i:j]] for [0 <= i <= j]: Python clamps a slice to the sequence. *)
Definition slice {A} (l : list A) (i j : Z) : list A :=
  firstn (Z.to_nat (j - i)) (skipn (Z.to_nat i) l).

(** [n] consecutive pieces of [k] elements each. *)
Fixpoint chunks {A} (k n : nat) (l : list A) : list (list A) :=
  match n with
  | O => []
  | S n' => firstn k l :: chunks k n' (skipn k l)
  end.

Definition xor_with (c : Z) (bs : bytes) : bytes := map (Z.lxor c) bs.

Definition hex_digit (d : Z) : ascii :=
  nth (Z.to_nat d) (list_ascii_of_string "0123456789abcdef") "0"%char.

(** [b.hex()], which is what [hexdigest()] returns. *)
Definition hex (bs : bytes) : string :=
  string_of_list_ascii
    (flat_map (fun b => [hex_digit (Z.shiftr b 4); hex_digit (Z.land b 15)]) bs).

Definition b64_char (d : Z) : ascii :=
  nth (Z.to_nat d)
    (list_ascii_of_string
       "ABCDEFGHIJKLMNOPQRSTUVWXYZabcdefghijklmnopqrstuvwxyz0123456789+/")
    "="%char.

(** [base64.b64encode(bs)], as the bytes of its ASCII text. *)
Fixpoint b64encode (bs : bytes) : list ascii :=
  match bs with
  | [] => []
  | [a] =>
      [b64_char (Z.shiftr a 2); b64_char (Z.shiftl (Z.land a 3) 4);
       "="%char; "="%char]
  | [a; b] =>
      [b64_char (Z.shiftr a 2);
       b64_char (Z.lor (Z.shiftl (Z.land a 3) 4) (Z.shiftr b 4));
       b64_char (Z.shiftl (Z.land b 15) 2); "="%char]
  | a :: b :: c :: rest =>
      b64_char (Z.shiftr a 2)
      :: b64_char (Z.lor (Z.shiftl (Z.land a 3) 4) (Z.shiftr b 4))
      :: b64_char (Z.lor (Z.shiftl (Z.land b 15) 2) (Z.shiftr c 6))
      :: b64_char (Z.land c 63)
      :: b64encode rest
  end.

End Bytes.

Import Bytes.

(** ** The hash functions of [hashlib] and [hmac]

    These are the library functions the service calls, written out so that
    the model runs: SHA-1 (FIPS 180-4, section 6.1), SHA-256 (section 6.2)
    and HMAC (RFC 2104) as [hmac.new(key, msg, digestmod).digest()]. Words
    are 32-bit integers carried in [Z] with the wrap-around written out. *)

Module Word32.

Definition wrap (x : Z) : Z := x mod 2 ^ 32.

Definition add (x y : Z) : Z := wrap (x + y).

Definition rotl (n x : Z) : Z := wrap (Z.lor (Z.shiftl x n) (Z.shiftr x (32 - n))).

Definition rotr (n x : Z) : Z := rotl (32 - n) x.

Definition not (x : Z) : Z := Z.lxor x 0xFFFFFFFF.

(** Merkle-Damgard padding to 64-byte blocks: a 1 bit, zeros, and the bit
    length of the message as 8 big-endian bytes. *)
Definition pad (msg : bytes) : bytes :=
  let len := Z.of_nat (length msg) in
  msg ++ [128] ++ repeat 0 (Z.to_nat ((55 - len) mod 64)) ++ big_endian 8 (8 * len).

(** The padded message as blocks of sixteen 32-bit words. *)
Definition blocks (msg : bytes) : list (list Z) :=
  let p := pad msg in
  map (fun blk => map from_big_endian (chunks 4 16 blk))
      (chunks 64 (Nat.div (length p) 64) p).

End Word32.

Module SHA1.
Import Word32.

Definition state := (Z * Z * Z * Z * Z)%type.

Definition init : state :=
  (0x67452301, 0xEFCDAB89, 0x98BADCFE, 0x10325476, 0xC3D2E1F0).

(** The message schedule, kept newest word first while it grows. *)
Fixpoint extend (n : nat) (rw : list Z) : list Z :=
  match n with
  | O => rw
  | S n' =>
      let w := rotl 1 (Z.lxor (Z.lxor (Z.lxor (nth 2 rw 0) (nth 7 rw 0)) (nth 13 rw 0))
                              (nth 15 rw 0)) in
      extend n' (w :: rw)
  end.

Definition schedule (blk : list Z) : list Z := rev (extend 64 (rev blk)).

Definition round (st : state) (tw : nat * Z) : state :=
  let '(a, b, c, d, e) := st in
  let '(t, w) := tw in
  let '(f, k) :=
    if (t <? 20)%nat then (Z.lor (Z.land b c) (Z.land (not b) d), 0x5A827999)
    else if (t <? 40)%nat then (Z.lxor (Z.lxor b c) d, 0x6ED9EBA1)
    else if (t <? 60)%nat then
      (Z.lor (Z.lor (Z.land b c) (Z.land b d)) (Z.land c d), 0x8F1BBCDC)
    else (Z.lxor (Z.lxor b c) d, 0xCA62C1D6) in
  (add (add (add (add (rotl 5 a) f) e) k) w, a, rotl 30 b, c, d).

Definition compress (h : state) (blk : list Z) : state :=
  let '(a, b, c, d, e) := fold_left round (combine (seq 0 80) (schedule blk)) h in
  let '(h0, h1, h2, h3, h4) := h in
  (add h0 a, add h1 b, add h2 c, add h3 d, add h4 e).

(** [hashlib.sha1(msg).digest()] *)
Definition digest (msg : bytes) : bytes :=
  let '(h0, h1, h2, h3, h4) := fold_left compress (blocks msg) init in
  big_endian 4 h0 ++ big_endian 4 h1 ++ big_endian 4 h2 ++ big_endian 4 h3
  ++ big_endian 4 h4.

End SHA1.

Module SHA256.
Import Word32.

Definition state := (Z * Z * Z * Z * Z * Z * Z * Z)%type.

Definition init : state :=
  (0x6A09E667, 0xBB67AE85, 0x3C6EF372, 0xA54FF53A,
   0x510E527F, 0x9B05688C, 0x1F83D9AB, 0x5BE0CD19).

Definition K : list Z :=
  [0x428A2F98; 0x71374491; 0xB5C0FBCF; 0xE9B5DBA5; 0x3956C25B; 0x59F111F1;
   0x923F82A4; 0xAB1C5ED5; 0xD807AA98; 0x12835B01; 0x243185BE; 0x550C7DC3;
   0x72BE5D74; 0x80DEB1FE; 0x9BDC06A7; 0xC19BF174; 0xE49B69C1; 0xEFBE4786;
   0x0FC19DC6; 0x240CA1CC; 0x2DE92C6F; 0x4A7484AA; 0x5CB0A9DC; 0x76F988DA;
   0x983E5152; 0xA831C66D; 0xB00327C8; 0xBF597FC7; 0xC6E00BF3; 0xD5A79147;
   0x06CA6351; 0x14292967; 0x27B70A85; 0x2E1B2138; 0x4D2C6DFC; 0x53380D13;
   0x650A7354; 0x766A0ABB; 0x81C2C92E; 0x92722C85; 0xA2BFE8A1; 0xA81A664B;
   0xC24B8B70; 0xC76C51A3; 0xD192E819; 0xD6990624; 0xF40E3585; 0x106AA070;
   0x19A4C116; 0x1E376C08; 0x2748774C; 0x34B0BCB5; 0x391C0CB3; 0x4ED8AA4A;
   0x5B9CCA4F; 0x682E6FF3; 0x748F82EE; 0x78A5636F; 0x84C87814; 0x8CC70208;
   0x90BEFFFA; 0xA4506CEB; 0xBEF9A3F7; 0xC67178F2].

Definition xor3 (x y z : Z) : Z := Z.lxor (Z.lxor x y) z.

Definition Sigma0 x := xor3 (rotr 2 x) (rotr 13 x) (rotr 22 x).
Definition Sigma1 x := xor3 (rotr 6 x) (rotr 11 x) (rotr 25 x).
Definition sigma0 x := xor3 (rotr 7 x) (rotr 18 x) (Z.shiftr x 3).
Definition sigma1 x := xor3 (rotr 17 x) (rotr 19 x) (Z.shiftr x 10).
Definition Ch x y z := Z.lxor (Z.land x y) (Z.land (not x) z).
Definition Maj x y z := xor3 (Z.land x y) (Z.land x z) (Z.land y z).

Fixpoint extend (n : nat) (rw : list Z) : list Z :=
  match n with
  | O => rw
  | S n' =>
      let w := add (add (add (sigma1 (nth 1 rw 0)) (nth 6 rw 0)) (sigma0 (nth 14 rw 0)))
                   (nth 15 rw 0) in
      extend n' (w :: rw)
  end.

Definition schedule (blk : list Z) : list Z := rev (extend 48 (rev blk)).

Definition round (st : state) (kw : Z * Z) : state :=
  let '(a, b, c, d, e, f, g, h) := st in
  let '(k, w) := kw in
  let t1 := add (add (add (add h (Sigma1 e)) (Ch e f g)) k) w in
  let t2 := add (Sigma0 a) (Maj a b c) in
  (add t1 t2, a, b, c, add d t1, e, f, g).

Definition compress (hs : state) (blk : list Z) : state :=
  let '(a, b, c, d, e, f, g, h) := fold_left round (combine K (schedule blk)) hs in
  let '(h0, h1, h2, h3, h4, h5, h6, h7) := hs in
  (add h0 a, add h1 b, add h2 c, add h3 d, add h4 e, add h5 f, add h6 g, add h7 h).

(** [hashlib.sha256(msg).digest()] *)
Definition digest (msg : bytes) : bytes :=
  let '(h0, h1, h2, h3, h4, h5, h6, h7) := fold_left compress (blocks msg) init in
  big_endian 4 h0 ++ big_endian 4 h1 ++ big_endian 4 h2 ++ big_endian 4 h3
  ++ big_endian 4 h4 ++ big_endian 4 h5 ++ big_endian 4 h6 ++ big_endian 4 h7.

End SHA256.

Module HMAC.

(** [hmac.new(key, msg, digestmod).digest()] for a digest with 64-byte
    blocks: a key longer than a block is hashed first, then padded with
    zeros to the block size. *)
Definition hmac (H : bytes -> bytes) (key msg : bytes) : bytes :=
  let key := if (64 <? length key)%nat then H key else key in
  let key := key ++ repeat 0 (64 - length key) in
  H (xor_with 0x5c key ++ H (xor_with 0x36 key ++ msg)).

Definition sha1 : bytes -> bytes -> bytes := hmac SHA1.digest.

Definition sha256 : bytes -> bytes -> bytes := hmac SHA256.digest.

End HMAC.

(** ** Python exceptions

    A computation that may raise: the value it returns, or the exception.
    Only the exceptions the modelled code can meet are listed. *)

Inductive exn : Type :=
| StructError        (* struct.error: argument out of range, wrong size *)
| IndexError         (* index out of range *)
| ZeroDivisionError  (* float floor division by zero *)
| ValueError         (* raised by the service constructor *)
| IntegrityError.    (* the store refuses a duplicate primary key *)

Inductive py (A : Type) : Type :=
| Return (a : A)
| Raise (e : exn).

Arguments Return {A} a.
Arguments Raise {A} e.

Definition py_bind {A B} (c : py A) (k : A -> py B) : py B :=
  match c with
  | Return a => k a
  | Raise e => Raise e
  end.

Declare Scope py_scope.
Delimit Scope py_scope with py.
Notation "x <- c ;; k" := (py_bind c (fun x => k))
  (at level 61, c at next level, right associativity) : py_scope.

(** ** [struct] *)

Module Struct.

(** [struct.pack(">Q", n)]: 8 bytes, big-endian; [struct.error] unless
    [0 <= n < 2**64]. *)
Definition pack_Q (n : Z) : py bytes :=
  if (0 <=? n) && (n <? 2 ^ 64) then Return (big_endian 8 n) else Raise StructError.

(** [struct.unpack(">I", b)[0]]: [struct.error] unless [b] has 4 bytes. *)
Definition unpack_I (b : bytes) : py Z :=
  match b with
  | [_; _; _; _] => Return (from_big_endian b)
  | _ => Raise StructError
  end.

End Struct.

(** [l[-1]] *)
Definition last_item {A} (l : list A) : py A :=
  match rev l with
  | x :: _ => Return x
  | [] => Raise IndexError
  end.

(** [range(lo, hi)] *)
Definition range (lo hi : Z) : list Z :=
  map (fun i => lo + Z.of_nat i) (seq 0 (Z.to_nat (hi - lo))).

(** ** Settings ([app/config.py])

    The fields of [Settings] that concern the service; the others (store
    and cache addresses, API key, port and the like) do not reach it. The
    integers are Python [int]s read from the environment. The service
    never reads [rate_limit_requests] and [rate_limit_window]: its rate
    limit is written into [verify_otp]. A negative [otp_digits] would make
    [10 ** otp_digits] a float and the code a float; the generators below
    ([_generate_otp] and [generate_otp] of every class) follow the source
    for [otp_digits >= 0] only, and the theorems on the codes take it
    non-negative. *)

Module Settings.

Record t : Type := {
  master_secret : string;
  otp_digits : Z;
  otp_interval : Z;
  otp_window : Z;
  rate_limit_requests : Z;
  rate_limit_window : Z
}.

(** The values when the environment sets only [MASTER_SECRET]. *)
Definition default (master : string) : t := {|
  master_secret := master;
  otp_digits := 6;
  otp_interval := 30;
  otp_window := 1;
  rate_limit_requests := 10;
  rate_limit_window := 60
|}.

End Settings.

(** ** The clock

    A reading of the clock is a whole number of seconds since the epoch.
    [time.time()] enters the code only through [time.time() // interval],
    and for a positive integer [interval] the floor of [t / interval] is
    the floor of [floor(t) / interval]; [datetime.utcnow()] is carried at
    the same resolution, and [timedelta(minutes=5)] is 300. One call of a
    service method reads the clock as one instant [now]. *)

Definition minutes (n : Z) : Z := 60 * n.

(** [int(time.time() // interval)]. The source divides in floating point:
    [time.time()] is a double and [interval] is converted to one. The
    quotient below is the exact one. The two agree while the reading and
    the interval are below [2^53] in absolute value, where every whole
    number is a double and the floor division of doubles is exact; from
    about [7.2e16] seconds on a double cannot tell neighbouring seconds
    apart and the source's step can differ from the exact one. The
    theorems that relate the steps of a general instant, or of two
    instants, take the readings and the interval below [2^53]. *)
Definition time_step_of (now interval : Z) : py Z :=
  if interval =? 0 then Raise ZeroDivisionError else Return (now / interval).

(** ** [otp.py]: the stand-alone server and client *)

Module Server.
Local Open Scope py_scope.

Record t : Type := { master_secret : bytes }.

Definition generate_derived_key (self : t) (device_id : bytes) : bytes :=
  HMAC.sha256 (master_secret self) device_id.

(** [10 ** digits] is an [int] for [digits >= 0]; for a negative [digits]
    the source's result is a float, which the definition does not follow. *)
Definition _generate_otp (secret_key : bytes) (time_step digits : Z) : py Z :=
  msg <- Struct.pack_Q time_step ;;
  let hmac_hash := HMAC.sha1 secret_key msg in
  last <- last_item hmac_hash ;;
  let offset := Z.land last 0x0F in
  let truncated_hash := slice hmac_hash offset (offset + 4) in
  word <- Struct.unpack_I truncated_hash ;;
  let code_int := Z.land word 0x7FFFFFFF in
  Return (code_int mod 10 ^ digits).

(** The body of the [for offset in range(-window, window + 1)] loop, over
    the offsets still to try. *)
Fixpoint verify_loop (derived_key : bytes) (otp digits current_time_step : Z)
  (offsets : list Z) : py bool :=
  match offsets with
  | [] => Return false
  | offset :: rest =>
      let time_step := current_time_step + offset in
      code <- _generate_otp derived_key time_step digits ;;
      if code =? otp then Return true
      else verify_loop derived_key otp digits current_time_step rest
  end.

Definition verify_otp (self : t) (device_id : bytes) (otp : Z)
  (digits interval window : Z) (now : Z) : py bool :=
  let derived_key := generate_derived_key self device_id in
  current_time_step <- time_step_of now interval ;;
  verify_loop derived_key otp digits current_time_step (range (- window) (window + 1)).

End Server.

Module Client.
Local Open Scope py_scope.

Record t : Type := { derived_key : bytes }.

(** The source's result for [digits >= 0], as for [Server._generate_otp]. *)
Definition generate_otp (self : t) (digits interval : Z) (now : Z) : py Z :=
  time_step <- time_step_of now interval ;;
  msg <- Struct.pack_Q time_step ;;
  let hmac_hash := HMAC.sha1 (derived_key self) msg in
  last <- last_item hmac_hash ;;
  let offset := Z.land last 0x0F in
  let truncated_hash := slice hmac_hash offset (offset + 4) in
  word <- Struct.unpack_I truncated_hash ;;
  let code_int := Z.land word 0x7FFFFFFF in
  Return (code_int mod 10 ^ digits).

End Client.

(** ** The tables ([app/database.py])

    Each record lists the columns the service writes or reads. The columns
    left out ([AuditLog.id], assigned by the store, and [user_agent] and
    [additional_data], never written) are not read by the service. *)

Module Device.

Record t : Type := {
  device_id : string;        (* primary key *)
  user_id : string;
  derived_key_hash : string;
  is_active : bool;
  created_at : Z;
  last_used : option Z;      (* nullable *)
  usage_count : Z;           (* default 0 *)
  deactivated_at : option Z  (* nullable *)
}.

(** [Device(device_id=..., user_id=..., derived_key_hash=..., is_active=...,
    created_at=...)]: the other columns take their defaults. *)
Definition new (device_id user_id derived_key_hash : string) (is_active : bool)
  (created_at : Z) : t := {|
  device_id := device_id;
  user_id := user_id;
  derived_key_hash := derived_key_hash;
  is_active := is_active;
  created_at := created_at;
  last_used := None;
  usage_count := 0;
  deactivated_at := None
|}.

(** [device.last_used = now; device.usage_count += 1] *)
Definition set_used (now : Z) (d : t) : t := {|
  device_id := device_id d;
  user_id := user_id d;
  derived_key_hash := derived_key_hash d;
  is_active := is_active d;
  created_at := created_at d;
  last_used := Some now;
  usage_count := usage_count d + 1;
  deactivated_at := deactivated_at d
|}.

(** [device.is_active = False; device.deactivated_at = now] *)
Definition set_deactivated (now : Z) (d : t) : t := {|
  device_id := device_id d;
  user_id := user_id d;
  derived_key_hash := derived_key_hash d;
  is_active := false;
  created_at := created_at d;
  last_used := last_used d;
  usage_count := usage_count d;
  deactivated_at := Some now
|}.

End Device.

Module AuditLog.

Record t : Type := {
  device_id : string;
  action : string;
  success : bool;
  timestamp : Z;
  ip_address : string
}.

End AuditLog.

(** The committed content of the store. *)
Record Database : Type := {
  devices : list Device.t;
  audit_logs : list AuditLog.t
}.

Definition empty_database : Database := {| devices := []; audit_logs := [] |}.

(** ** The SQLAlchemy session

    [SessionLocal] is made with [autoflush=False]: a query reads the
    tables and does not see the objects added with [db.add] since the last
    commit; they reach the tables at [db.commit()] and are dropped by
    [db.rollback()] and by [db.close()]. A loaded object whose attributes
    were assigned is written back at commit by its primary key. *)

Record Session : Type := {
  database : Database;
  new_devices : list Device.t;    (* added, not yet flushed *)
  new_logs : list AuditLog.t;     (* added, not yet flushed *)
  dirty : list Device.t           (* loaded and modified, not yet flushed *)
}.

(** [SessionLocal()] *)
Definition SessionLocal (db : Database) : Session := {|
  database := db; new_devices := []; new_logs := []; dirty := []
|}.

(** A method body: it threads the session and may raise; the session
    survives the exception, for the handler to roll back. *)
Definition db_m (A : Type) : Type := Session -> py A * Session.

Definition db_ret {A} (a : A) : db_m A := fun s => (Return a, s).

Definition db_bind {A B} (c : db_m A) (k : A -> db_m B) : db_m B :=
  fun s =>
    match c s with
    | (Return a, s') => k a s'
    | (Raise e, s') => (Raise e, s')
    end.

Definition db_lift {A} (c : py A) : db_m A := fun s => (c, s).

Declare Scope db_scope.
Delimit Scope db_scope with db.
Notation "x <- c ;; k" := (db_bind c (fun x => k))
  (at level 61, c at next level, right associativity) : db_scope.
Notation "c ;; k" := (db_bind c (fun _ => k))
  (at level 61, right associativity) : db_scope.

(** [try: body except Exception as e: handler]; every method of the service
    returns a dict on both paths, so nothing escapes. *)
Definition try_except {A} (body : db_m A) (handler : exn -> Session -> A * Session)
  : Session -> A * Session :=
  fun s =>
    match body s with
    | (Return a, s') => (a, s')
    | (Raise e, s') => handler e s'
    end.

Module Db.

(** [db.query(Device).filter(p).first()] *)
Definition query_device_first (p : Device.t -> bool) : db_m (option Device.t) :=
  fun s => (Return (find p (devices (database s))), s).

(** [db.query(AuditLog).filter(p).count()] *)
Definition query_log_count (p : AuditLog.t -> bool) : db_m Z :=
  fun s => (Return (Z.of_nat (length (filter p (audit_logs (database s))))), s).

(** [db.add(device)] *)
Definition add_device (d : Device.t) : db_m unit :=
  fun s =>
    (Return tt,
     {| database := database s; new_devices := new_devices s ++ [d];
        new_logs := new_logs s; dirty := dirty s |}).

(** [db.add(audit_log)] *)
Definition add_log (l : AuditLog.t) : db_m unit :=
  fun s =>
    (Return tt,
     {| database := database s; new_devices := new_devices s;
        new_logs := new_logs s ++ [l]; dirty := dirty s |}).

(** Assigning attributes of a loaded device: the session holds the
    modified object until the next flush. *)
Definition modified (d : Device.t) : db_m unit :=
  fun s =>
    (Return tt,
     {| database := database s; new_devices := new_devices s;
        new_logs := new_logs s; dirty := dirty s ++ [d] |}).

(** [UPDATE devices SET ... WHERE device_id = :pk] *)
Definition update_row (d : Device.t) (rows : list Device.t) : list Device.t :=
  map (fun r => if String.eqb (Device.device_id r) (Device.device_id d) then d else r)
      rows.

(** [INSERT INTO devices]: refused when the primary key is taken. *)
Definition insert_row (rows : py (list Device.t)) (d : Device.t) : py (list Device.t) :=
  match rows with
  | Raise e => Raise e
  | Return rows =>
      if existsb (fun r => String.eqb (Device.device_id r) (Device.device_id d)) rows
      then Raise IntegrityError
      else Return (rows ++ [d])
  end.

(** The flush: the updates of the modified objects, then the inserts. *)
Definition flush (s : Session) : py Database :=
  match
    fold_left insert_row (new_devices s)
      (Return (fold_left (fun rows d => update_row d rows) (dirty s)
                 (devices (database s))))
  with
  | Raise e => Raise e
  | Return rows =>
      Return {| devices := rows;
                audit_logs := audit_logs (database s) ++ new_logs s |}
  end.

(** [db.commit()]: all of the pending work reaches the store, or none. *)
Definition commit : db_m unit :=
  fun s =>
    match flush s with
    | Return db' => (Return tt, SessionLocal db')
    | Raise e => (Raise e, s)
    end.

(** [db.rollback()] *)
Definition rollback (s : Session) : Session := SessionLocal (database s).

(** [db.close()] *)
Definition close (s : Session) : Session := SessionLocal (database s).

(** [get_db]: one session for one request, closed when the request ends.
    What remains is the committed content of the store. *)
Definition get_db {A} (handler : Session -> A * Session) (db : Database)
  : A * Database :=
  let '(a, s) := handler (SessionLocal db) in
  (a, database (close s)).

End Db.

(** ** [app/otp_service.py]: the service *)

(** The dict [verify_otp] returns: the key ["valid"], and ["error"] when
    the request was not evaluated to a plain verdict. *)
Record VerifyResult : Type := {
  valid : bool;
  error : option string
}.

(** The dict [register_device] returns. *)
Inductive RegisterResult : Type :=
| Registered (derived_key device_id message : string)
| RegisterError (error : string).

(** The dict [deactivate_device] returns. *)
Inductive DeactivateResult : Type :=
| Deactivated (message : string)
| DeactivateError (error : string).

Module EnterpriseOTPService.

Record t : Type := { master_secret : bytes }.

Section Service.

Variable settings : Settings.t.

(** [__init__] *)
Definition init : py t :=
  if String.eqb (Settings.master_secret settings) ""
  then Raise ValueError
  else Return {| master_secret := encode (Settings.master_secret settings) |}.

Variable self : t.

Definition generate_derived_key (device_id : string) : bytes :=
  HMAC.sha256 (master_secret self) (encode device_id).

(** The source's result for [otp_digits >= 0]: for a negative [otp_digits]
    the source computes [10 ** otp_digits] and the code as floats. *)
Definition _generate_otp (secret_key : bytes) (time_step : Z) : py Z :=
  (msg <- Struct.pack_Q time_step ;;
   let hmac_hash := HMAC.sha1 secret_key msg in
   last <- last_item hmac_hash ;;
   let offset := Z.land last 0x0F in
   let truncated_hash := slice hmac_hash offset (offset + 4) in
   word <- Struct.unpack_I truncated_hash ;;
   let code_int := Z.land word 0x7FFFFFFF in
   Return (code_int mod 10 ^ Settings.otp_digits settings))%py.

(** The body of the loop of [_verify_totp], over the offsets still to try. *)
Fixpoint _verify_totp_loop (secret_key : bytes) (otp current_time_step : Z)
  (offsets : list Z) : py bool :=
  match offsets with
  | [] => Return false
  | offset :: rest =>
      let time_step := current_time_step + offset in
      (code <- _generate_otp secret_key time_step ;;
       if code =? otp then Return true
       else _verify_totp_loop secret_key otp current_time_step rest)%py
  end.

Definition _verify_totp (secret_key : bytes) (otp : Z) (now : Z) : py bool :=
  (current_time_step <- time_step_of now (Settings.otp_interval settings) ;;
   _verify_totp_loop secret_key otp current_time_step
     (range (- Settings.otp_window settings) (Settings.otp_window settings + 1)))%py.

Definition _log_verification (device_id action : string) (success : bool)
  (ip_address : string) (now : Z) : db_m unit :=
  let audit_log := {|
    AuditLog.device_id := device_id;
    AuditLog.action := action;
    AuditLog.success := success;
    AuditLog.timestamp := now;
    AuditLog.ip_address := ip_address
  |} in
  Db.add_log audit_log.

Definition register_device (device_id user_id : string) (now : Z)
  : Session -> RegisterResult * Session :=
  try_except
    (existing_device <-
       Db.query_device_first (fun d => String.eqb (Device.device_id d) device_id) ;;
     match existing_device with
     | Some _ => db_ret (RegisterError "Device already registered")
     | None =>
         let derived_key := generate_derived_key device_id in
         let derived_key_b64 := string_of_list_ascii (b64encode derived_key) in
         let device :=
           Device.new device_id user_id (hex (SHA256.digest derived_key)) true now in
         Db.add_device device ;;
         let audit_log := {|
           AuditLog.device_id := device_id;
           AuditLog.action := "DEVICE_REGISTERED";
           AuditLog.success := true;
           AuditLog.timestamp := now;
           AuditLog.ip_address := "unknown"
         |} in
         Db.add_log audit_log ;;
         Db.commit ;;
         db_ret (Registered derived_key_b64 device_id "Device registered successfully")
     end)%db
    (fun _ s => (RegisterError "Registration failed", Db.rollback s)).

Definition verify_otp (device_id : string) (otp : Z) (ip_address : string) (now : Z)
  : Session -> VerifyResult * Session :=
  try_except
    (device <-
       Db.query_device_first
         (fun d => String.eqb (Device.device_id d) device_id
                   && Bool.eqb (Device.is_active d) true) ;;
     match device with
     | None =>
         _log_verification device_id "INVALID_DEVICE" false ip_address now ;;
         db_ret {| valid := false; error := Some "Device not found or inactive"%string |}
     | Some device =>
         recent_attempts <-
           Db.query_log_count
             (fun l => String.eqb (AuditLog.device_id l) device_id
                       && String.eqb (AuditLog.action l) "OTP_VERIFICATION"
                       && (now - minutes 5 <? AuditLog.timestamp l)) ;;
         if 10 <? recent_attempts then
           _log_verification device_id "RATE_LIMITED" false ip_address now ;;
           db_ret {| valid := false; error := Some "Rate limit exceeded"%string |}
         else
           let derived_key := generate_derived_key device_id in
           is_valid <- db_lift (_verify_totp derived_key otp now) ;;
           (if is_valid : bool then Db.modified (Device.set_used now device)
            else db_ret tt) ;;
           _log_verification device_id "OTP_VERIFICATION" is_valid ip_address now ;;
           Db.commit ;;
           db_ret {| valid := is_valid; error := None |}
     end)%db
    (fun _ s => ({| valid := false; error := Some "Verification failed"%string |},
                 Db.rollback s)).

Definition deactivate_device (device_id : string) (now : Z)
  : Session -> DeactivateResult * Session :=
  try_except
    (device <-
       Db.query_device_first (fun d => String.eqb (Device.device_id d) device_id) ;;
     match device with
     | None => db_ret (DeactivateError "Device not found")
     | Some device =>
         Db.modified (Device.set_deactivated now device) ;;
         let audit_log := {|
           AuditLog.device_id := device_id;
           AuditLog.action := "DEVICE_DEACTIVATED";
           AuditLog.success := true;
           AuditLog.timestamp := now;
           AuditLog.ip_address := "system"
         |} in
         Db.add_log audit_log ;;
         Db.commit ;;
         db_ret (Deactivated "Device deactivated successfully")
     end)%db
    (fun _ s => (DeactivateError "Deactivation failed", Db.rollback s)).

End Service.

End EnterpriseOTPService.

(** [ClientOTP], the client-side generator of [app/otp_service.py]. *)
Module ClientOTP.

Record t : Type := { derived_key : bytes }.

(** The source's result for [otp_digits >= 0], as for [_generate_otp]. *)
Definition generate_otp (settings : Settings.t) (self : t) (now : Z) : py Z :=
  (time_step <- time_step_of now (Settings.otp_interval settings) ;;
   msg <- Struct.pack_Q time_step ;;
   let hmac_hash := HMAC.sha1 (derived_key self) msg in
   last <- last_item hmac_hash ;;
   let offset := Z.land last 0x0F in
   let truncated_hash := slice hmac_hash offset (offset + 4) in
   word <- Struct.unpack_I truncated_hash ;;
   let code_int := Z.land word 0x7FFFFFFF in
   Return (code_int mod 10 ^ Settings.otp_digits settings))%py.

End ClientOTP.

(** ** The requests ([app/main.py])

    Each endpoint takes a session from [get_db], calls one method of the
    service and lets the session close. A request carries the instant at
    which it is served. *)

Inductive request : Type :=
| Register (device_id user_id : string)
| Verify (device_id : string) (otp : Z) (ip_address : string)
| Deactivate (device_id : string).

Inductive response : Type :=
| RegisterResponse (r : RegisterResult)
| VerifyResponse (r : VerifyResult)
| DeactivateResponse (r : DeactivateResult).

Section Requests.

Variable settings : Settings.t.
Variable self : EnterpriseOTPService.t.

Definition handle (req : request) (now : Z) (db : Database) : response * Database :=
  match req with
  | Register device_id user_id =>
      let '(r, db') :=
        Db.get_db (EnterpriseOTPService.register_device self device_id user_id now) db in
      (RegisterResponse r, db')
  | Verify device_id otp ip_address =>
      let '(r, db') :=
        Db.get_db
          (EnterpriseOTPService.verify_otp settings self device_id otp ip_address now) db in
      (VerifyResponse r, db')
  | Deactivate device_id =>
      let '(r, db') :=
        Db.get_db (EnterpriseOTPService.deactivate_device device_id now) db in
      (DeactivateResponse r, db')
  end.

(** The store after a sequence of requests, served one after the other. *)
Fixpoint run (reqs : list (request * Z)) (db : Database) : Database :=
  match reqs with
  | [] => db
  | (req, now) :: rest => run rest (snd (handle req now db))
  end.

End Requests.

(** ** The rows and filters the service uses, by name *)

(** [Device.device_id == device_id] *)
Definition has_id (device_id : string) (d : Device.t) : bool :=
  String.eqb (Device.device_id d) device_id.

(** [Device.device_id == device_id, Device.is_active == True] *)
Definition is_active_with_id (device_id : string) (d : Device.t) : bool :=
  String.eqb (Device.device_id d) device_id && Bool.eqb (Device.is_active d) true.

(** The actions of the audit rows that reach a commit. *)
Definition committed_action (l : AuditLog.t) : bool :=
  String.eqb (AuditLog.action l) "DEVICE_REGISTERED"
  || String.eqb (AuditLog.action l) "OTP_VERIFICATION"
  || String.eqb (AuditLog.action l) "DEVICE_DEACTIVATED".

(** The device row [register_device] adds. *)
Definition registration_row (self : EnterpriseOTPService.t)
  (device_id user_id : string) (now : Z) : Device.t :=
  Device.new device_id user_id
    (hex (SHA256.digest (EnterpriseOTPService.generate_derived_key self device_id)))
    true now.

(** An audit row. *)
Definition audit_row (device_id action : string) (success : bool) (now : Z)
  (ip_address : string) : AuditLog.t := {|
  AuditLog.device_id := device_id;
  AuditLog.action := action;
  AuditLog.success := success;
  AuditLog.timestamp := now;
  AuditLog.ip_address := ip_address
|}.

(** ** The specification's words, for comparison with the code *)

Module Spec.

Definition byte_at (d : bytes) (i : Z) : Z := nth (Z.to_nat i) d 0.

(** The big-endian 8-byte encoding of a time step. *)
Definition encode_time_step (time_step : Z) : bytes :=
  [time_step / 2 ^ 56 mod 256; time_step / 2 ^ 48 mod 256;
   time_step / 2 ^ 40 mod 256; time_step / 2 ^ 32 mod 256;
   time_step / 2 ^ 24 mod 256; time_step / 2 ^ 16 mod 256;
   time_step / 2 ^ 8 mod 256; time_step mod 256].

(** [code_at]: the keyed hash of the encoded time step; the low-order
    nibble of the final digest byte as a byte offset; the 4 bytes from that
    offset as a big-endian unsigned 32-bit integer; the sign bit cleared;
    the result reduced modulo [10^digits]. *)
Definition code_at (digits : Z) (secret : bytes) (time_step : Z) : Z :=
  let digest := HMAC.sha1 secret (encode_time_step time_step) in
  let offset := byte_at digest (Z.of_nat (length digest) - 1) mod 16 in
  let word :=
    byte_at digest offset * 2 ^ 24 + byte_at digest (offset + 1) * 2 ^ 16
    + byte_at digest (offset + 2) * 2 ^ 8 + byte_at digest (offset + 3) in
  let cleared := if word <? 2 ^ 31 then word else word - 2 ^ 31 in
  cleared mod 10 ^ digits.

(** [current_time_step] *)
Definition current_time_step (interval now : Z) : Z := now / interval.

(** A check of a code in the audit trail: the rows the service writes
    with action [OTP_VERIFICATION] are the specification's VERIFIED
    ([success] true) and VERIFICATION_REJECTED for a wrong code ([success]
    false). The rejection of an unavailable device, which the
    specification also records as VERIFICATION_REJECTED, has another action
    in the service and is no attempt in this sense. *)
Definition is_attempt (device_id : string) (l : AuditLog.t) : bool :=
  String.eqb (AuditLog.device_id l) device_id
  && String.eqb (AuditLog.action l) "OTP_VERIFICATION".

(** The count the service takes before the check of the code: the rows of
    a device with action [OTP_VERIFICATION] and a timestamp strictly later
    than 5 minutes before [now]. *)
Definition recent_attempts (db : Database) (device_id : string) (now : Z) : Z :=
  Z.of_nat
    (length
       (filter (fun l => is_attempt device_id l && (now - 300 <? AuditLog.timestamp l))
               (audit_logs db))).

(** An entry the specification counts as a verification attempt: VERIFIED
    or VERIFICATION_REJECTED. In the specification a rejection is recorded
    as VERIFICATION_REJECTED for a wrong code and also for a device that is
    absent or inactive; the service writes the first with action
    [OTP_VERIFICATION] and the second with action [INVALID_DEVICE]. *)
Definition is_verification_entry (device_id : string) (l : AuditLog.t) : bool :=
  String.eqb (AuditLog.device_id l) device_id
  && (String.eqb (AuditLog.action l) "OTP_VERIFICATION"
      || String.eqb (AuditLog.action l) "INVALID_DEVICE").

(** [attempts_in_window(device_id, window_seconds)], in the specification's
    words: the entries of action VERIFIED or VERIFICATION_REJECTED within
    [[now - window_seconds, now]], both ends included. It is not the count
    the service takes, which is [recent_attempts] above: that one leaves
    out the entries exactly [window_seconds] old and the rejections of an
    unavailable device. *)
Definition attempts_in_window (db : Database) (device_id : string)
  (window_seconds now : Z) : Z :=
  Z.of_nat
    (length
       (filter (fun l => is_verification_entry device_id l
                         && (now - window_seconds <=? AuditLog.timestamp l)
                         && (AuditLog.timestamp l <=? now))
               (audit_logs db))).

(** The outcomes of a verification request. *)
Definition DeviceUnavailable : VerifyResult :=
  {| valid := false; error := Some "Device not found or inactive"%string |}.

Definition RateLimited : VerifyResult :=
  {| valid := false; error := Some "Rate limit exceeded"%string |}.

Definition VerificationFailed : VerifyResult :=
  {| valid := false; error := Some "Verification failed"%string |}.

Definition Verdict (b : bool) : VerifyResult := {| valid := b; error := None |}.

(** The outcome of a rejected registration. *)
Definition AlreadyRegistered : RegisterResult :=
  RegisterError "Device already registered".

(** The rows of the device table with a given identifier. *)
Definition rows_of (device_id : string) (db : Database) : list Device.t :=
  filter (has_id device_id) (devices db).

(** The row of a device, by its identifier. *)
Definition find_device (device_id : string) (db : Database) : option Device.t :=
  find (has_id device_id) (devices db).

(** The primary key of the device table: no identifier occurs twice. *)
Definition pk_unique (db : Database) : Prop :=
  NoDup (map Device.device_id (devices db)).

(** Whether a request is a deactivation of a given device. *)
Definition deactivates (device_id : string) (req : request) : bool :=
  match req with
  | Deactivate d => String.eqb d device_id
  | _ => false
  end.

(** The instant of the last deactivation request for a device among
    [reqs], or [before] when there is none. *)
Fixpoint last_deactivation (device_id : string) (reqs : list (request * Z))
  (before : option Z) : option Z :=
  match reqs with
  | [] => before
  | (req, now) :: rest =>
      last_deactivation device_id rest
        (if deactivates device_id req then Some now else before)
  end.

(** Whether [reqs] holds a deactivation request for a device. *)
Definition deactivation_requested (device_id : string) (reqs : list (request * Z))
  : bool :=
  existsb (fun r => deactivates device_id (fst r)) reqs.


End Spec.

(** ** A scenario

    Eleven requests with a wrong code for the device ["D1"], one per
    second; they fill the rate limit of the device. *)
Definition eleven_attempts : list (request * Z) :=
  map (fun i => (Verify "D1" 0 "10.0.0.1", 1700000000 + Z.of_nat i)) (seq 1 11).

(** The rows of eleven rejections of the device ["D1"] as unavailable, one
    per second, with the action the service gives them, and a store that
    holds them beside the device, registered a second after the last. The
    service itself leaves such rows pending and never commits them; the
    store stands for an audit trail kept as the specification has it. *)
Definition eleven_rejections : list AuditLog.t :=
  map (fun i => audit_row "D1" "INVALID_DEVICE" false (1700000000 + Z.of_nat i)
                  "10.0.0.1")
      (seq 1 11).

Definition registered_after_rejections (self : EnterpriseOTPService.t) : Database := {|
  devices := [registration_row self "D1" "alice" 1700000012];
  audit_logs :=
    eleven_rejections ++ [audit_row "D1" "DEVICE_REGISTERED" true 1700000012 "unknown"]
|}.

(** ** [base64.b64decode]

    The decoder behind [ClientOTP.__init__], as [binascii.a2b_base64] runs
    in its default mode: characters outside the alphabet are skipped, a
    run of padding that completes a quad ends the input, and an incomplete
    quad at the end is an error ([None]). A [str] argument must be ASCII. *)

Module Base64.

Definition alphabet : list ascii :=
  list_ascii_of_string
    "ABCDEFGHIJKLMNOPQRSTUVWXYZabcdefghijklmnopqrstuvwxyz0123456789+/".

Fixpoint index_from (c : ascii) (l : list ascii) (i : Z) : option Z :=
  match l with
  | [] => None
  | x :: rest => if Ascii.eqb x c then Some i else index_from c rest (i + 1)
  end.

(** The value of a character of the alphabet. *)
Definition table_a2b (c : ascii) : option Z := index_from c alphabet 0.

Fixpoint a2b_base64 (cs : list ascii) (quad_pos : nat) (leftchar : Z) (pads : nat)
  (out : bytes) : option bytes :=
  match cs with
  | [] => if Nat.eqb quad_pos 0 then Some out else None
  | c :: rest =>
      if Ascii.eqb c "="%char then
        if (2 <=? quad_pos)%nat then
          if (4 <=? quad_pos + S pads)%nat then Some out
          else a2b_base64 rest quad_pos leftchar (S pads) out
        else a2b_base64 rest quad_pos leftchar pads out
      else
        match table_a2b c with
        | None => a2b_base64 rest quad_pos leftchar pads out
        | Some this_ch =>
            match quad_pos with
            | 0%nat => a2b_base64 rest 1 this_ch 0 out
            | 1%nat =>
                a2b_base64 rest 2 (Z.land this_ch 0x0f) 0
                  (out ++ [Z.lor (Z.shiftl leftchar 2) (Z.shiftr this_ch 4)])
            | 2%nat =>
                a2b_base64 rest 3 (Z.land this_ch 0x03) 0
                  (out ++ [Z.lor (Z.shiftl leftchar 4) (Z.shiftr this_ch 2)])
            | _ =>
                a2b_base64 rest 0 0 0 (out ++ [Z.lor (Z.shiftl leftchar 6) this_ch])
            end
        end
  end.

(** [base64.b64decode(s)] for a [str] *)
Definition b64decode (s : string) : option bytes :=
  if forallb (fun c => of_ascii c <? 128) (list_ascii_of_string s)
  then a2b_base64 (list_ascii_of_string s) 0 0 0 []
  else None.

End Base64.


(** ** [otp.py]: [main]

    The flow [main] simulates, without the printing: the server derives
    the key of the device, the client generates a code from it, the server
    verifies the code. The client reads the clock first, the server after
    it. The result is the code and the verdict printed. *)
Definition otp_main (t_client t_server : Z) : py (Z * bool) :=
  let master_secret := encode "A7F3C94E91D6B1EEB2AA7792DD4F3211" in
  let device_id := encode "DEVICE-XY-123456" in
  let server := {| Server.master_secret := master_secret |} in
  let derived_key := Server.generate_derived_key server device_id in
  let client := {| Client.derived_key := derived_key |} in
  (client_otp <- Client.generate_otp client 6 30 t_client ;;
   is_valid <- Server.verify_otp server device_id client_otp 6 30 1 t_server ;;
   Return (client_otp, is_valid))%py.

(** ** Requests with their responses *)

Section Serving.

Variable settings : Settings.t.
Variable self : EnterpriseOTPService.t.

(** The responses to a sequence of requests, and the store they leave. *)
Fixpoint serve (reqs : list (request * Z)) (db : Database)
  : list response * Database :=
  match reqs with
  | [] => ([], db)
  | (req, now) :: rest =>
      let '(r, db1) := handle settings self req now db in
      let '(rs, db2) := serve rest db1 in
      (r :: rs, db2)
  end.

End Serving.

(** The error a response carries, if any. *)
Definition response_error (r : response) : option string :=
  match r with
  | RegisterResponse (Registered _ _ _) => None
  | RegisterResponse (RegisterError e) => Some e
  | VerifyResponse r => error r
  | DeactivateResponse (Deactivated _) => None
  | DeactivateResponse (DeactivateError e) => Some e
  end.

(** Whether a request and its response are a verification of a given
    device with a true verdict. *)
Definition verified (device_id : string) (req : request) (r : response) : bool :=
  match req, r with
  | Verify d _ _, VerifyResponse v => String.eqb d device_id && valid v
  | _, _ => false
  end.

(** The number of verifications of a device with a true verdict. *)
Fixpoint count_verified (device_id : string) (reqs : list (request * Z))
  (rs : list response) : Z :=
  match reqs, rs with
  | (req, _) :: reqs', r :: rs' =>
      (if verified device_id req r then 1 else 0) + count_verified device_id reqs' rs'
  | _, _ => 0
  end.

(** The audit row of a request that was served without error. *)
Definition audit_row_of (req : request) (r : response) (now : Z) : AuditLog.t :=
  match req with
  | Register d _ => audit_row d "DEVICE_REGISTERED" true now "unknown"
  | Verify d _ ip =>
      audit_row d "OTP_VERIFICATION"
        (match r with VerifyResponse v => valid v | _ => false end) now ip
  | Deactivate d => audit_row d "DEVICE_DEACTIVATED" true now "system"
  end.

(** The requests are served in the order of their instants, none before
    [t]. *)
Fixpoint in_time_order (t : Z) (reqs : list (request * Z)) : Prop :=
  match reqs with
  | [] => True
  | (_, now) :: rest => t <= now /\ in_time_order now rest
  end.

(** The instant of the last request, or [t] when there is none. *)
Fixpoint last_instant (t : Z) (reqs : list (request * Z)) : Z :=
  match reqs with
  | [] => t
  | (_, now) :: rest => last_instant now rest
  end.

(** ** [app/main.py]: the endpoints

    An endpoint answers with a body (status 200) or raises
    [HTTPException]. The bearer token has been read by [HTTPBearer]; the
    request body has passed the Pydantic model. [api_key] is
    [settings.api_key]. *)

Module Main.

Inductive http (A : Type) : Type :=
| Respond (body : A)
| HTTPException (status_code : Z) (detail : string).

Arguments Respond {A} body.
Arguments HTTPException {A} status_code detail.

(** The [data] dict of an [APIResponse]. *)
Inductive data_dict : Type :=
| NoData
| RegisteredData (device_id derived_key : string)
| ValidData (valid : bool).

Record APIResponse : Type := {
  success : bool;
  message : string;
  data : data_dict
}.

Section Endpoints.

Variable settings : Settings.t.
Variable api_key : string.
Variable otp_service : EnterpriseOTPService.t.

Definition verify_api_key (credentials : string) : http string :=
  if String.eqb api_key "" || negb (String.eqb credentials api_key)
  then HTTPException 401 "Invalid API key"
  else Respond credentials.

Definition register_device (credentials device_id user_id : string) (now : Z)
  (db : Database) : http APIResponse * Database :=
  match verify_api_key credentials with
  | HTTPException status_code detail => (HTTPException status_code detail, db)
  | Respond _ =>
      let '(result, db') :=
        Db.get_db
          (EnterpriseOTPService.register_device otp_service device_id user_id now) db in
      match result with
      | RegisterError e => (HTTPException 400 e, db')
      | Registered derived_key device_id _ =>
          (Respond {| success := true;
                      message := "Device registered successfully";
                      data := RegisteredData device_id derived_key |}, db')
      end
  end.

Definition verify_otp (credentials device_id : string) (otp : Z) (client_ip : string)
  (now : Z) (db : Database) : http APIResponse * Database :=
  match verify_api_key credentials with
  | HTTPException status_code detail => (HTTPException status_code detail, db)
  | Respond _ =>
      let '(result, db') :=
        Db.get_db
          (EnterpriseOTPService.verify_otp settings otp_service device_id otp
             client_ip now) db in
      match error result with
      | Some e => (HTTPException 400 e, db')
      | None =>
          (Respond {| success := true;
                      message := "OTP verification completed";
                      data := ValidData (valid result) |}, db')
      end
  end.

Definition deactivate_device (credentials device_id : string) (now : Z)
  (db : Database) : http APIResponse * Database :=
  match verify_api_key credentials with
  | HTTPException status_code detail => (HTTPException status_code detail, db)
  | Respond _ =>
      let '(result, db') :=
        Db.get_db (EnterpriseOTPService.deactivate_device device_id now) db in
      match result with
      | DeactivateError e => (HTTPException 400 e, db')
      | Deactivated m =>
          (Respond {| success := true; message := m; data := NoData |}, db')
      end
  end.

End Endpoints.

End Main.

(** ** Settings for scenarios

    The default settings with the three options of the code check
    replaced. *)
Definition settings_with (digits interval window : Z) : Settings.t := {|
  Settings.master_secret := "M";
  Settings.otp_digits := digits;
  Settings.otp_interval := interval;
  Settings.otp_window := window;
  Settings.rate_limit_requests := 10;
  Settings.rate_limit_window := 60
|}.

(** ** [simple_app.py]: the variant with in-memory tables

    The global dict [devices_db] is a list of entries in insertion order,
    one for each key; the global list [audit_logs] is a list. The times
    the source stores as ISO text are carried as instants. The response
    classes are those of [app/main.py]. Nothing in the bodies of the
    registration and the deactivation raises; the check of the code can,
    and the endpoint then answers 500. *)

Module SimpleApp.

Module SimpleOTPService.

Record t : Type := { master_secret : bytes }.

Definition generate_derived_key (self : t) (device_id : string) : bytes :=
  HMAC.sha256 (master_secret self) (encode device_id).

(** The source's result for [digits >= 0]. *)
Definition generate_otp (secret_key : bytes) (digits interval : Z) (now : Z) : py Z :=
  (time_step <- time_step_of now interval ;;
   msg <- Struct.pack_Q time_step ;;
   let hmac_hash := HMAC.sha1 secret_key msg in
   last <- last_item hmac_hash ;;
   let offset := Z.land last 0x0F in
   let truncated_hash := slice hmac_hash offset (offset + 4) in
   word <- Struct.unpack_I truncated_hash ;;
   let code_int := Z.land word 0x7FFFFFFF in
   Return (code_int mod 10 ^ digits))%py.

Definition generate_otp_at_time (secret_key : bytes) (time_step : Z) : py Z :=
  (msg <- Struct.pack_Q time_step ;;
   let hmac_hash := HMAC.sha1 secret_key msg in
   last <- last_item hmac_hash ;;
   let offset := Z.land last 0x0F in
   let truncated_hash := slice hmac_hash offset (offset + 4) in
   word <- Struct.unpack_I truncated_hash ;;
   let code_int := Z.land word 0x7FFFFFFF in
   Return (code_int mod 10 ^ 6))%py.

(** The body of the loop of [verify_otp], over the offsets still to try. *)
Fixpoint verify_loop (derived_key : bytes) (otp current_time_step : Z)
  (offsets : list Z) : py bool :=
  match offsets with
  | [] => Return false
  | offset :: rest =>
      let time_step := current_time_step + offset in
      (code <- generate_otp_at_time derived_key time_step ;;
       if code =? otp then Return true
       else verify_loop derived_key otp current_time_step rest)%py
  end.

Definition verify_otp (self : t) (device_id : string) (otp window : Z) (now : Z)
  : py bool :=
  let derived_key := generate_derived_key self device_id in
  (current_time_step <- time_step_of now 30 ;;
   verify_loop derived_key otp current_time_step (range (- window) (window + 1)))%py.

End SimpleOTPService.

(** An entry of [devices_db]; the key ["deactivated_at"] is absent until
    the device is deactivated. *)
Record device : Type := {
  user_id : string;
  created_at : Z;
  is_active : bool;
  deactivated_at : option Z
}.

(** An entry of [audit_logs]; only verifications carry ["ip_address"]. *)
Record audit : Type := {
  device_id : string;
  action : string;
  success : bool;
  timestamp : Z;
  ip_address : option string
}.

Record state : Type := {
  devices_db : list (string * device);
  audit_logs : list audit
}.

Definition empty_state : state := {| devices_db := []; audit_logs := [] |}.

(** [devices_db.get(device_id)] *)
Definition lookup (device_id : string) (st : state) : option device :=
  option_map snd (find (fun kv => String.eqb (fst kv) device_id) (devices_db st)).

Section Endpoints.

Variable API_KEY : string.
Variable otp_service : SimpleOTPService.t.

Definition verify_api_key (credentials : string) : Main.http string :=
  if negb (String.eqb credentials API_KEY)
  then Main.HTTPException 401 "Invalid API key"
  else Main.Respond credentials.

Definition register_device (credentials device_id user_id : string) (now : Z)
  (st : state) : Main.http Main.APIResponse * state :=
  match verify_api_key credentials with
  | Main.HTTPException status_code detail => (Main.HTTPException status_code detail, st)
  | Main.Respond _ =>
      match lookup device_id st with
      | Some _ => (Main.HTTPException 400 "Device already registered", st)
      | None =>
          let derived_key :=
            SimpleOTPService.generate_derived_key otp_service device_id in
          let derived_key_b64 := string_of_list_ascii (b64encode derived_key) in
          (Main.Respond {| Main.success := true;
                           Main.message := "Device registered successfully";
                           Main.data := Main.RegisteredData device_id derived_key_b64 |},
           {| devices_db :=
                devices_db st
                ++ [(device_id, {| user_id := user_id; created_at := now;
                                   is_active := true; deactivated_at := None |})];
              audit_logs :=
                audit_logs st
                ++ [{| device_id := device_id; action := "DEVICE_REGISTERED";
                       success := true; timestamp := now; ip_address := None |}] |})
      end
  end.

Definition verify_otp (credentials device_id : string) (otp : Z) (client_host : string)
  (now : Z) (st : state) : Main.http Main.APIResponse * state :=
  match verify_api_key credentials with
  | Main.HTTPException status_code detail => (Main.HTTPException status_code detail, st)
  | Main.Respond _ =>
      match lookup device_id st with
      | None => (Main.HTTPException 400 "Device not found", st)
      | Some device =>
          if negb (is_active device)
          then (Main.HTTPException 400 "Device is inactive", st)
          else
            match SimpleOTPService.verify_otp otp_service device_id otp 1 now with
            | Raise _ => (Main.HTTPException 500 "Verification failed", st)
            | Return is_valid =>
                (Main.Respond {| Main.success := true;
                                 Main.message := "OTP verification completed";
                                 Main.data := Main.ValidData is_valid |},
                 {| devices_db := devices_db st;
                    audit_logs :=
                      audit_logs st
                      ++ [{| device_id := device_id; action := "OTP_VERIFICATION";
                             success := is_valid; timestamp := now;
                             ip_address := Some client_host |}] |})
            end
      end
  end.

Definition deactivate_device (credentials device_id : string) (now : Z) (st : state)
  : Main.http Main.APIResponse * state :=
  match verify_api_key credentials with
  | Main.HTTPException status_code detail => (Main.HTTPException status_code detail, st)
  | Main.Respond _ =>
      match lookup device_id st with
      | None => (Main.HTTPException 400 "Device not found", st)
      | Some _ =>
          (Main.Respond {| Main.success := true;
                           Main.message := "Device deactivated successfully";
                           Main.data := Main.NoData |},
           {| devices_db :=
                map (fun kv =>
                       if String.eqb (fst kv) device_id
                       then (fst kv,
                             {| user_id := user_id (snd kv);
                                created_at := created_at (snd kv);
                                is_active := false;
                                deactivated_at := Some now |})
                       else kv) (devices_db st);
              audit_logs :=
                audit_logs st
                ++ [{| device_id := device_id; action := "DEVICE_DEACTIVATED";
                       success := true; timestamp := now; ip_address := None |}] |})
      end
  end.

End Endpoints.

End SimpleApp.

(* ===================================================================== *)
(** * Part II: lemmas and theorems                                       *)
(* ===================================================================== *)

(** ** Byte strings and digests *)

Lemma length_big_endian (n : nat) (x : Z) : length (big_endian n x) = n.
Proof.
  unfold big_endian. now rewrite length_map, length_rev, length_seq.
Qed.

Lemma big_endian_8_spec (x : Z) : big_endian 8 x = Spec.encode_time_step x.
Proof.
  assert (byte : forall k, 0 <= k ->
            Z.land (Z.shiftr x k) 255 = x / 2 ^ k mod 256).
  { intros k Hk. rewrite Z.shiftr_div_pow2 by assumption.
    change 255 with (Z.ones 8). now rewrite Z.land_ones by lia. }
  unfold big_endian, Spec.encode_time_step. cbn [seq rev app map].
  rewrite !byte by lia.
  change (8 * Z.of_nat 0) with 0. rewrite Z.pow_0_r, Z.div_1_r.
  reflexivity.
Qed.

Lemma sha1_digest_length (msg : bytes) : length (SHA1.digest msg) = 20%nat.
Proof.
  unfold SHA1.digest.
  destruct (fold_left SHA1.compress (Word32.blocks msg) SHA1.init)
    as [[[[h0 h1] h2] h3] h4].
  now rewrite !length_app, !length_big_endian.
Qed.

Lemma sha256_digest_length (msg : bytes) : length (SHA256.digest msg) = 32%nat.
Proof.
  unfold SHA256.digest.
  destruct (fold_left SHA256.compress (Word32.blocks msg) SHA256.init)
    as [[[[[[[h0 h1] h2] h3] h4] h5] h6] h7].
  now rewrite !length_app, !length_big_endian.
Qed.

Lemma hmac_sha1_length (key msg : bytes) : length (HMAC.sha1 key msg) = 20%nat.
Proof. apply sha1_digest_length. Qed.

Lemma hmac_sha256_length (key msg : bytes) : length (HMAC.sha256 key msg) = 32%nat.
Proof. apply sha256_digest_length. Qed.

Lemma last_item_nth (l : bytes) :
  l <> [] -> last_item l = Return (Spec.byte_at l (Z.of_nat (length l) - 1)).
Proof.
  intros Hl. unfold last_item, Spec.byte_at.
  destruct (rev l) as [|x r] eqn:E.
  - apply (f_equal (@rev Z)) in E. rewrite rev_involutive in E. contradiction.
  - apply (f_equal (@rev Z)) in E. rewrite rev_involutive in E. cbn in E.
    subst l. rewrite length_app. cbn [length].
    replace (Z.to_nat (Z.of_nat (length (rev r) + 1) - 1)) with (length (rev r)) by lia.
    now rewrite nth_middle.
Qed.

Lemma skipn_four (l : bytes) (n : nat) :
  (n + 4 <= length l)%nat ->
  firstn 4 (skipn n l)
  = [nth n l 0; nth (n + 1) l 0; nth (n + 2) l 0; nth (n + 3) l 0].
Proof.
  revert l. induction n as [|n IH]; intros l Hl.
  - destruct l as [|a [|b [|c [|d l]]]]; cbn in Hl; try lia. reflexivity.
  - destruct l as [|a l]; cbn in Hl; [lia|].
    cbn [skipn Nat.add nth]. apply IH. lia.
Qed.

Lemma slice_four (l : bytes) (o : Z) :
  0 <= o -> (Z.to_nat o + 4 <= length l)%nat ->
  slice l o (o + 4)
  = [Spec.byte_at l o; Spec.byte_at l (o + 1); Spec.byte_at l (o + 2);
     Spec.byte_at l (o + 3)].
Proof.
  intros Ho Hl. unfold slice, Spec.byte_at.
  replace (Z.to_nat (o + 4 - o)) with 4%nat by lia.
  rewrite skipn_four by assumption.
  now rewrite !Z2Nat.inj_add by lia.
Qed.

Lemma land_low_nibble (x : Z) : Z.land x 0x0F = x mod 16.
Proof. change 0x0F with (Z.ones 4). now rewrite Z.land_ones by lia. Qed.

Lemma land_clear_sign (x : Z) : Z.land x 0x7FFFFFFF = x mod 2 ^ 31.
Proof. change 0x7FFFFFFF with (Z.ones 31). now rewrite Z.land_ones by lia. Qed.

Lemma big_endian_bytes (n : nat) (x : Z) :
  Forall (fun b => 0 <= b < 256) (big_endian n x).
Proof.
  unfold big_endian. apply Forall_map, Forall_forall. intros i _.
  change 255 with (Z.ones 8). rewrite Z.land_ones by lia.
  apply Z.mod_pos_bound. lia.
Qed.

Lemma sha1_digest_bytes (msg : bytes) :
  Forall (fun b => 0 <= b < 256) (SHA1.digest msg).
Proof.
  unfold SHA1.digest.
  destruct (fold_left SHA1.compress (Word32.blocks msg) SHA1.init)
    as [[[[h0 h1] h2] h3] h4].
  repeat (apply Forall_app; split); apply big_endian_bytes.
Qed.

Lemma byte_at_range (d : bytes) (i : Z) :
  Forall (fun b => 0 <= b < 256) d -> 0 <= Spec.byte_at d i < 256.
Proof.
  intros Hd. unfold Spec.byte_at.
  destruct (Nat.lt_ge_cases (Z.to_nat i) (length d)) as [Hlt | Hge].
  - rewrite Forall_forall in Hd. apply Hd. now apply nth_In.
  - rewrite nth_overflow by assumption. lia.
Qed.

Lemma hmac_sha1_byte (key msg : bytes) (i : Z) :
  0 <= Spec.byte_at (HMAC.sha1 key msg) i < 256.
Proof. apply byte_at_range, sha1_digest_bytes. Qed.

(** ** The hash functions on published test vectors *)

Example sha1_abc :
  hex (SHA1.digest (encode "abc")) = "a9993e364706816aba3e25717850c26c9cd0d89d"%string.
Proof. vm_compute. reflexivity. Qed.

Example sha1_two_blocks :
  hex (SHA1.digest
         (encode "abcdbcdecdefdefgefghfghighijhijkijkljklmklmnlmnomnopnopq"))
  = "84983e441c3bd26ebaae4aa1f95129e5e54670f1"%string.
Proof. vm_compute. reflexivity. Qed.

Example sha256_abc :
  hex (SHA256.digest (encode "abc"))
  = "ba7816bf8f01cfea414140de5dae2223b00361a396177a9cb410ff61f20015ad"%string.
Proof. vm_compute. reflexivity. Qed.

(** RFC 2202, test cases 1, 2 and 6 (a key longer than a block). *)
Example hmac_sha1_rfc2202_1 :
  hex (HMAC.sha1 (repeat 0x0b 20) (encode "Hi There"))
  = "b617318655057264e28bc0b6fb378c8ef146be00"%string.
Proof. vm_compute. reflexivity. Qed.

Example hmac_sha1_rfc2202_2 :
  hex (HMAC.sha1 (encode "Jefe") (encode "what do ya want for nothing?"))
  = "effcdf6ae5eb2fa2d27416d5f184df9c259a7c79"%string.
Proof. vm_compute. reflexivity. Qed.

Example hmac_sha1_rfc2202_6 :
  hex (HMAC.sha1 (repeat 0xaa 80)
         (encode "Test Using Larger Than Block-Size Key - Hash Key First"))
  = "aa4ae5e15272d00e95705637ce8a3b55ed402112"%string.
Proof. vm_compute. reflexivity. Qed.

(** RFC 4231, test case 2. *)
Example hmac_sha256_rfc4231_2 :
  hex (HMAC.sha256 (encode "Jefe") (encode "what do ya want for nothing?"))
  = "5bdcc146bf60754e6a042426089575c75a003f089d2739839dec58b964ec3843"%string.
Proof. vm_compute. reflexivity. Qed.

Example b64encode_padding :
  map (fun s => string_of_list_ascii (b64encode (encode s)))
      ["a"%string; "ab"%string; "abc"%string; "abcd"%string]
  = ["YQ=="%string; "YWI="%string; "YWJj"%string; "YWJjZA=="%string].
Proof. vm_compute. reflexivity. Qed.

(** RFC 6238, appendix B: the 8-digit codes of the SHA-1 key at the times
    59, 1111111109, 1111111111, 1234567890, 2000000000 and 20000000000. *)
Example totp_rfc6238 :
  map (fun now => Client.generate_otp
                    {| Client.derived_key := encode "12345678901234567890" |} 8 30 now)
      [59; 1111111109; 1111111111; 1234567890; 2000000000; 20000000000]
  = map Return [94287082; 7081804; 14050471; 89005924; 69279037; 65353130].
Proof. vm_compute. reflexivity. Qed.

(** ** Code generation *)

Lemma pack_Q_in_range (n : Z) :
  0 <= n < 2 ^ 64 -> Struct.pack_Q n = Return (Spec.encode_time_step n).
Proof.
  intros Hn. unfold Struct.pack_Q.
  replace ((0 <=? n) && (n <? 2 ^ 64)) with true by (symmetry; apply andb_true_iff; lia).
  now rewrite big_endian_8_spec.
Qed.

Lemma pack_Q_out_of_range (n : Z) :
  n < 0 \/ 2 ^ 64 <= n -> Struct.pack_Q n = Raise StructError.
Proof.
  intros Hn. unfold Struct.pack_Q.
  replace ((0 <=? n) && (n <? 2 ^ 64)) with false; [reflexivity|].
  symmetry. apply andb_false_iff. lia.
Qed.

(** The code of [Server._generate_otp] is the dynamic truncation of the
    specification, for every time step that fits 8 bytes. *)
Lemma server_generate_otp_spec (secret : bytes) (time_step digits : Z) :
  0 <= time_step < 2 ^ 64 ->
  Server._generate_otp secret time_step digits
  = Return (Spec.code_at digits secret time_step).
Proof.
  intros Hts. unfold Server._generate_otp, Spec.code_at.
  rewrite pack_Q_in_range by assumption. cbn [py_bind].
  set (digest := HMAC.sha1 secret (Spec.encode_time_step time_step)).
  assert (Hlen : length digest = 20%nat) by apply hmac_sha1_length.
  rewrite last_item_nth by (intros E; rewrite E in Hlen; discriminate).
  cbn [py_bind]. rewrite land_low_nibble.
  set (offset := Spec.byte_at digest (Z.of_nat (length digest) - 1) mod 16).
  assert (Hoff : 0 <= offset < 16) by (apply Z.mod_pos_bound; lia).
  rewrite slice_four by lia.
  cbn [Struct.unpack_I py_bind from_big_endian fold_left].
  rewrite land_clear_sign. do 2 f_equal.
  pose proof (hmac_sha1_byte secret (Spec.encode_time_step time_step) offset) as B0.
  pose proof (hmac_sha1_byte secret (Spec.encode_time_step time_step) (offset + 1)) as B1.
  pose proof (hmac_sha1_byte secret (Spec.encode_time_step time_step) (offset + 2)) as B2.
  pose proof (hmac_sha1_byte secret (Spec.encode_time_step time_step) (offset + 3)) as B3.
  fold digest in B0, B1, B2, B3.
  set (b0 := Spec.byte_at digest offset) in *.
  set (b1 := Spec.byte_at digest (offset + 1)) in *.
  set (b2 := Spec.byte_at digest (offset + 2)) in *.
  set (b3 := Spec.byte_at digest (offset + 3)) in *.
  replace (((0 * 256 + b0) * 256 + b1) * 256 + b2) with (b0 * 2 ^ 16 + b1 * 2 ^ 8 + b2)
    by lia.
  replace (b0 * 2 ^ 24 + b1 * 2 ^ 16 + b2 * 2 ^ 8 + b3)
    with ((b0 * 2 ^ 16 + b1 * 2 ^ 8 + b2) * 256 + b3) by lia.
  set (w := (b0 * 2 ^ 16 + b1 * 2 ^ 8 + b2) * 256 + b3).
  assert (Hw : 0 <= w < 2 ^ 32) by (unfold w; lia).
  destruct (Z.ltb_spec w (2 ^ 31)) as [Hlt | Hge].
  - apply Z.mod_small. lia.
  - symmetry. apply Z.mod_unique with (q := 1); lia.
Qed.

Lemma enterprise_generate_otp_server (settings : Settings.t) (secret : bytes)
  (time_step : Z) :
  EnterpriseOTPService._generate_otp settings secret time_step
  = Server._generate_otp secret time_step (Settings.otp_digits settings).
Proof. reflexivity. Qed.

Lemma generate_otp_in_range (settings : Settings.t) (secret : bytes) (time_step : Z) :
  0 <= time_step < 2 ^ 64 ->
  EnterpriseOTPService._generate_otp settings secret time_step
  = Return (Spec.code_at (Settings.otp_digits settings) secret time_step).
Proof.
  intros Hts. rewrite enterprise_generate_otp_server.
  now apply server_generate_otp_spec.
Qed.

Lemma generate_otp_out_of_range (settings : Settings.t) (secret : bytes)
  (time_step : Z) :
  time_step < 0 \/ 2 ^ 64 <= time_step ->
  EnterpriseOTPService._generate_otp settings secret time_step = Raise StructError.
Proof.
  intros Hts. unfold EnterpriseOTPService._generate_otp.
  now rewrite pack_Q_out_of_range.
Qed.

Lemma code_at_bounds (digits : Z) (secret : bytes) (time_step : Z) :
  0 <= digits -> 0 <= Spec.code_at digits secret time_step < 10 ^ digits.
Proof.
  intros Hd. unfold Spec.code_at. apply Z.mod_pos_bound.
  apply Z.pow_pos_nonneg; lia.
Qed.

(** C1. For every secret and every time step (an unsigned 64-bit integer),
    the code the service generates, in [app/otp_service.py] and in
    [otp.py] alike, is the dynamic-truncation value of the specification:
    HMAC-SHA1 over the 8-byte big-endian time step keyed by the secret,
    offset from the low nibble of the last digest byte, 4 bytes read
    big-endian, sign bit cleared, modulo [10^digits]. The code is a
    function of the secret and the time step and lies in [0, 10^digits). *)
Theorem generate_otp_dynamic_truncation (settings : Settings.t) (secret : bytes)
  (time_step : Z) :
  0 <= Settings.otp_digits settings ->
  0 <= time_step < 2 ^ 64 ->
  let code := Spec.code_at (Settings.otp_digits settings) secret time_step in
  EnterpriseOTPService._generate_otp settings secret time_step = Return code
  /\ Server._generate_otp secret time_step (Settings.otp_digits settings) = Return code
  /\ 0 <= code < 10 ^ Settings.otp_digits settings.
Proof.
  intros Hd Hts code. repeat split.
  - now apply generate_otp_in_range.
  - now apply server_generate_otp_spec.
  - apply code_at_bounds; assumption.
  - apply code_at_bounds; assumption.
Qed.

(** The theorem at the test vector of RFC 6238 (time 59, step 1). *)
Lemma generate_otp_dynamic_truncation_witness :
  let settings := Settings.default "M" in
  let secret := encode "12345678901234567890" in
  EnterpriseOTPService._generate_otp settings secret 1 = Return 287082
  /\ Server._generate_otp secret 1 6 = Return 287082
  /\ 0 <= 287082 < 10 ^ 6.
Proof.
  intros settings secret.
  assert (Hcode : Spec.code_at (Settings.otp_digits settings) secret 1 = 287082)
    by (vm_compute; reflexivity).
  rewrite <- Hcode.
  apply (generate_otp_dynamic_truncation settings secret 1); cbn; lia.
Defined.

(** ** Verification against the window *)

Lemma in_range (lo hi k : Z) : In k (range lo hi) <-> lo <= k < hi.
Proof.
  unfold range. rewrite in_map_iff. split.
  - intros [i [<- Hi]]. apply in_seq in Hi. lia.
  - intros Hk. exists (Z.to_nat (k - lo)). split; [lia|]. apply in_seq. lia.
Qed.

Lemma range_cons (lo hi : Z) : lo < hi -> range lo hi = lo :: range (lo + 1) hi.
Proof.
  intros Hlt. unfold range.
  replace (Z.to_nat (hi - lo)) with (S (Z.to_nat (hi - (lo + 1)))) by lia.
  cbn [seq map]. f_equal; [lia|].
  rewrite <- seq_shift, map_map. apply map_ext. intros i. lia.
Qed.

Lemma range_empty (lo hi : Z) : hi <= lo -> range lo hi = [].
Proof.
  intros Hle. unfold range. now replace (Z.to_nat (hi - lo)) with 0%nat by lia.
Qed.

Section Window.

Variable settings : Settings.t.
Variable secret : bytes.
Variable otp : Z.

Let digits := Settings.otp_digits settings.
Let interval := Settings.otp_interval settings.
Let window := Settings.otp_window settings.

(** While every step tried fits 8 bytes, the loop is a search for the
    candidate among the codes of the steps. *)
Lemma verify_totp_loop_in_range (current : Z) (offsets : list Z) :
  (forall o, In o offsets -> 0 <= current + o < 2 ^ 64) ->
  EnterpriseOTPService._verify_totp_loop settings secret otp current offsets
  = Return (existsb (fun o => Spec.code_at digits secret (current + o) =? otp) offsets).
Proof.
  induction offsets as [|o rest IH]; intros Hin; [reflexivity|].
  cbn [EnterpriseOTPService._verify_totp_loop existsb].
  rewrite generate_otp_in_range by (apply Hin; now left).
  cbn [py_bind]. fold digits.
  destruct (Spec.code_at digits secret (current + o) =? otp); [reflexivity|].
  apply IH. intros o' Ho'. apply Hin. now right.
Qed.

(** The loop stops with [struct.error] at a first step that is negative. *)
Lemma verify_totp_loop_negative_first (current o : Z) (rest : list Z) :
  current + o < 0 ->
  EnterpriseOTPService._verify_totp_loop settings secret otp current (o :: rest)
  = Raise StructError.
Proof.
  intros Hneg. cbn [EnterpriseOTPService._verify_totp_loop].
  rewrite generate_otp_out_of_range by (now left). reflexivity.
Qed.

Lemma time_step_of_positive (now : Z) :
  0 < interval -> time_step_of now interval = Return (Spec.current_time_step interval now).
Proof.
  intros Hpos. unfold time_step_of.
  destruct (Z.eqb_spec interval 0); [lia | reflexivity].
Qed.

Lemma verify_totp_in_range (now : Z) :
  0 < interval ->
  window <= Spec.current_time_step interval now ->
  Spec.current_time_step interval now + window < 2 ^ 64 ->
  EnterpriseOTPService._verify_totp settings secret otp now
  = Return (existsb (fun k => Spec.code_at digits secret
                                (Spec.current_time_step interval now + k) =? otp)
                    (range (- window) (window + 1))).
Proof.
  intros Hi Hlo Hhi. unfold EnterpriseOTPService._verify_totp.
  fold interval window. rewrite time_step_of_positive by assumption.
  cbn [py_bind]. apply verify_totp_loop_in_range.
  intros k Hk. apply in_range in Hk. lia.
Qed.

(** Within the first [window] time steps after the epoch the first step
    tried is negative, and the verification raises. *)
Lemma verify_totp_near_epoch (now : Z) :
  0 < interval -> 0 <= window ->
  Spec.current_time_step interval now < window ->
  EnterpriseOTPService._verify_totp settings secret otp now = Raise StructError.
Proof.
  intros Hi Hw Hlt. unfold EnterpriseOTPService._verify_totp.
  fold interval window. rewrite time_step_of_positive by assumption.
  cbn [py_bind]. rewrite range_cons by lia.
  apply verify_totp_loop_negative_first. lia.
Qed.

End Window.

(** The stand-alone server of [otp.py] checks the same window. *)
Lemma server_verify_loop_enterprise (settings : Settings.t) (key : bytes)
  (otp current : Z) (offsets : list Z) :
  Server.verify_loop key otp (Settings.otp_digits settings) current offsets
  = EnterpriseOTPService._verify_totp_loop settings key otp current offsets.
Proof.
  induction offsets as [|o rest IH]; [reflexivity|].
  cbn [Server.verify_loop EnterpriseOTPService._verify_totp_loop].
  rewrite enterprise_generate_otp_server.
  destruct (Server._generate_otp key (current + o) (Settings.otp_digits settings));
    cbn [py_bind]; [|reflexivity].
  now rewrite IH.
Qed.

Lemma server_verify_otp_enterprise (settings : Settings.t) (self : Server.t)
  (device_id : bytes) (otp now : Z) :
  Server.verify_otp self device_id otp (Settings.otp_digits settings)
    (Settings.otp_interval settings) (Settings.otp_window settings) now
  = EnterpriseOTPService._verify_totp settings
      (Server.generate_derived_key self device_id) otp now.
Proof.
  unfold Server.verify_otp, EnterpriseOTPService._verify_totp.
  destruct (time_step_of now (Settings.otp_interval settings)); cbn [py_bind];
    [|reflexivity].
  apply server_verify_loop_enterprise.
Qed.

(** Below [2^53] seconds a window that starts at a step that fits 8 bytes
    also ends at one. *)
Lemma window_fits (interval window now : Z) :
  0 < interval -> now < 2 ^ 53 ->
  window <= Spec.current_time_step interval now ->
  Spec.current_time_step interval now + window < 2 ^ 64.
Proof.
  intros Hi Hnow Hlo. unfold Spec.current_time_step in *.
  assert (Hstep : now / interval < 2 ^ 53)
    by (apply Z.div_lt_upper_bound; nia).
  lia.
Qed.

(** C2, as amended. With [digits >= 0], an interval and a clock reading
    below [2^53] (where the source's floating-point floor division is the
    exact one), for every secret, candidate code and time [now] whose time
    step is at least [window], the verification returns a verdict, and the
    verdict is true if and only if the candidate is
    [code_at(secret, floor(now/interval) + k)] for some [k] in
    [-window, +window]. The verdict is a function of the settings, the
    secret, the candidate and the time alone. *)
Theorem verify_totp_window (settings : Settings.t) (secret : bytes) (otp now : Z) :
  0 <= Settings.otp_digits settings ->
  0 < Settings.otp_interval settings < 2 ^ 53 ->
  - 2 ^ 53 < now < 2 ^ 53 ->
  Settings.otp_window settings
    <= Spec.current_time_step (Settings.otp_interval settings) now ->
  exists verdict : bool,
    EnterpriseOTPService._verify_totp settings secret otp now = Return verdict
    /\ (verdict = true <->
        exists k, - Settings.otp_window settings <= k <= Settings.otp_window settings
                  /\ otp = Spec.code_at (Settings.otp_digits settings) secret
                             (Spec.current_time_step
                                (Settings.otp_interval settings) now + k)).
Proof.
  intros _ [Hi _] [_ Hnow] Hlo.
  pose proof (window_fits _ _ _ Hi Hnow Hlo) as Hhi.
  eexists. split.
  - now apply verify_totp_in_range.
  - rewrite existsb_exists. split.
    + intros [k [Hk Heq]]. apply in_range in Hk. apply Z.eqb_eq in Heq.
      exists k. split; [lia | now symmetry].
    + intros [k [Hk Heq]]. exists k. split.
      * apply in_range. lia.
      * apply Z.eqb_eq. now symmetry.
Qed.

(** The theorem at the time 59 of RFC 6238, one step after the epoch. *)
Lemma verify_totp_window_witness :
  exists verdict : bool,
    EnterpriseOTPService._verify_totp (Settings.default "M")
      (encode "12345678901234567890") 287082 59 = Return verdict
    /\ (verdict = true <->
        exists k, - 1 <= k <= 1
                  /\ 287082 = Spec.code_at 6 (encode "12345678901234567890")
                                (Spec.current_time_step 30 59 + k)).
Proof.
  apply (verify_totp_window (Settings.default "M") (encode "12345678901234567890")
           287082 59); cbn; lia.
Defined.

(** C2 as stated fails at the epoch: at [now = 0] the candidate 755224 is
    the code of the current step ([k = 0]), and the verification raises
    [struct.error] on the step [-1] instead of returning true. *)
Lemma verify_totp_window_counterexample :
  let settings := Settings.default "M" in
  let secret := encode "12345678901234567890" in
  (exists k, - Settings.otp_window settings <= k <= Settings.otp_window settings
             /\ 755224 = Spec.code_at (Settings.otp_digits settings) secret
                           (Spec.current_time_step
                              (Settings.otp_interval settings) 0 + k))
  /\ EnterpriseOTPService._verify_totp settings secret 755224 0 <> Return true
  /\ EnterpriseOTPService._verify_totp settings secret 755224 0 = Raise StructError.
Proof.
  intros settings secret. split; [|split].
  - exists 0. split; [cbn; lia | vm_compute; reflexivity].
  - vm_compute. discriminate.
  - vm_compute. reflexivity.
Qed.

(** ** Round trip and window boundary *)

Lemma client_generate_otp_server (self : Client.t) (digits interval now : Z) :
  Client.generate_otp self digits interval now
  = py_bind (time_step_of now interval)
      (fun time_step => Server._generate_otp (Client.derived_key self) time_step digits).
Proof. reflexivity. Qed.

Lemma client_otp_generate_otp_client (settings : Settings.t) (key : bytes) (now : Z) :
  ClientOTP.generate_otp settings {| ClientOTP.derived_key := key |} now
  = Client.generate_otp {| Client.derived_key := key |}
      (Settings.otp_digits settings) (Settings.otp_interval settings) now.
Proof. reflexivity. Qed.

Lemma existsb_range_hit (f : Z -> bool) (lo hi k : Z) :
  lo <= k < hi -> f k = true -> existsb f (range lo hi) = true.
Proof.
  intros Hk Hf. apply existsb_exists. exists k. split; [now apply in_range | exact Hf].
Qed.

Lemma existsb_range_miss (f : Z -> bool) (lo hi : Z) :
  (forall k, lo <= k < hi -> f k = false) -> existsb f (range lo hi) = false.
Proof.
  intros Hf. destruct (existsb f (range lo hi)) eqn:E; [|reflexivity].
  apply existsb_exists in E. destruct E as [k [Hk Hk']].
  apply in_range in Hk. rewrite Hf in Hk' by assumption. discriminate.
Qed.

(** C7, as amended. With [digits >= 0], an interval and a clock reading
    below [2^53] (where the source's floating-point floor division is the
    exact one), for every secret and time [now] whose time step is at
    least [window], the code the client generates at [now] is accepted at
    [now], for any [window >= 0]. With [window = 1] and such a time, a code
    generated at step [T] is accepted at the times of steps [T-1], [T] and
    [T+1]; at the time of any step outside them ([T-2], [T+2], [T+3] and so
    on) it is rejected if and only if it differs from the codes of the
    three steps checked there. *)
Theorem totp_round_trip_and_boundary (settings : Settings.t) (secret : bytes)
  (now : Z) :
  0 <= Settings.otp_digits settings ->
  0 < Settings.otp_interval settings < 2 ^ 53 ->
  0 <= Settings.otp_window settings ->
  now < 2 ^ 53 ->
  Settings.otp_window settings
    <= Spec.current_time_step (Settings.otp_interval settings) now ->
  let step := Spec.current_time_step (Settings.otp_interval settings) now in
  (exists code,
     Client.generate_otp {| Client.derived_key := secret |}
       (Settings.otp_digits settings) (Settings.otp_interval settings) now
     = Return code
     /\ EnterpriseOTPService._verify_totp settings secret code now = Return true)
  /\ (Settings.otp_window settings = 1 ->
      forall T code,
        EnterpriseOTPService._generate_otp settings secret T = Return code ->
        (T - 1 <= step <= T + 1 ->
         EnterpriseOTPService._verify_totp settings secret code now = Return true)
        /\ (step < T - 1 \/ T + 1 < step ->
            (EnterpriseOTPService._verify_totp settings secret code now = Return false
             <-> forall k, -1 <= k <= 1 ->
                   EnterpriseOTPService._generate_otp settings secret (step + k)
                   <> Return code))).
Proof.
  intros _ [Hi _] Hw Hnow Hlo step.
  pose proof (window_fits _ _ _ Hi Hnow Hlo) as Hhi.
  fold step in Hlo, Hhi. split.
  - exists (Spec.code_at (Settings.otp_digits settings) secret step). split.
    + rewrite client_generate_otp_server, time_step_of_positive by assumption.
      cbn [py_bind Client.derived_key]. apply server_generate_otp_spec.
      unfold step in *. lia.
    + rewrite verify_totp_in_range by assumption. f_equal.
      apply existsb_range_hit with (k := 0); [lia|].
      fold step. rewrite Z.add_0_r. apply Z.eqb_refl.
  - intros Hw1 T code Hgen.
    assert (HT : 0 <= T < 2 ^ 64).
    { destruct (Z.lt_ge_cases T 0) as [Hneg | Hnn];
        [rewrite generate_otp_out_of_range in Hgen by (now left); discriminate|].
      destruct (Z.lt_ge_cases T (2 ^ 64)) as [Hlt | Hge]; [lia|].
      rewrite generate_otp_out_of_range in Hgen by (now right). discriminate. }
    rewrite generate_otp_in_range in Hgen by assumption.
    injection Hgen as Hcode. split.
    + intros Hnear. rewrite verify_totp_in_range by assumption. f_equal.
      apply existsb_range_hit with (k := T - step); [lia|].
      fold step. replace (step + (T - step)) with T by lia.
      rewrite Hcode. apply Z.eqb_refl.
    + intros _. rewrite verify_totp_in_range by assumption. fold step. split.
      * intros Hfalse k Hk Hgen. injection Hfalse as Hmiss.
        rewrite generate_otp_in_range in Hgen by lia. injection Hgen as Hk'.
        assert (Hhit : existsb
                         (fun k => Spec.code_at (Settings.otp_digits settings) secret
                                     (step + k) =? code)
                         (range (- Settings.otp_window settings)
                                (Settings.otp_window settings + 1)) = true).
        { apply existsb_range_hit with (k := k); [lia|]. now apply Z.eqb_eq. }
        rewrite Hhit in Hmiss. discriminate.
      * intros Hdiff. f_equal.
        apply existsb_range_miss. intros k Hk.
        apply Z.eqb_neq. intros Heq. apply (Hdiff k); [lia|].
        rewrite generate_otp_in_range by lia. now rewrite Heq.
Qed.

(** The theorem in the scenario of the specification: master secret ["M"],
    device ["D1"], and the code 809180 of step [N = 56666666]; it is
    accepted at [N*30 + 5] and one step later, and rejected two steps
    later and at [N*30 + 95], three steps later. *)
Lemma totp_round_trip_and_boundary_witness :
  let settings := Settings.default "M" in
  let secret :=
    EnterpriseOTPService.generate_derived_key
      {| EnterpriseOTPService.master_secret := encode "M" |} "D1" in
  (exists code,
     Client.generate_otp {| Client.derived_key := secret |}
       (Settings.otp_digits settings) (Settings.otp_interval settings) 1700000005
     = Return code
     /\ EnterpriseOTPService._verify_totp settings secret code 1700000005
        = Return true)
  /\ EnterpriseOTPService._verify_totp settings secret 809180 1700000035 = Return true
  /\ EnterpriseOTPService._verify_totp settings secret 809180 1700000065 = Return false
  /\ EnterpriseOTPService._verify_totp settings secret 809180 1700000075 = Return false.
Proof.
  intros settings secret.
  assert (Hd : 0 <= Settings.otp_digits settings) by (cbn; lia).
  assert (Hi : 0 < Settings.otp_interval settings < 2 ^ 53) by (cbn; lia).
  assert (Hw : 0 <= Settings.otp_window settings) by (cbn; lia).
  assert (Hgen : EnterpriseOTPService._generate_otp settings secret 56666666
                 = Return 809180) by (vm_compute; reflexivity).
  split; [|split; [|split]].
  - apply (totp_round_trip_and_boundary settings secret 1700000005 Hd Hi Hw);
      vm_compute; congruence.
  - assert (Hnow : 1700000035 < 2 ^ 53) by lia.
    assert (Hlo : Settings.otp_window settings
                  <= Spec.current_time_step (Settings.otp_interval settings)
                       1700000035) by (vm_compute; discriminate).
    destruct (totp_round_trip_and_boundary settings secret 1700000035
                Hd Hi Hw Hnow Hlo) as [_ Hb].
    destruct (Hb eq_refl 56666666 809180 Hgen) as [Hacc _].
    apply Hacc. vm_compute. split; discriminate.
  - assert (Hnow : 1700000065 < 2 ^ 53) by lia.
    assert (Hlo : Settings.otp_window settings
                  <= Spec.current_time_step (Settings.otp_interval settings)
                       1700000065) by (vm_compute; discriminate).
    destruct (totp_round_trip_and_boundary settings secret 1700000065
                Hd Hi Hw Hnow Hlo) as [_ Hb].
    destruct (Hb eq_refl 56666666 809180 Hgen) as [_ Hrej].
    apply Hrej; [right; vm_compute; reflexivity|].
    intros k Hk.
    assert (Hcases : k = -1 \/ k = 0 \/ k = 1) by lia.
    destruct Hcases as [-> | [-> | ->]]; vm_compute; intros Heq; discriminate Heq.
  - assert (Hnow : 1700000075 < 2 ^ 53) by lia.
    assert (Hlo : Settings.otp_window settings
                  <= Spec.current_time_step (Settings.otp_interval settings)
                       1700000075) by (vm_compute; discriminate).
    destruct (totp_round_trip_and_boundary settings secret 1700000075
                Hd Hi Hw Hnow Hlo) as [_ Hb].
    destruct (Hb eq_refl 56666666 809180 Hgen) as [_ Hrej].
    apply Hrej; [right; vm_compute; reflexivity|].
    intros k Hk.
    assert (Hcases : k = -1 \/ k = 0 \/ k = 1) by lia.
    destruct Hcases as [-> | [-> | ->]]; vm_compute; intros Heq; discriminate Heq.
Defined.

(** C7 as stated fails twice, in the scenario of the specification (master
    secret ["M"], device ["D1"]). At [now = 5] the code of the current step
    is not accepted: the verification raises on the step [-1]. And the code
    184878 of step [N = 515134] is also the code of step [N + 2], so it is
    accepted at [N*30 + 60] (step [N + 2]) and at [N*30 + 95] (step
    [N + 3]), where the claim has it rejected. *)
Lemma totp_round_trip_and_boundary_counterexample :
  let settings := Settings.default "M" in
  let secret :=
    EnterpriseOTPService.generate_derived_key
      {| EnterpriseOTPService.master_secret := encode "M" |} "D1" in
  (exists code,
     Client.generate_otp {| Client.derived_key := secret |} 6 30 5 = Return code
     /\ EnterpriseOTPService._verify_totp settings secret code 5 = Raise StructError)
  /\ EnterpriseOTPService._generate_otp settings secret 515134 = Return 184878
  /\ Spec.current_time_step 30 (515134 * 30 + 60) = 515134 + 2
  /\ EnterpriseOTPService._verify_totp settings secret 184878 (515134 * 30 + 60)
     = Return true
  /\ EnterpriseOTPService._verify_totp settings secret 184878 (515134 * 30 + 95)
     = Return true.
Proof.
  intros settings secret. split; [|split; [|split; [|split]]].
  - exists 686598. split; vm_compute; reflexivity.
  - vm_compute; reflexivity.
  - vm_compute; reflexivity.
  - vm_compute; reflexivity.
  - vm_compute; reflexivity.
Qed.

(** ** The device table *)

#[local] Arguments HMAC.sha1 : simpl never.
#[local] Arguments HMAC.sha256 : simpl never.
#[local] Arguments SHA256.digest : simpl never.
#[local] Arguments b64encode : simpl never.
#[local] Arguments hex : simpl never.

Lemma find_none_existsb {A} (p : A -> bool) (l : list A) :
  find p l = None -> existsb p l = false.
Proof.
  induction l as [|a l IH]; [reflexivity|]. cbn.
  destruct (p a); [discriminate | exact IH].
Qed.

Lemma find_app_some {A} (p : A -> bool) (l l' : list A) (a : A) :
  find p l = Some a -> find p (l ++ l') = Some a.
Proof.
  induction l as [|b l IH]; [discriminate|]. cbn.
  destruct (p b); [trivial | exact IH].
Qed.

Lemma find_app_none {A} (p : A -> bool) (l l' : list A) :
  find p l = None -> find p (l ++ l') = find p l'.
Proof.
  induction l as [|b l IH]; [reflexivity|]. cbn.
  destruct (p b); [discriminate | exact IH].
Qed.

Lemma update_row_ids (x : Device.t) (rows : list Device.t) :
  map Device.device_id (Db.update_row x rows) = map Device.device_id rows.
Proof.
  unfold Db.update_row. rewrite map_map. apply map_ext. intros r.
  destruct (String.eqb_spec (Device.device_id r) (Device.device_id x)); congruence.
Qed.

Lemma find_update_row (d : string) (x : Device.t) (rows : list Device.t) :
  find (has_id d) (Db.update_row x rows)
  = option_map
      (fun r => if String.eqb (Device.device_id r) (Device.device_id x) then x else r)
      (find (has_id d) rows).
Proof.
  induction rows as [|r rows IH]; [reflexivity|].
  change (Db.update_row x (r :: rows))
    with ((if String.eqb (Device.device_id r) (Device.device_id x) then x else r)
          :: Db.update_row x rows).
  cbn [find].
  destruct (String.eqb_spec (Device.device_id r) (Device.device_id x)) as [E | E].
  - assert (Hx : has_id d x = has_id d r) by (unfold has_id; now rewrite E).
    rewrite Hx. destruct (has_id d r); [|exact IH].
    cbn [option_map]. now rewrite E, String.eqb_refl.
  - destruct (has_id d r); [|exact IH].
    cbn [option_map].
    destruct (String.eqb_spec (Device.device_id r) (Device.device_id x));
      [contradiction | reflexivity].
Qed.

(** Under the primary key, two rows with one identifier are one row. *)
Lemma pk_same_row (rows : list Device.t) (r r' : Device.t) :
  NoDup (map Device.device_id rows) ->
  In r rows -> In r' rows -> Device.device_id r = Device.device_id r' -> r = r'.
Proof.
  induction rows as [|a rows IH]; intros Hnd Hr Hr' Hid; [contradiction|].
  cbn in Hnd. inversion Hnd as [|? ? Hnotin Hnd']; subst.
  destruct Hr as [-> | Hr], Hr' as [-> | Hr'].
  - reflexivity.
  - exfalso. apply Hnotin. rewrite Hid. now apply in_map.
  - exfalso. apply Hnotin. rewrite <- Hid. now apply in_map.
  - now apply IH.
Qed.

Lemma find_has_id_in (d : string) (rows : list Device.t) (r : Device.t) :
  find (has_id d) rows = Some r -> In r rows /\ Device.device_id r = d.
Proof.
  intros H. apply find_some in H. destruct H as [Hin Hid].
  split; [exact Hin | now apply String.eqb_eq].
Qed.

Lemma filter_has_id_unique (d : string) (rows : list Device.t) (r : Device.t) :
  NoDup (map Device.device_id rows) ->
  find (has_id d) rows = Some r -> filter (has_id d) rows = [r].
Proof.
  induction rows as [|a rows IH]; intros Hnd Hfind; [discriminate|].
  cbn in Hnd. inversion Hnd as [|? ? Hnotin Hnd']; subst.
  cbn in Hfind |- *. destruct (has_id d a) eqn:Ea.
  - injection Hfind as <-. f_equal.
    apply String.eqb_eq in Ea.
    destruct (filter (has_id d) rows) as [|b rest] eqn:Ef; [reflexivity|].
    exfalso. assert (Hb : In b (filter (has_id d) rows)) by (rewrite Ef; now left).
    apply filter_In in Hb. destruct Hb as [Hb Hbid]. apply String.eqb_eq in Hbid.
    apply Hnotin. rewrite Ea, <- Hbid. now apply in_map.
  - now apply IH.
Qed.

(** The first row of an active device is the row the verification loads. *)
Lemma find_active_of_find (d : string) (rows : list Device.t) (dev : Device.t) :
  find (has_id d) rows = Some dev -> Device.is_active dev = true ->
  find (is_active_with_id d) rows = Some dev.
Proof.
  induction rows as [|a rows IH]; intros Hfind Hact; [discriminate|].
  cbn in Hfind |- *. unfold is_active_with_id at 1. unfold has_id at 1 in Hfind.
  destruct (String.eqb (Device.device_id a) d).
  - injection Hfind as ->. now rewrite Hact.
  - now apply IH.
Qed.

(** Under the primary key, an inactive device has no active row. *)
Lemma find_active_of_inactive (d : string) (rows : list Device.t) (dev : Device.t) :
  NoDup (map Device.device_id rows) ->
  find (has_id d) rows = Some dev -> Device.is_active dev = false ->
  find (is_active_with_id d) rows = None.
Proof.
  intros Hnd Hfind Hact.
  destruct (find (is_active_with_id d) rows) as [r|] eqn:E; [|reflexivity].
  apply find_some in E. destruct E as [Hin Hp].
  apply andb_true_iff in Hp. destruct Hp as [Hid Hr].
  apply String.eqb_eq in Hid. apply Bool.eqb_prop in Hr.
  apply find_has_id_in in Hfind. destruct Hfind as [Hin' Hid'].
  assert (r = dev) by (apply (pk_same_row rows); congruence).
  congruence.
Qed.

Lemma find_active_of_absent (d : string) (rows : list Device.t) :
  find (has_id d) rows = None -> find (is_active_with_id d) rows = None.
Proof.
  induction rows as [|a rows IH]; intros Hfind; [reflexivity|].
  cbn in Hfind |- *. unfold is_active_with_id at 1. unfold has_id at 1 in Hfind.
  destruct (String.eqb (Device.device_id a) d); [discriminate|]. now apply IH.
Qed.



(** ** The service methods on a fresh session *)

Section Methods.

Variable settings : Settings.t.
Variable self : EnterpriseOTPService.t.

Lemma register_device_existing (d u : string) (now : Z) (db : Database)
  (dev : Device.t) :
  Spec.find_device d db = Some dev ->
  EnterpriseOTPService.register_device self d u now (SessionLocal db)
  = (Spec.AlreadyRegistered, SessionLocal db).
Proof.
  intros Hfind. unfold EnterpriseOTPService.register_device, try_except, db_bind,
    Db.query_device_first.
  cbn [database SessionLocal]. unfold Spec.find_device, has_id in Hfind.
  now rewrite Hfind.
Qed.

Lemma register_device_fresh (d u : string) (now : Z) (db : Database) :
  Spec.find_device d db = None ->
  EnterpriseOTPService.register_device self d u now (SessionLocal db)
  = (Registered
       (string_of_list_ascii
          (b64encode (EnterpriseOTPService.generate_derived_key self d)))
       d "Device registered successfully",
     SessionLocal
       {| devices := devices db ++ [registration_row self d u now];
          audit_logs := audit_logs db
                        ++ [audit_row d "DEVICE_REGISTERED" true now "unknown"] |}).
Proof.
  intros Hfind. unfold EnterpriseOTPService.register_device, try_except, db_bind,
    Db.query_device_first.
  cbn [database SessionLocal]. unfold Spec.find_device, has_id in Hfind. rewrite Hfind.
  unfold Db.add_device, Db.add_log, Db.commit, Db.flush, db_ret.
  cbn [database new_devices new_logs dirty SessionLocal app fold_left
       Db.insert_row Device.new Device.device_id].
  apply find_none_existsb in Hfind. rewrite Hfind. reflexivity.
Qed.

Lemma verify_otp_unavailable (d : string) (otp : Z) (ip : string) (now : Z)
  (db : Database) :
  find (is_active_with_id d) (devices db) = None ->
  EnterpriseOTPService.verify_otp settings self d otp ip now (SessionLocal db)
  = (Spec.DeviceUnavailable,
     {| database := db; new_devices := [];
        new_logs := [audit_row d "INVALID_DEVICE" false now ip]; dirty := [] |}).
Proof.
  intros Hfind. unfold EnterpriseOTPService.verify_otp, try_except, db_bind,
    Db.query_device_first.
  cbn [database SessionLocal]. unfold is_active_with_id in Hfind.
  now rewrite Hfind.
Qed.

Lemma verify_otp_rate_limited (d : string) (otp : Z) (ip : string) (now : Z)
  (db : Database) (dev : Device.t) :
  find (is_active_with_id d) (devices db) = Some dev ->
  10 < Spec.recent_attempts db d now ->
  EnterpriseOTPService.verify_otp settings self d otp ip now (SessionLocal db)
  = (Spec.RateLimited,
     {| database := db; new_devices := [];
        new_logs := [audit_row d "RATE_LIMITED" false now ip]; dirty := [] |}).
Proof.
  intros Hfind Hcount. unfold EnterpriseOTPService.verify_otp, try_except, db_bind,
    Db.query_device_first, Db.query_log_count.
  cbn [database SessionLocal]. unfold is_active_with_id in Hfind. rewrite Hfind.
  cbn [database SessionLocal].
  unfold Spec.recent_attempts, Spec.is_attempt in Hcount.
  apply Z.ltb_lt in Hcount. change (minutes 5) with 300.
  now rewrite Hcount.
Qed.

Lemma verify_otp_raises (d : string) (otp : Z) (ip : string) (now : Z)
  (db : Database) (dev : Device.t) (e : exn) :
  find (is_active_with_id d) (devices db) = Some dev ->
  Spec.recent_attempts db d now <= 10 ->
  EnterpriseOTPService._verify_totp settings
    (EnterpriseOTPService.generate_derived_key self d) otp now = Raise e ->
  EnterpriseOTPService.verify_otp settings self d otp ip now (SessionLocal db)
  = (Spec.VerificationFailed, SessionLocal db).
Proof.
  intros Hfind Hcount Hraise. unfold EnterpriseOTPService.verify_otp, try_except,
    db_bind, Db.query_device_first, Db.query_log_count.
  cbn [database SessionLocal]. unfold is_active_with_id in Hfind. rewrite Hfind.
  cbn [database SessionLocal].
  unfold Spec.recent_attempts, Spec.is_attempt in Hcount.
  apply Z.ltb_ge in Hcount. change (minutes 5) with 300. rewrite Hcount.
  unfold db_lift. now rewrite Hraise.
Qed.

Lemma verify_otp_verdict (d : string) (otp : Z) (ip : string) (now : Z)
  (db : Database) (dev : Device.t) (verdict : bool) :
  find (is_active_with_id d) (devices db) = Some dev ->
  Spec.recent_attempts db d now <= 10 ->
  EnterpriseOTPService._verify_totp settings
    (EnterpriseOTPService.generate_derived_key self d) otp now = Return verdict ->
  EnterpriseOTPService.verify_otp settings self d otp ip now (SessionLocal db)
  = (Spec.Verdict verdict,
     SessionLocal
       {| devices := if verdict
                     then Db.update_row (Device.set_used now dev) (devices db)
                     else devices db;
          audit_logs := audit_logs db
                        ++ [audit_row d "OTP_VERIFICATION" verdict now ip] |}).
Proof.
  intros Hfind Hcount Hret. unfold EnterpriseOTPService.verify_otp, try_except,
    db_bind, Db.query_device_first, Db.query_log_count.
  cbn [database SessionLocal]. unfold is_active_with_id in Hfind. rewrite Hfind.
  cbn [database SessionLocal].
  unfold Spec.recent_attempts, Spec.is_attempt in Hcount.
  apply Z.ltb_ge in Hcount. change (minutes 5) with 300. rewrite Hcount.
  unfold db_lift. rewrite Hret. destruct verdict; reflexivity.
Qed.

Lemma deactivate_device_absent (d : string) (now : Z) (db : Database) :
  Spec.find_device d db = None ->
  EnterpriseOTPService.deactivate_device d now (SessionLocal db)
  = (DeactivateError "Device not found", SessionLocal db).
Proof.
  intros Hfind. unfold EnterpriseOTPService.deactivate_device, try_except, db_bind,
    Db.query_device_first.
  cbn [database SessionLocal]. unfold Spec.find_device, has_id in Hfind.
  now rewrite Hfind.
Qed.

Lemma deactivate_device_present (d : string) (now : Z) (db : Database)
  (dev : Device.t) :
  Spec.find_device d db = Some dev ->
  EnterpriseOTPService.deactivate_device d now (SessionLocal db)
  = (Deactivated "Device deactivated successfully",
     SessionLocal
       {| devices := Db.update_row (Device.set_deactivated now dev) (devices db);
          audit_logs := audit_logs db
                        ++ [audit_row d "DEVICE_DEACTIVATED" true now "system"] |}).
Proof.
  intros Hfind. unfold EnterpriseOTPService.deactivate_device, try_except, db_bind,
    Db.query_device_first.
  cbn [database SessionLocal]. unfold Spec.find_device, has_id in Hfind.
  now rewrite Hfind.
Qed.

End Methods.

(** ** The requests, one at a time *)

Section Handling.

Variable settings : Settings.t.
Variable self : EnterpriseOTPService.t.

Lemma handle_register_existing (d u : string) (now : Z) (db : Database)
  (dev : Device.t) :
  Spec.find_device d db = Some dev ->
  handle settings self (Register d u) now db
  = (RegisterResponse Spec.AlreadyRegistered, db).
Proof.
  intros Hfind. unfold handle, Db.get_db.
  now rewrite (register_device_existing self d u now db dev Hfind).
Qed.

Lemma handle_register_fresh (d u : string) (now : Z) (db : Database) :
  Spec.find_device d db = None ->
  handle settings self (Register d u) now db
  = (RegisterResponse
       (Registered
          (string_of_list_ascii
             (b64encode (EnterpriseOTPService.generate_derived_key self d)))
          d "Device registered successfully"),
     {| devices := devices db ++ [registration_row self d u now];
        audit_logs := audit_logs db
                      ++ [audit_row d "DEVICE_REGISTERED" true now "unknown"] |}).
Proof.
  intros Hfind. unfold handle, Db.get_db.
  now rewrite (register_device_fresh self d u now db Hfind).
Qed.

Lemma handle_verify_unavailable (d : string) (otp : Z) (ip : string) (now : Z)
  (db : Database) :
  find (is_active_with_id d) (devices db) = None ->
  handle settings self (Verify d otp ip) now db
  = (VerifyResponse Spec.DeviceUnavailable, db).
Proof.
  intros Hfind. unfold handle, Db.get_db.
  now rewrite (verify_otp_unavailable settings self d otp ip now db Hfind).
Qed.

Lemma handle_verify_rate_limited (d : string) (otp : Z) (ip : string) (now : Z)
  (db : Database) (dev : Device.t) :
  find (is_active_with_id d) (devices db) = Some dev ->
  10 < Spec.recent_attempts db d now ->
  handle settings self (Verify d otp ip) now db
  = (VerifyResponse Spec.RateLimited, db).
Proof.
  intros Hfind Hcount. unfold handle, Db.get_db.
  now rewrite (verify_otp_rate_limited settings self d otp ip now db dev Hfind Hcount).
Qed.

Lemma handle_verify_raises (d : string) (otp : Z) (ip : string) (now : Z)
  (db : Database) (dev : Device.t) (e : exn) :
  find (is_active_with_id d) (devices db) = Some dev ->
  Spec.recent_attempts db d now <= 10 ->
  EnterpriseOTPService._verify_totp settings
    (EnterpriseOTPService.generate_derived_key self d) otp now = Raise e ->
  handle settings self (Verify d otp ip) now db
  = (VerifyResponse Spec.VerificationFailed, db).
Proof.
  intros Hfind Hcount Hraise. unfold handle, Db.get_db.
  now rewrite (verify_otp_raises settings self d otp ip now db dev e
                 Hfind Hcount Hraise).
Qed.

Lemma handle_verify_verdict (d : string) (otp : Z) (ip : string) (now : Z)
  (db : Database) (dev : Device.t) (verdict : bool) :
  find (is_active_with_id d) (devices db) = Some dev ->
  Spec.recent_attempts db d now <= 10 ->
  EnterpriseOTPService._verify_totp settings
    (EnterpriseOTPService.generate_derived_key self d) otp now = Return verdict ->
  handle settings self (Verify d otp ip) now db
  = (VerifyResponse (Spec.Verdict verdict),
     {| devices := if verdict
                   then Db.update_row (Device.set_used now dev) (devices db)
                   else devices db;
        audit_logs := audit_logs db
                      ++ [audit_row d "OTP_VERIFICATION" verdict now ip] |}).
Proof.
  intros Hfind Hcount Hret. unfold handle, Db.get_db.
  now rewrite (verify_otp_verdict settings self d otp ip now db dev verdict
                 Hfind Hcount Hret).
Qed.

Lemma handle_deactivate_absent (d : string) (now : Z) (db : Database) :
  Spec.find_device d db = None ->
  handle settings self (Deactivate d) now db
  = (DeactivateResponse (DeactivateError "Device not found"), db).
Proof.
  intros Hfind. unfold handle, Db.get_db.
  now rewrite (deactivate_device_absent d now db Hfind).
Qed.

Lemma handle_deactivate_present (d : string) (now : Z) (db : Database)
  (dev : Device.t) :
  Spec.find_device d db = Some dev ->
  handle settings self (Deactivate d) now db
  = (DeactivateResponse (Deactivated "Device deactivated successfully"),
     {| devices := Db.update_row (Device.set_deactivated now dev) (devices db);
        audit_logs := audit_logs db
                      ++ [audit_row d "DEVICE_DEACTIVATED" true now "system"] |}).
Proof.
  intros Hfind. unfold handle, Db.get_db.
  now rewrite (deactivate_device_present d now db dev Hfind).
Qed.

(** What a verification request does to the device table: it marks the
    device used when the verdict is true, and nothing else. *)
Lemma handle_verify_cases (d : string) (otp : Z) (ip : string) (now : Z)
  (db : Database) :
  (exists r,
     handle settings self (Verify d otp ip) now db = (VerifyResponse r, db)
     /\ valid r = false)
  \/ (exists dev logs,
        find (is_active_with_id d) (devices db) = Some dev
        /\ Spec.recent_attempts db d now <= 10
        /\ EnterpriseOTPService._verify_totp settings
             (EnterpriseOTPService.generate_derived_key self d) otp now
           = Return false
        /\ handle settings self (Verify d otp ip) now db
           = (VerifyResponse (Spec.Verdict false),
              {| devices := devices db; audit_logs := logs |}))
  \/ (exists dev logs,
        find (is_active_with_id d) (devices db) = Some dev
        /\ Spec.recent_attempts db d now <= 10
        /\ EnterpriseOTPService._verify_totp settings
             (EnterpriseOTPService.generate_derived_key self d) otp now
           = Return true
        /\ handle settings self (Verify d otp ip) now db
           = (VerifyResponse (Spec.Verdict true),
              {| devices := Db.update_row (Device.set_used now dev) (devices db);
                 audit_logs := logs |})).
Proof.
  destruct (find (is_active_with_id d) (devices db)) as [dev|] eqn:Hfind.
  - destruct (Z.lt_ge_cases 10 (Spec.recent_attempts db d now)) as [Hover | Hok].
    + left. exists Spec.RateLimited. split; [|reflexivity].
      now apply handle_verify_rate_limited with (dev := dev).
    + destruct (EnterpriseOTPService._verify_totp settings
                  (EnterpriseOTPService.generate_derived_key self d) otp now)
        as [[|]|e] eqn:Htotp.
      * right. right. exists dev. eexists. repeat split; try assumption.
        now rewrite (handle_verify_verdict d otp ip now db dev true).
      * right. left. exists dev. eexists. repeat split; try assumption.
        now rewrite (handle_verify_verdict d otp ip now db dev false).
      * left. exists Spec.VerificationFailed. split; [|reflexivity].
        now apply handle_verify_raises with (dev := dev) (e := e).
  - left. exists Spec.DeviceUnavailable. split; [|reflexivity].
    now apply handle_verify_unavailable.
Qed.

End Handling.

(** ** Invariants of the store *)

Lemma NoDup_snoc {A} (l : list A) (x : A) :
  NoDup l -> ~ In x l -> NoDup (l ++ [x]).
Proof.
  induction l as [|a l IH]; intros Hnd Hx.
  - cbn. constructor; [intros [] | constructor].
  - inversion Hnd as [|? ? Ha Hl]; subst. cbn. constructor.
    + rewrite in_app_iff. intros [Hin | [-> | []]]; [contradiction|].
      apply Hx. now left.
    + apply IH; [assumption|]. intros Hin. apply Hx. now right.
Qed.

Lemma find_device_absent_ids (d : string) (db : Database) :
  Spec.find_device d db = None -> ~ In d (map Device.device_id (devices db)).
Proof.
  intros Hfind Hin. apply in_map_iff in Hin. destruct Hin as [r [Hid Hr]].
  apply find_none with (x := r) in Hfind; [|exact Hr].
  unfold has_id in Hfind. rewrite Hid, String.eqb_refl in Hfind. discriminate.
Qed.

Section Invariants.

Variable settings : Settings.t.
Variable self : EnterpriseOTPService.t.

(** Every request keeps the primary key of the device table. *)
Lemma handle_pk_unique (req : request) (now : Z) (db : Database) :
  Spec.pk_unique db -> Spec.pk_unique (snd (handle settings self req now db)).
Proof.
  intros Hpk. destruct req as [d u | d otp ip | d].
  - destruct (Spec.find_device d db) as [dev|] eqn:Hfind.
    + now rewrite (handle_register_existing settings self d u now db dev).
    + rewrite (handle_register_fresh settings self d u now db Hfind).
      unfold Spec.pk_unique. cbn [snd devices]. rewrite map_app.
      apply NoDup_snoc; [exact Hpk|]. now apply find_device_absent_ids.
  - destruct (handle_verify_cases settings self d otp ip now db)
      as [[r [-> _]] | [[dev [logs [_ [_ [_ ->]]]]] | [dev [logs [_ [_ [_ ->]]]]]]].
    + exact Hpk.
    + exact Hpk.
    + unfold Spec.pk_unique. cbn [snd devices]. now rewrite update_row_ids.
  - destruct (Spec.find_device d db) as [dev|] eqn:Hfind.
    + rewrite (handle_deactivate_present settings self d now db dev Hfind).
      unfold Spec.pk_unique. cbn [snd devices]. now rewrite update_row_ids.
    + now rewrite (handle_deactivate_absent settings self d now db Hfind).
Qed.

Lemma run_pk_unique (reqs : list (request * Z)) (db : Database) :
  Spec.pk_unique db -> Spec.pk_unique (run settings self reqs db).
Proof.
  revert db. induction reqs as [|[req now] reqs IH]; intros db Hpk; [exact Hpk|].
  cbn [run]. apply IH. now apply handle_pk_unique.
Qed.

(** What one request does to the row of a device: a deactivation of the
    device makes it inactive and sets [deactivated_at], whatever the row
    held; no other request touches the two columns. *)
Lemma handle_device_row (req : request) (now : Z) (db : Database) (d : string)
  (dev : Device.t) :
  Spec.pk_unique db ->
  Spec.find_device d db = Some dev ->
  exists dev',
    Spec.find_device d (snd (handle settings self req now db)) = Some dev'
    /\ Device.deactivated_at dev'
       = (if Spec.deactivates d req then Some now else Device.deactivated_at dev)
    /\ Device.is_active dev'
       = Device.is_active dev && negb (Spec.deactivates d req).
Proof.
  intros Hpk Hdev. destruct req as [d' u | d' otp ip | d'].
  - exists dev. cbn [Spec.deactivates negb]. rewrite andb_true_r.
    split; [|split; reflexivity].
    destruct (Spec.find_device d' db) as [dev0|] eqn:Hfind.
    + now rewrite (handle_register_existing settings self d' u now db dev0).
    + rewrite (handle_register_fresh settings self d' u now db Hfind).
      cbn [snd]. unfold Spec.find_device. cbn [devices]. now apply find_app_some.
  - cbn [Spec.deactivates negb]. rewrite andb_true_r.
    destruct (handle_verify_cases settings self d' otp ip now db)
      as [[r [-> _]] | [[dev0 [logs [_ [_ [_ ->]]]]]
                        | [dev0 [logs [Hact [_ [_ ->]]]]]]].
    + exists dev. now repeat split.
    + exists dev. now repeat split.
    + cbn [snd]. unfold Spec.find_device. cbn [devices].
      rewrite find_update_row. unfold Spec.find_device in Hdev. rewrite Hdev.
      cbn [option_map Device.set_used Device.device_id].
      destruct (String.eqb_spec (Device.device_id dev) (Device.device_id dev0))
        as [E | E].
      * apply find_some in Hact. destruct Hact as [Hin0 _].
        apply find_has_id_in in Hdev. destruct Hdev as [Hin _].
        assert (dev = dev0) by (apply (pk_same_row (devices db)); assumption).
        subst dev0. exists (Device.set_used now dev). now repeat split.
      * exists dev. now repeat split.
  - cbn [Spec.deactivates].
    destruct (Spec.find_device d' db) as [dev0|] eqn:Hfind.
    + rewrite (handle_deactivate_present settings self d' now db dev0 Hfind).
      cbn [snd]. unfold Spec.find_device. cbn [devices].
      rewrite find_update_row. unfold Spec.find_device in Hdev, Hfind.
      rewrite Hdev. cbn [option_map Device.set_deactivated Device.device_id].
      pose proof (find_has_id_in _ _ _ Hdev) as [Hin Hid].
      pose proof (find_has_id_in _ _ _ Hfind) as [Hin0 Hid0].
      rewrite Hid, Hid0, (String.eqb_sym d d').
      destruct (String.eqb_spec d' d) as [E | E].
      * exists (Device.set_deactivated now dev0). cbn. rewrite andb_false_r.
        now repeat split.
      * exists dev. cbn [negb]. rewrite andb_true_r. now repeat split.
    + rewrite (handle_deactivate_absent settings self d' now db Hfind).
      cbn [snd]. exists dev.
      destruct (String.eqb_spec d' d) as [E | E]; [congruence|].
      cbn [negb]. rewrite andb_true_r. now repeat split.
Qed.

(** The same over a sequence of requests. *)
Lemma run_device_row (reqs : list (request * Z)) (db : Database) (d : string)
  (dev : Device.t) :
  Spec.pk_unique db ->
  Spec.find_device d db = Some dev ->
  exists dev',
    Spec.find_device d (run settings self reqs db) = Some dev'
    /\ Device.deactivated_at dev'
       = Spec.last_deactivation d reqs (Device.deactivated_at dev)
    /\ Device.is_active dev'
       = Device.is_active dev && negb (Spec.deactivation_requested d reqs).
Proof.
  revert db dev. induction reqs as [|[req now] reqs IH]; intros db dev Hpk Hdev.
  - exists dev. cbn. rewrite andb_true_r. now repeat split.
  - destruct (handle_device_row req now db d dev Hpk Hdev)
      as [dev1 [Hdev1 [Hat1 Hact1]]].
    destruct (IH _ dev1 (handle_pk_unique req now db Hpk) Hdev1)
      as [dev' [Hdev' [Hat' Hact']]].
    exists dev'. cbn [run Spec.last_deactivation Spec.deactivation_requested
                       existsb fst].
    split; [exact Hdev'|]. split.
    + now rewrite Hat', Hat1.
    + rewrite Hact', Hact1. unfold Spec.deactivation_requested.
      now rewrite negb_orb, andb_assoc.
Qed.

End Invariants.

(** ** What reaches the audit table *)

Lemma forallb_snoc {A} (p : A -> bool) (l : list A) (a : A) :
  forallb p l = true -> p a = true -> forallb p (l ++ [a]) = true.
Proof.
  intros Hl Ha. rewrite forallb_app, Hl. cbn. now rewrite Ha.
Qed.

Section Audit.

Variable settings : Settings.t.
Variable self : EnterpriseOTPService.t.

(** A request commits audit rows of three actions only: registration,
    checked verification, deactivation. *)
Lemma handle_committed_actions (req : request) (now : Z) (db : Database) :
  forallb committed_action (audit_logs db) = true ->
  forallb committed_action (audit_logs (snd (handle settings self req now db)))
  = true.
Proof.
  intros Hdb. destruct req as [d u | d otp ip | d].
  - destruct (Spec.find_device d db) as [dev|] eqn:Hfind.
    + now rewrite (handle_register_existing settings self d u now db dev).
    + rewrite (handle_register_fresh settings self d u now db Hfind).
      cbn [snd audit_logs]. now apply forallb_snoc.
  - destruct (find (is_active_with_id d) (devices db)) as [dev|] eqn:Hfind.
    + destruct (Z.lt_ge_cases 10 (Spec.recent_attempts db d now)) as [Hover | Hok].
      * now rewrite (handle_verify_rate_limited settings self d otp ip now db dev).
      * destruct (EnterpriseOTPService._verify_totp settings
                    (EnterpriseOTPService.generate_derived_key self d) otp now)
          as [verdict|e] eqn:Htotp.
        -- rewrite (handle_verify_verdict settings self d otp ip now db dev verdict
                      Hfind Hok Htotp).
           cbn [snd audit_logs]. now apply forallb_snoc.
        -- now rewrite (handle_verify_raises settings self d otp ip now db dev e).
    + now rewrite (handle_verify_unavailable settings self d otp ip now db).
  - destruct (Spec.find_device d db) as [dev|] eqn:Hfind.
    + rewrite (handle_deactivate_present settings self d now db dev Hfind).
      cbn [snd audit_logs]. now apply forallb_snoc.
    + now rewrite (handle_deactivate_absent settings self d now db Hfind).
Qed.

Lemma run_committed_actions (reqs : list (request * Z)) (db : Database) :
  forallb committed_action (audit_logs db) = true ->
  forallb committed_action (audit_logs (run settings self reqs db)) = true.
Proof.
  revert db. induction reqs as [|[req now] reqs IH]; intros db Hdb; [exact Hdb|].
  cbn [run]. apply IH. now apply handle_committed_actions.
Qed.

(** Whatever requests are served from the empty store, the audit table
    never holds a row of a request turned down as unavailable or as rate
    limited. *)
Lemma rejections_never_in_audit_table (reqs : list (request * Z)) (l : AuditLog.t) :
  In l (audit_logs (run settings self reqs empty_database)) ->
  AuditLog.action l <> "INVALID_DEVICE"%string
  /\ AuditLog.action l <> "RATE_LIMITED"%string.
Proof.
  intros Hin.
  pose proof (run_committed_actions reqs empty_database eq_refl) as Hall.
  rewrite forallb_forall in Hall. specialize (Hall l Hin).
  unfold committed_action in Hall.
  split; intros E; rewrite E in Hall; discriminate.
Qed.

End Audit.

(** ** Registration *)

Lemma find_device_registered (self : EnterpriseOTPService.t) (d u : string)
  (now : Z) (db : Database) (logs : list AuditLog.t) :
  Spec.find_device d db = None ->
  Spec.find_device d
    {| devices := devices db ++ [registration_row self d u now]; audit_logs := logs |}
  = Some (registration_row self d u now).
Proof.
  intros Hfind. unfold Spec.find_device in *. cbn [devices].
  rewrite find_app_none by assumption. cbn. unfold has_id. cbn.
  now rewrite String.eqb_refl.
Qed.

(** C5. Registering a device identifier that the store does not hold
    succeeds; whatever requests follow (deactivations of the device among
    them), a second registration of the identifier fails with
    [AlreadyRegistered] and leaves the store as it was, and the device
    table holds exactly one row with the identifier. *)
Theorem register_twice_already_registered (settings : Settings.t)
  (self : EnterpriseOTPService.t) (db : Database) (d u1 u2 : string) (t1 t2 : Z)
  (reqs : list (request * Z)) :
  Spec.pk_unique db ->
  Spec.find_device d db = None ->
  let first := handle settings self (Register d u1) t1 db in
  let db2 := run settings self reqs (snd first) in
  let second := handle settings self (Register d u2) t2 db2 in
  (exists key,
     fst first = RegisterResponse (Registered key d "Device registered successfully"))
  /\ fst second = RegisterResponse Spec.AlreadyRegistered
  /\ snd second = db2
  /\ length (Spec.rows_of d (snd second)) = 1%nat.
Proof.
  intros Hpk Hfresh first db2 second.
  assert (Hpk1 : Spec.pk_unique (snd first)) by now apply handle_pk_unique.
  assert (Hfirst : Spec.find_device d (snd first)
                   = Some (registration_row self d u1 t1)).
  { unfold first. rewrite (handle_register_fresh settings self d u1 t1 db Hfresh).
    cbn [snd]. now apply find_device_registered. }
  destruct (run_device_row settings self reqs (snd first) d _ Hpk1 Hfirst)
    as [dev [Hdev _]].
  fold db2 in Hdev.
  assert (Hsecond : second = (RegisterResponse Spec.AlreadyRegistered, db2))
    by (unfold second; now apply handle_register_existing with (dev := dev)).
  split; [|split; [|split]].
  - unfold first. rewrite (handle_register_fresh settings self d u1 t1 db Hfresh).
    cbn [fst]. eexists. reflexivity.
  - now rewrite Hsecond.
  - now rewrite Hsecond.
  - rewrite Hsecond. cbn [snd]. unfold Spec.rows_of.
    rewrite (filter_has_id_unique d (devices db2) dev); [reflexivity | | exact Hdev].
    now apply run_pk_unique.
Qed.

(** The theorem on the empty store, with a deactivation and a verification
    of the device between the two registrations. *)
Lemma register_twice_already_registered_witness :
  let settings := Settings.default "M" in
  let self := {| EnterpriseOTPService.master_secret := encode "M" |} in
  let reqs := [(Deactivate "D1", 200); (Verify "D1" 123456 "10.0.0.1", 210)] in
  let first := handle settings self (Register "D1" "alice") 100 empty_database in
  let db2 := run settings self reqs (snd first) in
  let second := handle settings self (Register "D1" "bob") 300 db2 in
  (exists key,
     fst first
     = RegisterResponse (Registered key "D1" "Device registered successfully"))
  /\ fst second = RegisterResponse Spec.AlreadyRegistered
  /\ snd second = db2
  /\ length (Spec.rows_of "D1" (snd second)) = 1%nat.
Proof.
  intros settings self reqs.
  apply (register_twice_already_registered settings self empty_database
           "D1" "alice" "bob" 100 300 reqs).
  - constructor.
  - reflexivity.
Defined.

(** ** Devices that are absent or inactive *)

Lemma find_active_unavailable (d : string) (db : Database) :
  Spec.pk_unique db ->
  Spec.find_device d db = None
  \/ (exists dev, Spec.find_device d db = Some dev /\ Device.is_active dev = false) ->
  find (is_active_with_id d) (devices db) = None.
Proof.
  intros Hpk [Habsent | [dev [Hdev Hinactive]]].
  - now apply find_active_of_absent.
  - now apply find_active_of_inactive with (dev := dev).
Qed.

(** C6. A verification request against a device that the store does not
    hold, or holds inactive, returns [DeviceUnavailable] with
    [valid = false], whatever the code and the time; and once a device has
    been deactivated, every later verification request for it returns
    [DeviceUnavailable], a code that verified before included. *)
Theorem verify_unavailable_device (settings : Settings.t)
  (self : EnterpriseOTPService.t) (db : Database) (d : string) (otp : Z)
  (ip : string) (now : Z) :
  Spec.pk_unique db ->
  (Spec.find_device d db = None
   \/ (exists dev, Spec.find_device d db = Some dev /\ Device.is_active dev = false) ->
   handle settings self (Verify d otp ip) now db
   = (VerifyResponse Spec.DeviceUnavailable, db))
  /\ (forall dev t0 reqs,
        Spec.find_device d db = Some dev ->
        let db' :=
          run settings self reqs (snd (handle settings self (Deactivate d) t0 db)) in
        handle settings self (Verify d otp ip) now db'
        = (VerifyResponse Spec.DeviceUnavailable, db'))
  /\ valid Spec.DeviceUnavailable = false.
Proof.
  intros Hpk. split; [|split; [|reflexivity]].
  - intros Hun. apply handle_verify_unavailable.
    now apply find_active_unavailable.
  - intros dev t0 reqs Hdev db'.
    assert (Hpk0 : Spec.pk_unique (snd (handle settings self (Deactivate d) t0 db)))
      by now apply handle_pk_unique.
    destruct (handle_device_row settings self (Deactivate d) t0 db d dev Hpk Hdev)
      as [dev0 [Hdev0 [_ Hact0]]].
    destruct (run_device_row settings self reqs _ d dev0 Hpk0 Hdev0)
      as [dev1 [Hdev1 [_ Hact1]]].
    fold db' in Hdev1.
    apply handle_verify_unavailable, find_active_unavailable.
    + now apply run_pk_unique.
    + right. exists dev1. split; [exact Hdev1|].
      rewrite Hact1, Hact0. cbn [Spec.deactivates]. rewrite String.eqb_refl.
      cbn [negb]. now rewrite andb_false_r.
Qed.

(** The theorem in the scenario of the specification: device ["D1"] is
    registered, its code 809180 verifies at 1700000005, the device is
    deactivated, and the same code at the same time is then turned down
    with [DeviceUnavailable]; so is any code for the unknown ["D2"]. *)
Lemma verify_unavailable_device_witness :
  let settings := Settings.default "M" in
  let self := {| EnterpriseOTPService.master_secret := encode "M" |} in
  let db := snd (handle settings self (Register "D1" "alice") 1700000000
                   empty_database) in
  fst (handle settings self (Verify "D1" 809180 "10.0.0.1") 1700000005 db)
  = VerifyResponse (Spec.Verdict true)
  /\ fst (handle settings self (Verify "D1" 809180 "10.0.0.1") 1700000005
            (run settings self [] (snd (handle settings self (Deactivate "D1")
                                          1700000003 db))))
     = VerifyResponse Spec.DeviceUnavailable
  /\ fst (handle settings self (Verify "D2" 809180 "10.0.0.1") 1700000005 db)
     = VerifyResponse Spec.DeviceUnavailable.
Proof.
  intros settings self db.
  assert (Hpk : Spec.pk_unique db)
    by (apply handle_pk_unique; constructor).
  split; [vm_compute; reflexivity | split].
  - destruct (verify_unavailable_device settings self db "D1" 809180 "10.0.0.1"
                1700000005 Hpk) as [_ [Hafter _]].
    assert (Hdev : exists dev, Spec.find_device "D1" db = Some dev)
      by (eexists; vm_compute; reflexivity).
    destruct Hdev as [dev Hdev].
    now rewrite (Hafter dev 1700000003 [] Hdev).
  - destruct (verify_unavailable_device settings self db "D2" 809180 "10.0.0.1"
                1700000005 Hpk) as [Habsent _].
    rewrite Habsent; [reflexivity|]. left. vm_compute. reflexivity.
Defined.

(** ** Deactivation *)

(** C8, as amended. For every device of the store and every sequence of
    requests, [deactivated_at] is written by the deactivation requests for
    the device and by nothing else: after the sequence it holds the instant
    of the last such request (a repeated deactivation overwrites the
    earlier instant), or its former value when there was none; and the
    device is active afterwards only if it was active before and no
    deactivation was requested, so that no request returns a deactivated
    device to the active state. *)
Theorem deactivation_is_terminal (settings : Settings.t)
  (self : EnterpriseOTPService.t) (reqs : list (request * Z)) (db : Database)
  (d : string) (dev : Device.t) :
  Spec.pk_unique db ->
  Spec.find_device d db = Some dev ->
  exists dev',
    Spec.find_device d (run settings self reqs db) = Some dev'
    /\ Device.deactivated_at dev'
       = Spec.last_deactivation d reqs (Device.deactivated_at dev)
    /\ Device.is_active dev'
       = Device.is_active dev && negb (Spec.deactivation_requested d reqs)
    /\ (Device.is_active dev = false -> Device.is_active dev' = false).
Proof.
  intros Hpk Hdev.
  destruct (run_device_row settings self reqs db d dev Hpk Hdev)
    as [dev' [Hdev' [Hat Hact]]].
  exists dev'. repeat split; try assumption.
  intros Hinactive. now rewrite Hact, Hinactive.
Qed.

(** The theorem for a device deactivated at 200, then verified, registered
    again and deactivated again at 300. *)
Lemma deactivation_is_terminal_witness :
  let settings := Settings.default "M" in
  let self := {| EnterpriseOTPService.master_secret := encode "M" |} in
  let db := run settings self
              [(Register "D1" "alice", 100); (Deactivate "D1", 200)]
              empty_database in
  let reqs := [(Verify "D1" 809180 "10.0.0.1", 250); (Register "D1" "bob", 260);
               (Deactivate "D1", 300)] in
  exists dev',
    Spec.find_device "D1" (run settings self reqs db) = Some dev'
    /\ Device.deactivated_at dev' = Some 300
    /\ Device.is_active dev' = false.
Proof.
  intros settings self db reqs.
  assert (Hpk : Spec.pk_unique db) by (apply run_pk_unique; constructor).
  assert (Hdev : Spec.find_device "D1" db
                 = Some (Device.set_deactivated 200
                           (registration_row self "D1" "alice" 100)))
    by (vm_compute; reflexivity).
  destruct (deactivation_is_terminal settings self reqs db "D1" _ Hpk Hdev)
    as [dev' [Hdev' [Hat [_ Hterminal]]]].
  exists dev'. split; [exact Hdev'|]. split.
  - rewrite Hat. reflexivity.
  - apply Hterminal. reflexivity.
Defined.

(** C8 as stated fails: a second deactivation request for a device that is
    already inactive succeeds and overwrites [deactivated_at]. *)
Lemma deactivation_is_terminal_counterexample :
  let settings := Settings.default "M" in
  let self := {| EnterpriseOTPService.master_secret := encode "M" |} in
  let db := run settings self
              [(Register "D1" "alice", 100); (Deactivate "D1", 200)]
              empty_database in
  let again := handle settings self (Deactivate "D1") 300 db in
  option_map Device.deactivated_at (Spec.find_device "D1" db) = Some (Some 200)
  /\ option_map Device.is_active (Spec.find_device "D1" db) = Some false
  /\ fst again = DeactivateResponse (Deactivated "Device deactivated successfully")
  /\ option_map Device.deactivated_at (Spec.find_device "D1" (snd again))
     = Some (Some 300).
Proof.
  intros settings self db again.
  split; [|split; [|split]]; vm_compute; reflexivity.
Qed.

(** ** Usage statistics *)



(** ** The rate limit *)

Lemma filter_length_le {A} (p q : A -> bool) (l : list A) :
  (forall x, p x = true -> q x = true) ->
  (length (filter p l) <= length (filter q l))%nat.
Proof.
  intros Hpq. induction l as [|a l IH]; [reflexivity|]. cbn.
  destruct (p a) eqn:Ep.
  - rewrite (Hpq a Ep). cbn. lia.
  - destruct (q a); cbn; lia.
Qed.

(** C4, as amended. For an active device with more than 10 rows of action
    [OTP_VERIFICATION] (the code checks of the device, accepted or
    rejected) whose timestamp is strictly later than 5 minutes before
    [now], a verification request returns [RateLimited] for every code,
    every secret and every setting of the code check: the check is not
    reached. The session is left with the store as it was, no modified
    device, and one pending audit row; when the request ends the store is
    unchanged, usage statistics included. *)
Theorem rate_limited_before_code_check (settings : Settings.t)
  (self : EnterpriseOTPService.t) (db : Database) (d : string) (otp : Z)
  (ip : string) (now : Z) (dev : Device.t) :
  Spec.find_device d db = Some dev ->
  Device.is_active dev = true ->
  10 < Spec.recent_attempts db d now ->
  EnterpriseOTPService.verify_otp settings self d otp ip now (SessionLocal db)
  = (Spec.RateLimited,
     {| database := db; new_devices := [];
        new_logs := [audit_row d "RATE_LIMITED" false now ip]; dirty := [] |})
  /\ handle settings self (Verify d otp ip) now db
     = (VerifyResponse Spec.RateLimited, db).
Proof.
  intros Hdev Hactive Hcount.
  assert (Hfind : find (is_active_with_id d) (devices db) = Some dev)
    by now apply find_active_of_find.
  split.
  - now apply verify_otp_rate_limited with (dev := dev).
  - now apply handle_verify_rate_limited with (dev := dev).
Qed.

(** The theorem after eleven attempts in 11 seconds: the twelfth request
    carries the code 809180, which passes the check at that time, and is
    turned down with [RateLimited]. *)
Lemma rate_limited_before_code_check_witness :
  let settings := Settings.default "M" in
  let self := {| EnterpriseOTPService.master_secret := encode "M" |} in
  let db := run settings self ((Register "D1" "alice", 1700000000) :: eleven_attempts)
              empty_database in
  EnterpriseOTPService._verify_totp settings
    (EnterpriseOTPService.generate_derived_key self "D1") 809180 1700000015
  = Return true
  /\ handle settings self (Verify "D1" 809180 "10.0.0.1") 1700000015 db
     = (VerifyResponse Spec.RateLimited, db).
Proof.
  intros settings self db. split; [vm_compute; reflexivity|].
  assert (Hdev : Spec.find_device "D1" db
                 = Some (registration_row self "D1" "alice" 1700000000))
    by (vm_compute; reflexivity).
  apply (rate_limited_before_code_check settings self db "D1" 809180 "10.0.0.1"
           1700000015 _ Hdev).
  - reflexivity.
  - vm_compute. reflexivity.
Defined.

(** C4 as stated fails twice, for the device ["D1"] of master secret ["M"].
    After the eleven attempts of the scenario, made at the seconds
    [1700000001] to [1700000011], the window [[now - 300, now]] of the
    specification holds all eleven at [now = 1700000301], more than 10; the
    service compares the timestamps strictly, counts ten, checks the code
    935960 of that time and accepts it, and the usage count goes to 1. And
    with eleven rejections of the device as unavailable in the trailing 15
    seconds, which the specification counts as VERIFICATION_REJECTED, the
    service counts none, since its query asks for the action
    [OTP_VERIFICATION]; it accepts the code 809180. *)
Lemma rate_limited_before_code_check_counterexample :
  let settings := Settings.default "M" in
  let self := {| EnterpriseOTPService.master_secret := encode "M" |} in
  let row := registration_row self "D1" "alice" 1700000000 in
  let db := run settings self ((Register "D1" "alice", 1700000000) :: eleven_attempts)
              empty_database in
  let served := handle settings self (Verify "D1" 935960 "10.0.0.1") 1700000301 db in
  let db2 := registered_after_rejections self in
  let served2 := handle settings self (Verify "D1" 809180 "10.0.0.1") 1700000015 db2 in
  (Spec.find_device "D1" db = Some row
   /\ Device.is_active row = true
   /\ Spec.attempts_in_window db "D1" 300 1700000301 = 11
   /\ Spec.recent_attempts db "D1" 1700000301 = 10
   /\ fst served = VerifyResponse (Spec.Verdict true)
   /\ option_map Device.usage_count (Spec.find_device "D1" (snd served)) = Some 1)
  /\ (Spec.find_device "D1" db2 = Some (registration_row self "D1" "alice" 1700000012)
      /\ Spec.attempts_in_window db2 "D1" 300 1700000015 = 11
      /\ Spec.recent_attempts db2 "D1" 1700000015 = 0
      /\ fst served2 = VerifyResponse (Spec.Verdict true)).
Proof.
  vm_compute.
  split; [split; [|split; [|split; [|split; [|split]]]] | split; [|split; [|split]]];
    reflexivity.
Qed.

(** ** Verification near the epoch *)

(** C10. For every time [now] whose time step is below [window], the
    check of the code raises [struct.error] on the negative first step, and
    a verification request for an active device below the rate limit
    returns the [Verification failed] error, with the store unchanged,
    whatever the code, the code of the current step included. *)
Theorem verify_fails_near_epoch (settings : Settings.t)
  (self : EnterpriseOTPService.t) (db : Database) (d : string) (otp : Z)
  (ip : string) (now : Z) (dev : Device.t) :
  0 < Settings.otp_interval settings ->
  0 <= Settings.otp_window settings ->
  Spec.current_time_step (Settings.otp_interval settings) now
    < Settings.otp_window settings ->
  Spec.find_device d db = Some dev ->
  Device.is_active dev = true ->
  Spec.recent_attempts db d now <= 10 ->
  EnterpriseOTPService._verify_totp settings
    (EnterpriseOTPService.generate_derived_key self d) otp now
  = Raise StructError
  /\ handle settings self (Verify d otp ip) now db
     = (VerifyResponse Spec.VerificationFailed, db).
Proof.
  intros Hi Hw Hnear Hdev Hactive Hcount.
  assert (Hraise : EnterpriseOTPService._verify_totp settings
                     (EnterpriseOTPService.generate_derived_key self d) otp now
                   = Raise StructError)
    by now apply verify_totp_near_epoch.
  split; [exact Hraise|].
  apply handle_verify_raises with (dev := dev) (e := StructError);
    [now apply find_active_of_find | exact Hcount | exact Hraise].
Qed.

(** The theorem 5 seconds after the epoch, for the device ["D1"] and the
    code 686598 of the current step 0. *)
Lemma verify_fails_near_epoch_witness :
  let settings := Settings.default "M" in
  let self := {| EnterpriseOTPService.master_secret := encode "M" |} in
  let db := snd (handle settings self (Register "D1" "alice") 0 empty_database) in
  EnterpriseOTPService._generate_otp settings
    (EnterpriseOTPService.generate_derived_key self "D1") 0 = Return 686598
  /\ EnterpriseOTPService._verify_totp settings
       (EnterpriseOTPService.generate_derived_key self "D1") 686598 5
     = Raise StructError
  /\ handle settings self (Verify "D1" 686598 "10.0.0.1") 5 db
     = (VerifyResponse Spec.VerificationFailed, db).
Proof.
  intros settings self db. split; [vm_compute; reflexivity|].
  assert (Hdev : Spec.find_device "D1" db = Some (registration_row self "D1" "alice" 0))
    by (vm_compute; reflexivity).
  apply (verify_fails_near_epoch settings self db "D1" 686598 "10.0.0.1" 5
           (registration_row self "D1" "alice" 0)).
  - cbn. lia.
  - cbn. lia.
  - vm_compute. reflexivity.
  - exact Hdev.
  - reflexivity.
  - vm_compute. discriminate.
Defined.

(** ** The audit trail of rejected requests *)

(** C3 fails on the code. A verification request for a device the store
    does not hold returns [DeviceUnavailable] with its audit row only added
    to the session: the method returns without [db.commit()], the audit
    table is as it was when the method returns, and the row is dropped when
    the session closes. The same holds for the [RATE_LIMITED] row of a
    request over the rate limit. *)
Lemma rejected_attempt_audit_row_not_committed :
  let settings := Settings.default "M" in
  let self := {| EnterpriseOTPService.master_secret := encode "M" |} in
  let flooded := run settings self
                   ((Register "D1" "alice", 1700000000) :: eleven_attempts)
                   empty_database in
  EnterpriseOTPService.verify_otp settings self "ghost" 123456 "10.0.0.1"
    1700000000 (SessionLocal empty_database)
  = (Spec.DeviceUnavailable,
     {| database := empty_database; new_devices := [];
        new_logs := [audit_row "ghost" "INVALID_DEVICE" false 1700000000 "10.0.0.1"];
        dirty := [] |})
  /\ handle settings self (Verify "ghost" 123456 "10.0.0.1") 1700000000
       empty_database
     = (VerifyResponse Spec.DeviceUnavailable, empty_database)
  /\ audit_logs
       (snd (handle settings self (Verify "D1" 809180 "10.0.0.1") 1700000015 flooded))
     = audit_logs flooded
  /\ fst (handle settings self (Verify "D1" 809180 "10.0.0.1") 1700000015 flooded)
     = VerifyResponse Spec.RateLimited.
Proof.
  intros settings self flooded.
  split; [|split; [|split]]; vm_compute; reflexivity.
Qed.

(* ===================================================================== *)
(** * Part III: further properties of the code                           *)
(* ===================================================================== *)

(** ** Base64: decoding what was encoded *)

Lemma forallb_range (P : Z -> bool) (lo hi a : Z) :
  forallb P (range lo hi) = true -> lo <= a < hi -> P a = true.
Proof.
  intros H Ha. rewrite forallb_forall in H. apply H. now apply in_range.
Qed.

Lemma list_ind3 {A} (P : list A -> Prop) :
  P [] -> (forall a, P [a]) -> (forall a b, P [a; b]) ->
  (forall a b c l, P l -> P (a :: b :: c :: l)) ->
  forall l, P l.
Proof.
  intros H0 H1 H2 H3.
  assert (H : forall l, P l /\ (forall a, P (a :: l)) /\ (forall a b, P (a :: b :: l))).
  { induction l as [|x l [IH0 [IH1 IH2]]].
    - repeat split; auto.
    - repeat split; auto. }
  intros l. apply H.
Qed.

Lemma b64encode_three (a b c : Z) (rest : bytes) :
  b64encode (a :: b :: c :: rest)
  = b64_char (Z.shiftr a 2)
    :: b64_char (Z.lor (Z.shiftl (Z.land a 3) 4) (Z.shiftr b 4))
    :: b64_char (Z.lor (Z.shiftl (Z.land b 15) 2) (Z.shiftr c 6))
    :: b64_char (Z.land c 63)
    :: b64encode rest.
Proof. reflexivity. Qed.

Lemma b64_char_decodes (d : Z) :
  0 <= d < 64 ->
  Ascii.eqb (b64_char d) "="%char = false /\ Base64.table_a2b (b64_char d) = Some d.
Proof.
  intros Hd.
  pose proof (forallb_range
                (fun d => negb (Ascii.eqb (b64_char d) "="%char)
                          && match Base64.table_a2b (b64_char d) with
                             | Some d' => d' =? d
                             | None => false
                             end) 0 64 d) as H.
  cbv beta in H. specialize (H ltac:(vm_compute; reflexivity) Hd).
  apply andb_true_iff in H. destruct H as [Hpad Hidx].
  apply negb_true_iff in Hpad. split; [exact Hpad|].
  destruct (Base64.table_a2b (b64_char d)) as [d'|]; [|discriminate].
  apply Z.eqb_eq in Hidx. now subst.
Qed.

(** One character of the alphabet, read by the decoder. *)
Lemma a2b_base64_char (d : Z) (rest : list ascii) (quad_pos : nat) (leftchar : Z)
  (pads : nat) (out : bytes) :
  0 <= d < 64 ->
  Base64.a2b_base64 (b64_char d :: rest) quad_pos leftchar pads out
  = match quad_pos with
    | 0%nat => Base64.a2b_base64 rest 1 d 0 out
    | 1%nat =>
        Base64.a2b_base64 rest 2 (Z.land d 0x0f) 0
          (out ++ [Z.lor (Z.shiftl leftchar 2) (Z.shiftr d 4)])
    | 2%nat =>
        Base64.a2b_base64 rest 3 (Z.land d 0x03) 0
          (out ++ [Z.lor (Z.shiftl leftchar 4) (Z.shiftr d 2)])
    | _ => Base64.a2b_base64 rest 0 0 0 (out ++ [Z.lor (Z.shiftl leftchar 6) d])
    end.
Proof.
  intros Hd. destruct (b64_char_decodes d Hd) as [Hpad Hidx].
  cbn [Base64.a2b_base64]. now rewrite Hpad, Hidx.
Qed.

(** The bit fields of a byte, and how the decoder joins them again. *)
Lemma byte_fields (a : Z) :
  0 <= a < 256 ->
  (0 <= Z.shiftr a 2 < 64 /\ 0 <= Z.land a 3 < 4 /\ 0 <= Z.shiftr a 4 < 16
   /\ 0 <= Z.land a 15 < 16 /\ 0 <= Z.shiftr a 6 < 4 /\ 0 <= Z.land a 63 < 64)
  /\ Z.lor (Z.shiftl (Z.shiftr a 2) 2) (Z.land a 3) = a
  /\ Z.lor (Z.shiftl (Z.shiftr a 4) 4) (Z.land a 15) = a
  /\ Z.lor (Z.shiftl (Z.shiftr a 6) 6) (Z.land a 63) = a.
Proof.
  intros Ha.
  pose proof (forallb_range
                (fun a =>
                   (0 <=? Z.shiftr a 2) && (Z.shiftr a 2 <? 64)
                   && (0 <=? Z.land a 3) && (Z.land a 3 <? 4)
                   && (0 <=? Z.shiftr a 4) && (Z.shiftr a 4 <? 16)
                   && (0 <=? Z.land a 15) && (Z.land a 15 <? 16)
                   && (0 <=? Z.shiftr a 6) && (Z.shiftr a 6 <? 4)
                   && (0 <=? Z.land a 63) && (Z.land a 63 <? 64)
                   && (Z.lor (Z.shiftl (Z.shiftr a 2) 2) (Z.land a 3) =? a)
                   && (Z.lor (Z.shiftl (Z.shiftr a 4) 4) (Z.land a 15) =? a)
                   && (Z.lor (Z.shiftl (Z.shiftr a 6) 6) (Z.land a 63) =? a))
                0 256 a) as H.
  cbv beta in H. specialize (H ltac:(vm_compute; reflexivity) Ha).
  repeat (apply andb_true_iff in H; destruct H as [H ?]).
  repeat match goal with
         | E : (_ <=? _) = true |- _ => apply Z.leb_le in E
         | E : (_ <? _) = true |- _ => apply Z.ltb_lt in E
         | E : (_ =? _) = true |- _ => apply Z.eqb_eq in E
         end.
  repeat split; assumption.
Qed.

(** Two bit fields joined into one character value, and read back. *)
Lemma joined_fields (w x y : Z) :
  (w = 2 \/ w = 4) -> 0 <= x < 2 ^ (6 - w) -> 0 <= y < 2 ^ w ->
  0 <= Z.lor (Z.shiftl x w) y < 64
  /\ Z.shiftr (Z.lor (Z.shiftl x w) y) w = x
  /\ Z.land (Z.lor (Z.shiftl x w) y) (2 ^ w - 1) = y.
Proof.
  intros Hw Hx Hy.
  assert (Hall : forallb
                   (fun w =>
                      forallb
                        (fun x =>
                           forallb
                             (fun y =>
                                (0 <=? Z.lor (Z.shiftl x w) y)
                                && (Z.lor (Z.shiftl x w) y <? 64)
                                && (Z.shiftr (Z.lor (Z.shiftl x w) y) w =? x)
                                && (Z.land (Z.lor (Z.shiftl x w) y) (2 ^ w - 1) =? y))
                             (range 0 (2 ^ w)))
                        (range 0 (2 ^ (6 - w))))
                   [2; 4] = true) by (vm_compute; reflexivity).
  rewrite forallb_forall in Hall.
  assert (Hin : In w [2; 4]) by (cbn; lia).
  specialize (Hall w Hin).
  pose proof (forallb_range _ _ _ x Hall Hx) as Hxy. cbv beta in Hxy.
  pose proof (forallb_range _ _ _ y Hxy Hy) as H. cbv beta in H.
  repeat (apply andb_true_iff in H; destruct H as [H ?]).
  repeat match goal with
         | E : (_ <=? _) = true |- _ => apply Z.leb_le in E
         | E : (_ <? _) = true |- _ => apply Z.ltb_lt in E
         | E : (_ =? _) = true |- _ => apply Z.eqb_eq in E
         end.
  repeat split; assumption.
Qed.

(** The padding, read by the decoder after two or three characters. *)
Lemma a2b_base64_pad (rest : list ascii) (leftchar : Z) (out : bytes) :
  Base64.a2b_base64 ("="%char :: "="%char :: rest) 2 leftchar 0 out = Some out
  /\ Base64.a2b_base64 ("="%char :: rest) 3 leftchar 0 out = Some out.
Proof. split; reflexivity. Qed.

Lemma a2b_base64_b64encode (bs : bytes) :
  Forall (fun b => 0 <= b < 256) bs ->
  forall leftchar out,
    Base64.a2b_base64 (b64encode bs) 0 leftchar 0 out = Some (out ++ bs).
Proof.
  induction bs as [|a|a b|a b c rest IH] using list_ind3; intros Hbs leftchar out.
  - cbn. now rewrite app_nil_r.
  - inversion Hbs as [|? ? Ha _]; subst.
    destruct (byte_fields a Ha) as [[Ha2 [Ha3 _]] [Ja _]].
    destruct (joined_fields 4 (Z.land a 3) 0 (or_intror eq_refl) Ha3 ltac:(cbn; lia))
      as [Hr [Hs _]].
    rewrite Z.lor_0_r in Hr, Hs.
    change (b64encode [a])
      with [b64_char (Z.shiftr a 2); b64_char (Z.shiftl (Z.land a 3) 4);
            "="%char; "="%char].
    rewrite !a2b_base64_char by assumption.
    rewrite (proj1 (a2b_base64_pad _ _ _)). now rewrite Hs, Ja.
  - inversion Hbs as [|? ? Ha Hbs']; subst.
    inversion Hbs' as [|? ? Hb _]; subst.
    destruct (byte_fields a Ha) as [[Ha2 [Ha3 _]] [Ja _]].
    destruct (byte_fields b Hb) as [[_ [_ [Hb4 [Hb15 _]]]] [_ [Jb _]]].
    destruct (joined_fields 4 (Z.land a 3) (Z.shiftr b 4) (or_intror eq_refl) Ha3 Hb4)
      as [Hr2 [Hs2 Hl2]].
    destruct (joined_fields 2 (Z.land b 15) 0 (or_introl eq_refl) Hb15
                ltac:(cbn; lia)) as [Hr3 [Hs3 _]].
    rewrite Z.lor_0_r in Hr3, Hs3.
    change (b64encode [a; b])
      with [b64_char (Z.shiftr a 2);
            b64_char (Z.lor (Z.shiftl (Z.land a 3) 4) (Z.shiftr b 4));
            b64_char (Z.shiftl (Z.land b 15) 2); "="%char].
    rewrite !a2b_base64_char by assumption.
    rewrite (proj2 (a2b_base64_pad _ _ _)).
    change (2 ^ 4 - 1) with 15 in Hl2. change 0x0f with 15.
    rewrite Hs2, Ja, Hl2, Hs3, Jb. now rewrite <- app_assoc.
  - inversion Hbs as [|? ? Ha Hbs1]; subst.
    inversion Hbs1 as [|? ? Hb Hbs2]; subst.
    inversion Hbs2 as [|? ? Hc Hrest]; subst.
    destruct (byte_fields a Ha) as [[Ha2 [Ha3 _]] [Ja _]].
    destruct (byte_fields b Hb) as [[_ [_ [Hb4 [Hb15 _]]]] [_ [Jb _]]].
    destruct (byte_fields c Hc) as [[_ [_ [_ [_ [Hc6 Hc63]]]]] [_ [_ Jc]]].
    destruct (joined_fields 4 (Z.land a 3) (Z.shiftr b 4) (or_intror eq_refl) Ha3 Hb4)
      as [Hr2 [Hs2 Hl2]].
    destruct (joined_fields 2 (Z.land b 15) (Z.shiftr c 6) (or_introl eq_refl)
                Hb15 Hc6) as [Hr3 [Hs3 Hl3]].
    change (2 ^ 4 - 1) with 15 in Hl2. change (2 ^ 2 - 1) with 3 in Hl3.
    rewrite b64encode_three, !a2b_base64_char by assumption.
    change 0x0f with 15. change 0x03 with 3.
    rewrite Hs2, Ja, Hl2, Hs3, Jb, Hl3, Jc.
    rewrite (IH Hrest). now rewrite <- !app_assoc.
Qed.

Lemma b64_char_ascii (d : Z) : (of_ascii (b64_char d) <? 128) = true.
Proof.
  assert (Hall : forallb (fun c => of_ascii c <? 128) Base64.alphabet = true)
    by (vm_compute; reflexivity).
  rewrite forallb_forall in Hall. unfold b64_char.
  destruct (nth_in_or_default (Z.to_nat d) Base64.alphabet "="%char) as [Hin | E].
  - apply Hall, Hin.
  - unfold Base64.alphabet in E. now rewrite E.
Qed.

Lemma b64encode_ascii (bs : bytes) :
  forallb (fun c => of_ascii c <? 128) (b64encode bs) = true.
Proof.
  induction bs as [|a|a b|a b c rest IH] using list_ind3.
  - reflexivity.
  - change (b64encode [a])
      with [b64_char (Z.shiftr a 2); b64_char (Z.shiftl (Z.land a 3) 4);
            "="%char; "="%char].
    cbn [forallb]. now rewrite !b64_char_ascii.
  - change (b64encode [a; b])
      with [b64_char (Z.shiftr a 2);
            b64_char (Z.lor (Z.shiftl (Z.land a 3) 4) (Z.shiftr b 4));
            b64_char (Z.shiftl (Z.land b 15) 2); "="%char].
    cbn [forallb]. now rewrite !b64_char_ascii.
  - rewrite b64encode_three. cbn [forallb]. now rewrite !b64_char_ascii, IH.
Qed.

Lemma b64decode_b64encode (bs : bytes) :
  Forall (fun b => 0 <= b < 256) bs ->
  Base64.b64decode (string_of_list_ascii (b64encode bs)) = Some bs.
Proof.
  intros Hbs. unfold Base64.b64decode.
  rewrite list_ascii_of_string_of_list_ascii, b64encode_ascii.
  now rewrite a2b_base64_b64encode.
Qed.

Lemma sha256_digest_bytes (msg : bytes) :
  Forall (fun b => 0 <= b < 256) (SHA256.digest msg).
Proof.
  unfold SHA256.digest.
  destruct (fold_left SHA256.compress (Word32.blocks msg) SHA256.init)
    as [[[[[[[h0 h1] h2] h3] h4] h5] h6] h7].
  repeat (apply Forall_app; split); apply big_endian_bytes.
Qed.

(** X6. Decoding the Base64 text of a byte string gives the byte string
    back, whatever its length: the padding the encoder adds for one or two
    bytes left over is the padding the decoder expects. *)
Theorem base64_round_trip (bs : bytes) :
  Forall (fun b => 0 <= b < 256) bs ->
  Base64.b64decode (string_of_list_ascii (b64encode bs)) = Some bs
  /\ (length (b64encode bs) = 4 * Nat.div (length bs + 2) 3)%nat.
Proof.
  intros Hbs. split; [now apply b64decode_b64encode|].
  clear Hbs. induction bs as [|a|a b|a b c rest IH] using list_ind3;
    try reflexivity.
  rewrite b64encode_three. cbn [length]. rewrite IH.
  replace (S (S (S (length rest))) + 2)%nat with (length rest + 2 + 1 * 3)%nat by lia.
  rewrite Nat.div_add by lia. lia.
Qed.

(** The theorem on byte strings of the three lengths modulo 3. *)
Lemma base64_round_trip_witness :
  Base64.b64decode (string_of_list_ascii (b64encode [0; 255; 16; 131])) 
  = Some [0; 255; 16; 131]
  /\ length (b64encode [0; 255; 16; 131]) = 8%nat.
Proof.
  apply (base64_round_trip [0; 255; 16; 131]).
  repeat constructor; lia.
Defined.

(** ** The check of the code: what it accepts *)

Lemma verify_totp_loop_true (settings : Settings.t) (secret : bytes)
  (otp current : Z) (offsets : list Z) :
  EnterpriseOTPService._verify_totp_loop settings secret otp current offsets
  = Return true ->
  exists o, In o offsets
            /\ EnterpriseOTPService._generate_otp settings secret (current + o)
               = Return otp.
Proof.
  induction offsets as [|o rest IH]; intros Hloop; [discriminate|].
  cbn [EnterpriseOTPService._verify_totp_loop] in Hloop.
  destruct (EnterpriseOTPService._generate_otp settings secret (current + o))
    as [code|e] eqn:Hgen; cbn [py_bind] in Hloop; [|discriminate].
  destruct (Z.eqb_spec code otp) as [-> | Hne].
  - exists o. split; [now left | exact Hgen].
  - destruct (IH Hloop) as [o' [Hin Ho']]. exists o'. split; [now right | exact Ho'].
Qed.

Lemma verify_totp_true (settings : Settings.t) (secret : bytes) (otp now : Z) :
  EnterpriseOTPService._verify_totp settings secret otp now = Return true ->
  exists time_step,
    EnterpriseOTPService._generate_otp settings secret time_step = Return otp.
Proof.
  unfold EnterpriseOTPService._verify_totp. intros H.
  destruct (time_step_of now (Settings.otp_interval settings)) as [current|e];
    cbn [py_bind] in H; [|discriminate].
  destruct (verify_totp_loop_true _ _ _ _ _ H) as [o [_ Ho]]. eauto.
Qed.

Lemma generate_otp_return_bounds (settings : Settings.t) (secret : bytes)
  (time_step code : Z) :
  0 <= Settings.otp_digits settings ->
  EnterpriseOTPService._generate_otp settings secret time_step = Return code ->
  0 <= code < 10 ^ Settings.otp_digits settings.
Proof.
  intros Hd Hgen.
  destruct (Z.lt_ge_cases time_step 0) as [Hneg | Hnn];
    [rewrite generate_otp_out_of_range in Hgen by (now left); discriminate|].
  destruct (Z.lt_ge_cases time_step (2 ^ 64)) as [Hlt | Hge];
    [|rewrite generate_otp_out_of_range in Hgen by (now right); discriminate].
  rewrite generate_otp_in_range in Hgen by lia. injection Hgen as <-.
  now apply code_at_bounds.
Qed.

(** X1. A verification request is answered with [valid = true] only for a
    code in [0, 10^digits): a negative code, or one of more digits than
    the service issues, is never accepted, for any device, store or time. *)
Theorem accepted_code_has_the_digits (settings : Settings.t)
  (self : EnterpriseOTPService.t) (db : Database) (d : string) (otp : Z)
  (ip : string) (now : Z) (r : VerifyResult) :
  0 <= Settings.otp_digits settings ->
  fst (handle settings self (Verify d otp ip) now db) = VerifyResponse r ->
  valid r = true ->
  0 <= otp < 10 ^ Settings.otp_digits settings.
Proof.
  intros Hd Hresp Hvalid.
  destruct (handle_verify_cases settings self d otp ip now db)
    as [[r' [E Hr']] | [[dev [logs [_ [_ [_ E]]]]]
                        | [dev [logs [_ [_ [Htotp E]]]]]]];
    rewrite E in Hresp; cbn [fst] in Hresp; injection Hresp as <-.
  - congruence.
  - discriminate.
  - destruct (verify_totp_true _ _ _ _ Htotp) as [time_step Hgen].
    now apply generate_otp_return_bounds with (secret :=
      EnterpriseOTPService.generate_derived_key self d) (time_step := time_step).
Qed.

(** The theorem for the device ["D1"] and its code 809180. *)
Lemma accepted_code_has_the_digits_witness : 0 <= 809180 < 10 ^ 6.
Proof.
  apply (accepted_code_has_the_digits (Settings.default "M")
           {| EnterpriseOTPService.master_secret := encode "M" |}
           (snd (handle (Settings.default "M")
                   {| EnterpriseOTPService.master_secret := encode "M" |}
                   (Register "D1" "alice") 1700000000 empty_database))
           "D1" 809180 "10.0.0.1" 1700000005 (Spec.Verdict true)).
  - cbn. lia.
  - vm_compute. reflexivity.
  - reflexivity.
Defined.

(** ** Settings that make every verification fail *)

(** X2. With a negative [otp_window] the loop of [_verify_totp] has no step
    to try: no verification request is ever answered with [valid = true],
    not even for the code of the current step. *)
Theorem negative_window_rejects_every_code (settings : Settings.t)
  (self : EnterpriseOTPService.t) (db : Database) (d : string) (otp : Z)
  (ip : string) (now : Z) :
  0 < Settings.otp_interval settings ->
  Settings.otp_window settings < 0 ->
  EnterpriseOTPService._verify_totp settings
    (EnterpriseOTPService.generate_derived_key self d) otp now = Return false
  /\ exists r,
       fst (handle settings self (Verify d otp ip) now db) = VerifyResponse r
       /\ valid r = false.
Proof.
  intros Hi Hw.
  assert (Htotp : EnterpriseOTPService._verify_totp settings
                    (EnterpriseOTPService.generate_derived_key self d) otp now
                  = Return false).
  { unfold EnterpriseOTPService._verify_totp.
    rewrite time_step_of_positive by assumption. cbn [py_bind].
    now rewrite range_empty by lia. }
  split; [exact Htotp|].
  destruct (handle_verify_cases settings self d otp ip now db)
    as [[r [E Hr]] | [[dev [logs [_ [_ [_ E]]]]]
                      | [dev [logs [_ [_ [Htrue _]]]]]]].
  - exists r. now rewrite E.
  - exists (Spec.Verdict false). now rewrite E.
  - congruence.
Qed.

(** The theorem with [otp_window = -1], for the code of the current step. *)
Lemma negative_window_rejects_every_code_witness :
  let settings := settings_with 6 30 (-1) in
  let self := {| EnterpriseOTPService.master_secret := encode "M" |} in
  let db := snd (handle settings self (Register "D1" "alice") 1700000000
                   empty_database) in
  EnterpriseOTPService._generate_otp settings
    (EnterpriseOTPService.generate_derived_key self "D1") 56666666 = Return 809180
  /\ EnterpriseOTPService._verify_totp settings
       (EnterpriseOTPService.generate_derived_key self "D1") 809180 1700000005
     = Return false
  /\ exists r,
       fst (handle settings self (Verify "D1" 809180 "10.0.0.1") 1700000005 db)
       = VerifyResponse r
       /\ valid r = false.
Proof.
  intros settings self db. split; [vm_compute; reflexivity|].
  apply (negative_window_rejects_every_code settings self db "D1" 809180
           "10.0.0.1" 1700000005); cbn; lia.
Defined.

(** X3. With [otp_interval = 0] the floor division of the clock raises:
    no verification request is ever answered with [valid = true], every
    request leaves the device table as it was and commits no audit row. *)
Theorem zero_interval_fails_every_verification (settings : Settings.t)
  (self : EnterpriseOTPService.t) (db : Database) (d : string) (otp : Z)
  (ip : string) (now : Z) :
  Settings.otp_interval settings = 0 ->
  exists r,
    handle settings self (Verify d otp ip) now db = (VerifyResponse r, db)
    /\ valid r = false
    /\ error r <> None.
Proof.
  intros Hi.
  assert (Htotp : EnterpriseOTPService._verify_totp settings
                    (EnterpriseOTPService.generate_derived_key self d) otp now
                  = Raise ZeroDivisionError).
  { unfold EnterpriseOTPService._verify_totp, time_step_of. now rewrite Hi. }
  destruct (find (is_active_with_id d) (devices db)) as [dev|] eqn:Hfind.
  - destruct (Z.lt_ge_cases 10 (Spec.recent_attempts db d now)) as [Hover | Hok].
    + exists Spec.RateLimited. split; [|split; [reflexivity | discriminate]].
      now apply handle_verify_rate_limited with (dev := dev).
    + exists Spec.VerificationFailed. split; [|split; [reflexivity | discriminate]].
      now apply handle_verify_raises with (dev := dev) (e := ZeroDivisionError).
  - exists Spec.DeviceUnavailable. split; [|split; [reflexivity | discriminate]].
    now apply handle_verify_unavailable.
Qed.

(** The theorem with [otp_interval = 0] for a registered device. *)
Lemma zero_interval_fails_every_verification_witness :
  let settings := settings_with 6 0 1 in
  let self := {| EnterpriseOTPService.master_secret := encode "M" |} in
  let db := snd (handle settings self (Register "D1" "alice") 1700000000
                   empty_database) in
  exists r,
    handle settings self (Verify "D1" 809180 "10.0.0.1") 1700000005 db
    = (VerifyResponse r, db)
    /\ valid r = false
    /\ error r <> None.
Proof.
  intros settings self db.
  apply (zero_interval_fails_every_verification settings self db "D1" 809180
           "10.0.0.1" 1700000005).
  reflexivity.
Defined.

(** ** The stand-alone server and the service *)

(** X4. The server of [otp.py] and the service take the same decision, or
    raise the same exception, on every input: same master secret, device,
    code, time and options of the code check. *)
Theorem standalone_server_agrees_with_service (settings : Settings.t)
  (master : bytes) (d : string) (otp now : Z) :
  Server.verify_otp {| Server.master_secret := master |} (encode d) otp
    (Settings.otp_digits settings) (Settings.otp_interval settings)
    (Settings.otp_window settings) now
  = EnterpriseOTPService._verify_totp settings
      (EnterpriseOTPService.generate_derived_key
         {| EnterpriseOTPService.master_secret := master |} d) otp now.
Proof.
  rewrite server_verify_otp_enterprise. reflexivity.
Qed.

(** ** How long a code stays valid *)

Lemma step_within_window (interval window now now' : Z) :
  0 < interval -> 0 <= window ->
  now - window * interval <= now' <= now + window * interval ->
  - window <= now / interval - now' / interval <= window.
Proof.
  intros Hi Hw [Hlo Hhi].
  assert (H1 : now' / interval <= (now + window * interval) / interval)
    by (apply Z.div_le_mono; lia).
  rewrite Z.div_add in H1 by lia.
  assert (H2 : (now - window * interval) / interval <= now' / interval)
    by (apply Z.div_le_mono; lia).
  replace (now - window * interval) with (now + (- window) * interval) in H2 by lia.
  rewrite Z.div_add in H2 by lia. lia.
Qed.

(** X18. With [digits >= 0] and an interval and clock readings below
    [2^53] (where the source's floating-point floor division is the exact
    one), a code the client generates at a time [now] is accepted at every
    time [now'] within [window * interval] seconds of [now], before or
    after, whose time step is at least [window]. *)
Theorem code_valid_for_window_seconds (settings : Settings.t) (secret : bytes)
  (now now' : Z) :
  0 <= Settings.otp_digits settings ->
  0 < Settings.otp_interval settings < 2 ^ 53 ->
  0 <= Settings.otp_window settings ->
  0 <= now < 2 ^ 53 ->
  now' < 2 ^ 53 ->
  now - Settings.otp_window settings * Settings.otp_interval settings <= now'
    <= now + Settings.otp_window settings * Settings.otp_interval settings ->
  Settings.otp_window settings
    <= Spec.current_time_step (Settings.otp_interval settings) now' ->
  exists code,
    ClientOTP.generate_otp settings {| ClientOTP.derived_key := secret |} now
    = Return code
    /\ EnterpriseOTPService._verify_totp settings secret code now' = Return true.
Proof.
  intros _ [Hi _] Hw [Hnow Hnow53] Hnow' Hnear Hlo.
  pose proof (window_fits _ _ _ Hi Hnow' Hlo) as Hhi.
  pose proof (step_within_window _ _ _ _ Hi Hw Hnear) as Hstep.
  unfold Spec.current_time_step in Hlo, Hhi.
  assert (Hs : 0 <= now / Settings.otp_interval settings)
    by (apply Z.div_pos; lia).
  exists (Spec.code_at (Settings.otp_digits settings) secret
            (now / Settings.otp_interval settings)).
  split.
  - rewrite client_otp_generate_otp_client, client_generate_otp_server.
    rewrite time_step_of_positive by assumption.
    cbn [py_bind Client.derived_key]. apply server_generate_otp_spec.
    unfold Spec.current_time_step. lia.
  - rewrite verify_totp_in_range by assumption. f_equal.
    apply existsb_range_hit
      with (k := now / Settings.otp_interval settings
                 - now' / Settings.otp_interval settings); [lia|].
    unfold Spec.current_time_step.
    replace (now' / Settings.otp_interval settings
             + (now / Settings.otp_interval settings
                - now' / Settings.otp_interval settings))
      with (now / Settings.otp_interval settings) by lia.
    apply Z.eqb_refl.
Qed.

(** The theorem with a window of 2 steps: a code generated at 1700000005
    is accepted 60 seconds later. *)
Lemma code_valid_for_window_seconds_witness :
  let settings := settings_with 6 30 2 in
  let secret := encode "12345678901234567890" in
  exists code,
    ClientOTP.generate_otp settings {| ClientOTP.derived_key := secret |} 1700000005
    = Return code
    /\ EnterpriseOTPService._verify_totp settings secret code 1700000065
       = Return true.
Proof.
  intros settings secret.
  apply (code_valid_for_window_seconds settings secret 1700000005 1700000065);
    try (cbn; lia); vm_compute; try reflexivity; discriminate.
Defined.

(** ** [otp.py]: the simulated flow *)

Lemma standalone_flow (server : Server.t) (device_id : bytes)
  (t_client t_server : Z) :
  0 <= t_client ->
  t_client <= t_server <= t_client + 30 ->
  t_server / 30 + 1 < 2 ^ 64 ->
  exists otp,
    Client.generate_otp
      {| Client.derived_key := Server.generate_derived_key server device_id |}
      6 30 t_client = Return otp
    /\ 0 <= otp < 10 ^ 6
    /\ (30 <= t_server ->
        Server.verify_otp server device_id otp 6 30 1 t_server = Return true)
    /\ (t_server < 30 ->
        Server.verify_otp server device_id otp 6 30 1 t_server = Raise StructError).
Proof.
  intros Hc Hs Hhi.
  generalize (Server.generate_derived_key server device_id)
             (server_verify_otp_enterprise (settings_with 6 30 1) server device_id).
  intros key Hver. cbn [settings_with Settings.otp_digits Settings.otp_interval
                        Settings.otp_window] in Hver.
  assert (Hstep : -1 <= t_client / 30 - t_server / 30 <= 1)
    by (apply (step_within_window 30 1 t_client t_server); lia).
  assert (Hc0 : 0 <= t_client / 30) by (apply Z.div_pos; lia).
  exists (Spec.code_at 6 key (t_client / 30)).
  split; [|split; [apply code_at_bounds; lia | split]].
  - rewrite client_generate_otp_server.
    change (time_step_of t_client 30) with (Return (t_client / 30)).
    cbn [py_bind Client.derived_key]. apply server_generate_otp_spec. lia.
  - intros Hlate.
    assert (Hs1 : 1 <= t_server / 30) by (apply Z.div_le_lower_bound; lia).
    rewrite Hver, verify_totp_in_range
      by (cbn; unfold Spec.current_time_step; lia).
    f_equal. apply existsb_range_hit with (k := t_client / 30 - t_server / 30);
      [cbn; lia|].
    cbn [settings_with Settings.otp_digits Settings.otp_interval].
    unfold Spec.current_time_step.
    replace (t_server / 30 + (t_client / 30 - t_server / 30))
      with (t_client / 30) by lia.
    apply Z.eqb_refl.
  - intros Hearly. rewrite Hver.
    apply verify_totp_near_epoch; [cbn; lia | cbn; lia |].
    cbn. unfold Spec.current_time_step. rewrite Z.div_small by lia. lia.
Qed.

(** X5. For clock readings below [2^53] seconds (where the source's
    floating-point floor division is the exact one), the flow of [main]
    ends with a valid verdict, and a code of at most 6 digits, whenever the
    server reads the clock at most 30 seconds after the client and at
    least 30 seconds after the epoch; within the first 30 seconds after
    the epoch it ends with [struct.error]. *)
Theorem otp_main_prints_valid (t_client t_server : Z) :
  0 <= t_client ->
  t_client <= t_server <= t_client + 30 ->
  t_server < 2 ^ 53 ->
  (30 <= t_server ->
   exists otp, otp_main t_client t_server = Return (otp, true) /\ 0 <= otp < 10 ^ 6)
  /\ (t_server < 30 -> otp_main t_client t_server = Raise StructError).
Proof.
  intros Hc Hs Hlt.
  assert (Hhi : t_server / 30 + 1 < 2 ^ 64).
  { assert (Hstep : t_server / 30 < 2 ^ 53) by (apply Z.div_lt_upper_bound; lia).
    lia. }
  unfold otp_main.
  destruct (standalone_flow
              {| Server.master_secret := encode "A7F3C94E91D6B1EEB2AA7792DD4F3211" |}
              (encode "DEVICE-XY-123456") t_client t_server Hc Hs Hhi)
    as [otp [Hgen [Hb [Hlate Hearly]]]].
  rewrite Hgen. cbn [py_bind]. split.
  - intros H. exists otp. rewrite (Hlate H). now split.
  - intros H. now rewrite (Hearly H).
Qed.

(** The theorem for a client at 1700000029 and a server one second later,
    in the next time step. *)
Lemma otp_main_prints_valid_witness :
  exists otp, otp_main 1700000029 1700000030 = Return (otp, true) /\ 0 <= otp < 10 ^ 6.
Proof.
  apply (otp_main_prints_valid 1700000029 1700000030); lia.
Defined.

(** ** What a request does to the store *)

Section Outcomes.

Variable settings : Settings.t.
Variable self : EnterpriseOTPService.t.

(** A request is turned down with an error and leaves the store as it
    was, or it is served and commits one audit row. *)
Lemma handle_outcome (req : request) (now : Z) (db : Database) :
  (exists e,
     response_error (fst (handle settings self req now db)) = Some e
     /\ snd (handle settings self req now db) = db)
  \/ (response_error (fst (handle settings self req now db)) = None
      /\ audit_logs (snd (handle settings self req now db))
         = audit_logs db
           ++ [audit_row_of req (fst (handle settings self req now db)) now]).
Proof.
  destruct req as [d u | d otp ip | d].
  - destruct (Spec.find_device d db) as [dev|] eqn:Hfind.
    + left. rewrite (handle_register_existing settings self d u now db dev Hfind).
      eexists. split; reflexivity.
    + right. rewrite (handle_register_fresh settings self d u now db Hfind).
      split; reflexivity.
  - destruct (find (is_active_with_id d) (devices db)) as [dev|] eqn:Hfind.
    + destruct (Z.lt_ge_cases 10 (Spec.recent_attempts db d now)) as [Hover | Hok].
      * left.
        rewrite (handle_verify_rate_limited settings self d otp ip now db dev
                   Hfind Hover).
        eexists. split; reflexivity.
      * destruct (EnterpriseOTPService._verify_totp settings
                    (EnterpriseOTPService.generate_derived_key self d) otp now)
          as [verdict|e] eqn:Htotp.
        -- right.
           rewrite (handle_verify_verdict settings self d otp ip now db dev verdict
                      Hfind Hok Htotp).
           split; reflexivity.
        -- left.
           rewrite (handle_verify_raises settings self d otp ip now db dev e
                      Hfind Hok Htotp).
           eexists. split; reflexivity.
    + left. rewrite (handle_verify_unavailable settings self d otp ip now db Hfind).
      eexists. split; reflexivity.
  - destruct (Spec.find_device d db) as [dev|] eqn:Hfind.
    + right. rewrite (handle_deactivate_present settings self d now db dev Hfind).
      split; reflexivity.
    + left. rewrite (handle_deactivate_absent settings self d now db Hfind).
      eexists. split; reflexivity.
Qed.

(** What one request does to the row of a device beyond its two
    deactivation columns: a verification of the device with a true verdict
    counts one use at the current time; nothing else changes. *)
Lemma handle_device_fields (req : request) (now : Z) (db : Database) (d : string)
  (dev : Device.t) :
  Spec.pk_unique db ->
  Spec.find_device d db = Some dev ->
  exists dev',
    Spec.find_device d (snd (handle settings self req now db)) = Some dev'
    /\ Device.device_id dev' = Device.device_id dev
    /\ Device.user_id dev' = Device.user_id dev
    /\ Device.derived_key_hash dev' = Device.derived_key_hash dev
    /\ Device.created_at dev' = Device.created_at dev
    /\ Device.usage_count dev'
       = Device.usage_count dev
         + (if verified d req (fst (handle settings self req now db)) then 1 else 0)
    /\ Device.last_used dev'
       = (if verified d req (fst (handle settings self req now db))
          then Some now else Device.last_used dev).
Proof.
  intros Hpk Hdev. destruct req as [d' u | d' otp ip | d'].
  - exists dev. cbn [verified]. rewrite Z.add_0_r.
    split; [|now repeat split].
    destruct (Spec.find_device d' db) as [dev0|] eqn:Hfind.
    + now rewrite (handle_register_existing settings self d' u now db dev0).
    + rewrite (handle_register_fresh settings self d' u now db Hfind).
      cbn [snd]. unfold Spec.find_device. cbn [devices]. now apply find_app_some.
  - destruct (handle_verify_cases settings self d' otp ip now db)
      as [[r [-> Hr]] | [[dev0 [logs [_ [_ [_ ->]]]]]
                         | [dev0 [logs [Hact [_ [_ ->]]]]]]];
      cbn [fst snd verified].
    + exists dev. rewrite Hr, andb_false_r, Z.add_0_r. now repeat split.
    + exists dev. cbn [Spec.Verdict valid]. rewrite andb_false_r, Z.add_0_r.
      now repeat split.
    + cbn [Spec.Verdict valid]. rewrite andb_true_r.
      unfold Spec.find_device. cbn [devices]. rewrite find_update_row.
      unfold Spec.find_device in Hdev. rewrite Hdev.
      cbn [option_map Device.set_used Device.device_id].
      pose proof (find_has_id_in _ _ _ Hdev) as [Hin Hid].
      apply find_some in Hact. destruct Hact as [Hin0 Hp].
      apply andb_true_iff in Hp. destruct Hp as [Hid0 _].
      apply String.eqb_eq in Hid0.
      rewrite Hid, Hid0, (String.eqb_sym d d').
      destruct (String.eqb_spec d' d) as [E | E].
      * assert (dev = dev0)
          by (apply (pk_same_row (devices db)); [exact Hpk | assumption | assumption | congruence]).
        subst dev0. exists (Device.set_used now dev). now repeat split.
      * exists dev. rewrite Z.add_0_r. now repeat split.
  - cbn [verified]. rewrite Z.add_0_r.
    destruct (Spec.find_device d' db) as [dev0|] eqn:Hfind.
    + rewrite (handle_deactivate_present settings self d' now db dev0 Hfind).
      cbn [snd]. unfold Spec.find_device. cbn [devices].
      rewrite find_update_row. unfold Spec.find_device in Hdev, Hfind.
      rewrite Hdev. cbn [option_map Device.set_deactivated Device.device_id].
      pose proof (find_has_id_in _ _ _ Hdev) as [Hin Hid].
      pose proof (find_has_id_in _ _ _ Hfind) as [Hin0 Hid0].
      destruct (String.eqb_spec (Device.device_id dev) (Device.device_id dev0))
        as [E | E].
      * assert (dev = dev0)
          by (apply (pk_same_row (devices db)); [exact Hpk | assumption | assumption | congruence]).
        subst dev0. exists (Device.set_deactivated now dev). now repeat split.
      * exists dev. now repeat split.
    + rewrite (handle_deactivate_absent settings self d' now db Hfind).
      exists dev. now repeat split.
Qed.

Lemma serve_run (reqs : list (request * Z)) (db : Database) :
  snd (serve settings self reqs db) = run settings self reqs db.
Proof.
  revert db. induction reqs as [|[req now] reqs IH]; intros db; [reflexivity|].
  cbn [serve run].
  destruct (handle settings self req now db) as [r db1] eqn:E.
  specialize (IH db1). destruct (serve settings self reqs db1) as [rs db2].
  cbn [snd] in *. exact IH.
Qed.

Lemma serve_device_fields (reqs : list (request * Z)) (db : Database) (d : string)
  (dev : Device.t) :
  Spec.pk_unique db ->
  Spec.find_device d db = Some dev ->
  exists dev',
    Spec.find_device d (snd (serve settings self reqs db)) = Some dev'
    /\ Device.device_id dev' = Device.device_id dev
    /\ Device.user_id dev' = Device.user_id dev
    /\ Device.derived_key_hash dev' = Device.derived_key_hash dev
    /\ Device.created_at dev' = Device.created_at dev
    /\ Device.usage_count dev'
       = Device.usage_count dev
         + count_verified d reqs (fst (serve settings self reqs db)).
Proof.
  revert db dev. induction reqs as [|[req now] reqs IH]; intros db dev Hpk Hdev.
  - exists dev. cbn. rewrite Z.add_0_r. now repeat split.
  - destruct (handle_device_fields req now db d dev Hpk Hdev)
      as [dev1 [Hdev1 [Hid1 [Hu1 [Hh1 [Hc1 [Hn1 _]]]]]]].
    pose proof (handle_pk_unique settings self req now db Hpk) as Hpk1.
    cbn [serve].
    destruct (handle settings self req now db) as [r db1] eqn:E.
    cbn [fst snd] in *.
    destruct (IH db1 dev1 Hpk1 Hdev1) as [dev' [Hdev' [Hid [Hu [Hh [Hc Hn]]]]]].
    destruct (serve settings self reqs db1) as [rs db2] eqn:E2.
    cbn [fst snd count_verified] in *.
    exists dev'. repeat split; try congruence. lia.
Qed.

End Outcomes.

(** X8. A request that is answered with an error leaves the store exactly
    as it was: no device row changes and no audit row is committed. *)
Theorem error_leaves_store_unchanged (settings : Settings.t)
  (self : EnterpriseOTPService.t) (req : request) (now : Z) (db : Database)
  (e : string) :
  response_error (fst (handle settings self req now db)) = Some e ->
  snd (handle settings self req now db) = db.
Proof.
  intros He.
  destruct (handle_outcome settings self req now db) as [[e' [_ Hdb]] | [Hnone _]].
  - exact Hdb.
  - congruence.
Qed.

(** The theorem for a deactivation of a device the store does not hold. *)
Lemma error_leaves_store_unchanged_witness :
  let settings := Settings.default "M" in
  let self := {| EnterpriseOTPService.master_secret := encode "M" |} in
  let db := snd (handle settings self (Register "D1" "alice") 100 empty_database) in
  snd (handle settings self (Deactivate "D2") 200 db) = db.
Proof.
  intros settings self db.
  apply (error_leaves_store_unchanged settings self (Deactivate "D2") 200 db
           "Device not found").
  reflexivity.
Defined.

(** X15. A request that is answered without an error commits exactly one
    audit row, at the end of the audit table: the row of the device, with
    the action of the request, the time of the request, [success] true for
    a registration or a deactivation and the verdict for a verification. *)
Theorem served_request_is_audited (settings : Settings.t)
  (self : EnterpriseOTPService.t) (req : request) (now : Z) (db : Database) :
  response_error (fst (handle settings self req now db)) = None ->
  audit_logs (snd (handle settings self req now db))
  = audit_logs db ++ [audit_row_of req (fst (handle settings self req now db)) now].
Proof.
  intros Hnone.
  destruct (handle_outcome settings self req now db) as [[e [He _]] | [_ Hlogs]].
  - congruence.
  - exact Hlogs.
Qed.

(** The theorem for a verification with a wrong code: one
    [OTP_VERIFICATION] row with [success] false. *)
Lemma served_request_is_audited_witness :
  let settings := Settings.default "M" in
  let self := {| EnterpriseOTPService.master_secret := encode "M" |} in
  let db := snd (handle settings self (Register "D1" "alice") 1700000000
                   empty_database) in
  audit_logs (snd (handle settings self (Verify "D1" 0 "10.0.0.1") 1700000005 db))
  = audit_logs db ++ [audit_row "D1" "OTP_VERIFICATION" false 1700000005 "10.0.0.1"].
Proof.
  intros settings self db.
  assert (Hresp : fst (handle settings self (Verify "D1" 0 "10.0.0.1") 1700000005 db)
                  = VerifyResponse (Spec.Verdict false)) by (vm_compute; reflexivity).
  pose proof (served_request_is_audited settings self (Verify "D1" 0 "10.0.0.1")
                1700000005 db) as H.
  rewrite Hresp in H. apply H. reflexivity.
Defined.

(** X9. The audit table only grows, and by at most one row for each
    request: after any sequence of requests the former table is a prefix of
    the new one. No request removes or rewrites an audit row. *)
Theorem audit_table_is_append_only (settings : Settings.t)
  (self : EnterpriseOTPService.t) (reqs : list (request * Z)) (db : Database) :
  exists added,
    audit_logs (run settings self reqs db) = audit_logs db ++ added
    /\ (length added <= length reqs)%nat.
Proof.
  revert db. induction reqs as [|[req now] reqs IH]; intros db.
  - exists []. split; [now rewrite app_nil_r | reflexivity].
  - cbn [run]. destruct (IH (snd (handle settings self req now db)))
      as [added [Hlogs Hlen]].
    destruct (handle_outcome settings self req now db) as [[e [_ Hdb]] | [_ Hrow]].
    + exists added. split; [|cbn; lia].
      rewrite Hlogs. now rewrite Hdb.
    + exists (audit_row_of req (fst (handle settings self req now db)) now :: added).
      split; [|cbn [length]; lia].
      rewrite Hlogs, Hrow, <- app_assoc. reflexivity.
Qed.

(** X10. No request removes a device or changes who it belongs to: after
    any sequence of requests a device of the store is still there, with
    the [device_id], [user_id], [derived_key_hash] and [created_at] it had. *)
Theorem device_identity_is_kept (settings : Settings.t)
  (self : EnterpriseOTPService.t) (reqs : list (request * Z)) (db : Database)
  (d : string) (dev : Device.t) :
  Spec.pk_unique db ->
  Spec.find_device d db = Some dev ->
  exists dev',
    Spec.find_device d (run settings self reqs db) = Some dev'
    /\ Device.device_id dev' = d
    /\ Device.user_id dev' = Device.user_id dev
    /\ Device.derived_key_hash dev' = Device.derived_key_hash dev
    /\ Device.created_at dev' = Device.created_at dev.
Proof.
  intros Hpk Hdev.
  destruct (serve_device_fields settings self reqs db d dev Hpk Hdev)
    as [dev' [Hdev' [Hid [Hu [Hh [Hc _]]]]]].
  rewrite serve_run in Hdev'. exists dev'.
  pose proof (find_has_id_in _ _ _ Hdev) as [_ Hd].
  repeat split; congruence.
Qed.

(** The theorem for a device that is verified, deactivated and registered
    again by somebody else. *)
Lemma device_identity_is_kept_witness :
  let settings := Settings.default "M" in
  let self := {| EnterpriseOTPService.master_secret := encode "M" |} in
  let db := snd (handle settings self (Register "D1" "alice") 1700000000
                   empty_database) in
  let reqs := [(Verify "D1" 809180 "10.0.0.1", 1700000005);
               (Deactivate "D1", 1700000010); (Register "D1" "mallory", 1700000020)] in
  exists dev',
    Spec.find_device "D1" (run settings self reqs db) = Some dev'
    /\ Device.device_id dev' = "D1"%string
    /\ Device.user_id dev' = "alice"%string
    /\ Device.derived_key_hash dev'
       = "23e238bf5146ddd520506d1849803be59469f06fbd5982a342647219394bb795"%string
    /\ Device.created_at dev' = 1700000000.
Proof.
  intros settings self db reqs.
  assert (Hdev : Spec.find_device "D1" db
                 = Some (registration_row self "D1" "alice" 1700000000))
    by (vm_compute; reflexivity).
  assert (Hhash : Device.derived_key_hash (registration_row self "D1" "alice" 1700000000)
                  = "23e238bf5146ddd520506d1849803be59469f06fbd5982a342647219394bb795"%string)
    by (vm_compute; reflexivity).
  assert (Hpk : Spec.pk_unique db) by (apply handle_pk_unique; constructor).
  rewrite <- Hhash.
  apply (device_identity_is_kept settings self reqs db "D1" _ Hpk Hdev).
Defined.

(** X11. The [usage_count] of a device counts its successful
    verifications: after any sequence of requests it is the former count
    plus the number of verification requests for the device that were
    answered with [valid = true]. *)
Theorem usage_count_counts_successes (settings : Settings.t)
  (self : EnterpriseOTPService.t) (reqs : list (request * Z)) (db : Database)
  (d : string) (dev : Device.t) :
  Spec.pk_unique db ->
  Spec.find_device d db = Some dev ->
  exists dev',
    Spec.find_device d (snd (serve settings self reqs db)) = Some dev'
    /\ Device.usage_count dev'
       = Device.usage_count dev
         + count_verified d reqs (fst (serve settings self reqs db)).
Proof.
  intros Hpk Hdev.
  destruct (serve_device_fields settings self reqs db d dev Hpk Hdev)
    as [dev' [Hdev' [_ [_ [_ [_ Hn]]]]]].
  exists dev'. split; assumption.
Qed.

(** The theorem for two good codes around a wrong one: the count is 2. *)
Lemma usage_count_counts_successes_witness :
  let settings := Settings.default "M" in
  let self := {| EnterpriseOTPService.master_secret := encode "M" |} in
  let db := snd (handle settings self (Register "D1" "alice") 1700000000
                   empty_database) in
  let reqs := [(Verify "D1" 809180 "10.0.0.1", 1700000005);
               (Verify "D1" 0 "10.0.0.1", 1700000006);
               (Verify "D1" 809180 "10.0.0.1", 1700000007)] in
  exists dev',
    Spec.find_device "D1" (snd (serve settings self reqs db)) = Some dev'
    /\ Device.usage_count dev' = 2.
Proof.
  intros settings self db reqs.
  assert (Hdev : Spec.find_device "D1" db
                 = Some (registration_row self "D1" "alice" 1700000000))
    by (vm_compute; reflexivity).
  assert (Hcount : count_verified "D1" reqs (fst (serve settings self reqs db)) = 2)
    by (vm_compute; reflexivity).
  assert (Hpk : Spec.pk_unique db) by (apply handle_pk_unique; constructor).
  destruct (usage_count_counts_successes settings self reqs db "D1" _ Hpk Hdev)
    as [dev' [Hdev' Hn]].
  exists dev'. split; [exact Hdev'|]. rewrite Hn, Hcount. reflexivity.
Defined.

(** ** The rate limit over time *)

Lemma recent_attempts_antitone (db : Database) (d : string) (t t' : Z) :
  t <= t' -> Spec.recent_attempts db d t' <= Spec.recent_attempts db d t.
Proof.
  intros Ht. unfold Spec.recent_attempts. apply Nat2Z.inj_le, filter_length_le.
  intros l Hl. apply andb_true_iff in Hl. destruct Hl as [Ha Hts].
  apply andb_true_iff. split; [exact Ha|].
  apply Z.ltb_lt in Hts. apply Z.ltb_lt. lia.
Qed.

Lemma recent_attempts_snoc (db db' : Database) (row : AuditLog.t) (d : string)
  (t : Z) :
  audit_logs db' = audit_logs db ++ [row] ->
  Spec.recent_attempts db' d t
  = Spec.recent_attempts db d t
    + (if Spec.is_attempt d row && (t - 300 <? AuditLog.timestamp row) then 1 else 0).
Proof.
  intros Hlogs. unfold Spec.recent_attempts. rewrite Hlogs, filter_app, length_app.
  cbn [filter].
  destruct (Spec.is_attempt d row && (t - 300 <? AuditLog.timestamp row));
    cbn [length]; lia.
Qed.

Lemma recent_attempts_committed (db : Database) (rows : list Device.t)
  (row : AuditLog.t) (d : string) (t : Z) :
  Spec.recent_attempts {| devices := rows; audit_logs := audit_logs db ++ [row] |} d t
  = Spec.recent_attempts db d t
    + (if Spec.is_attempt d row && (t - 300 <? AuditLog.timestamp row) then 1 else 0).
Proof. now apply recent_attempts_snoc. Qed.

Section RateLimit.

Variable settings : Settings.t.
Variable self : EnterpriseOTPService.t.

(** A request served at [now] keeps every device at 11 attempts or fewer
    in the 5 minutes before [now]: the twelfth is turned down unchecked. *)
Lemma handle_attempts_bounded (req : request) (now : Z) (db : Database) :
  (forall d, Spec.recent_attempts db d now <= 11) ->
  forall d, Spec.recent_attempts (snd (handle settings self req now db)) d now <= 11.
Proof.
  intros Hdb d. destruct req as [d' u | d' otp ip | d'].
  - destruct (Spec.find_device d' db) as [dev|] eqn:Hfind.
    + rewrite (handle_register_existing settings self d' u now db dev Hfind).
      apply Hdb.
    + rewrite (handle_register_fresh settings self d' u now db Hfind). cbn [snd].
      rewrite recent_attempts_committed.
      unfold Spec.is_attempt. cbn [audit_row AuditLog.action].
      rewrite andb_false_r. cbn [andb]. specialize (Hdb d). lia.
  - destruct (find (is_active_with_id d') (devices db)) as [dev|] eqn:Hfind.
    + destruct (Z.lt_ge_cases 10 (Spec.recent_attempts db d' now)) as [Hover | Hok].
      * rewrite (handle_verify_rate_limited settings self d' otp ip now db dev
                   Hfind Hover).
        apply Hdb.
      * destruct (EnterpriseOTPService._verify_totp settings
                    (EnterpriseOTPService.generate_derived_key self d') otp now)
          as [verdict|e] eqn:Htotp.
        -- rewrite (handle_verify_verdict settings self d' otp ip now db dev verdict
                      Hfind Hok Htotp).
           cbn [snd]. rewrite recent_attempts_committed.
           unfold Spec.is_attempt. cbn [audit_row AuditLog.device_id AuditLog.action].
           destruct (String.eqb_spec d' d) as [-> | Hne].
           ++ destruct (_ && _); lia.
           ++ cbn [andb]. specialize (Hdb d). lia.
        -- rewrite (handle_verify_raises settings self d' otp ip now db dev e
                      Hfind Hok Htotp).
           apply Hdb.
    + rewrite (handle_verify_unavailable settings self d' otp ip now db Hfind).
      apply Hdb.
  - destruct (Spec.find_device d' db) as [dev|] eqn:Hfind.
    + rewrite (handle_deactivate_present settings self d' now db dev Hfind).
      cbn [snd]. rewrite recent_attempts_committed.
      unfold Spec.is_attempt. cbn [audit_row AuditLog.action].
      rewrite andb_false_r. cbn [andb]. specialize (Hdb d). lia.
    + rewrite (handle_deactivate_absent settings self d' now db Hfind).
      apply Hdb.
Qed.

End RateLimit.

(** X12. When requests are served in the order of their instants, the
    audit table never holds more than 11 checked attempts of one device in
    any 5 minutes that end at or after the last request: however many
    verification requests arrive, the service checks at most 11 codes for
    a device in such a span. *)
Theorem checked_attempts_are_bounded (settings : Settings.t)
  (self : EnterpriseOTPService.t) (reqs : list (request * Z)) (t : Z)
  (db : Database) :
  (forall d, Spec.recent_attempts db d t <= 11) ->
  in_time_order t reqs ->
  forall d t', last_instant t reqs <= t' ->
               Spec.recent_attempts (run settings self reqs db) d t' <= 11.
Proof.
  revert t db. induction reqs as [|[req now] reqs IH]; intros t db Hdb Horder d t' Ht'.
  - cbn in *. pose proof (recent_attempts_antitone db d t t' Ht'). specialize (Hdb d).
    lia.
  - cbn [in_time_order] in Horder. destruct Horder as [Ht Horder].
    cbn [run last_instant] in *. apply (IH now); [|exact Horder | exact Ht'].
    apply handle_attempts_bounded. intros d0.
    pose proof (recent_attempts_antitone db d0 t now Ht). specialize (Hdb d0). lia.
Qed.

(** The theorem after the eleven attempts and five more, one per second,
    from the empty store. *)
Lemma checked_attempts_are_bounded_witness :
  let settings := Settings.default "M" in
  let self := {| EnterpriseOTPService.master_secret := encode "M" |} in
  let reqs := (Register "D1" "alice", 1700000000) :: eleven_attempts
              ++ map (fun i => (Verify "D1" 0 "10.0.0.1", 1700000011 + Z.of_nat i))
                     (seq 1 5) in
  Spec.recent_attempts (run settings self reqs empty_database) "D1" 1700000016 <= 11.
Proof.
  intros settings self reqs.
  apply (checked_attempts_are_bounded settings self reqs 0 empty_database).
  - intros d. cbn. lia.
  - cbn. lia.
  - cbn. lia.
Defined.

(** ** Registration and the client *)

Lemma hex_length (bs : bytes) : String.length (hex bs) = (2 * length bs)%nat.
Proof.
  unfold hex.
  assert (H : forall l : list ascii,
             String.length (string_of_list_ascii l) = length l)
    by (induction l as [|c l IH]; cbn; congruence).
  rewrite H. induction bs as [|b bs IH]; [reflexivity|].
  cbn [flat_map app length]. rewrite IH. lia.
Qed.

Lemma hmac_sha256_bytes (key msg : bytes) :
  Forall (fun b => 0 <= b < 256) (HMAC.sha256 key msg).
Proof. apply sha256_digest_bytes. Qed.

(** X13. A registration of a new device returns the Base64 text of the
    32-byte derived key and stores, not the key, but its SHA-256 digest as
    64 hexadecimal characters; the new row is active, belongs to the user
    of the request, and has never been used or deactivated. *)
Theorem registration_stores_fingerprint (settings : Settings.t)
  (self : EnterpriseOTPService.t) (db : Database) (d u : string) (now : Z) :
  Spec.find_device d db = None ->
  exists key derived_key row,
    fst (handle settings self (Register d u) now db)
    = RegisterResponse (Registered key d "Device registered successfully")
    /\ Base64.b64decode key = Some derived_key
    /\ derived_key = EnterpriseOTPService.generate_derived_key self d
    /\ length derived_key = 32%nat
    /\ Spec.find_device d (snd (handle settings self (Register d u) now db)) = Some row
    /\ Device.derived_key_hash row = hex (SHA256.digest derived_key)
    /\ String.length (Device.derived_key_hash row) = 64%nat
    /\ Device.user_id row = u
    /\ Device.is_active row = true
    /\ Device.created_at row = now
    /\ Device.usage_count row = 0
    /\ Device.last_used row = None
    /\ Device.deactivated_at row = None.
Proof.
  intros Hfresh. rewrite (handle_register_fresh settings self d u now db Hfresh).
  cbn [fst snd].
  exists (string_of_list_ascii
            (b64encode (EnterpriseOTPService.generate_derived_key self d))),
         (EnterpriseOTPService.generate_derived_key self d),
         (registration_row self d u now).
  split; [reflexivity|]. split; [apply b64decode_b64encode, hmac_sha256_bytes|].
  split; [reflexivity|]. split; [apply hmac_sha256_length|].
  split; [now apply find_device_registered|]. split; [reflexivity|].
  split; [|now repeat split].
  cbn [registration_row Device.new Device.derived_key_hash].
  now rewrite hex_length, sha256_digest_length.
Qed.

(** The theorem for the device ["D1"] on the empty store. *)
Lemma registration_stores_fingerprint_witness :
  exists row,
    Spec.find_device "D1"
      (snd (handle (Settings.default "M")
              {| EnterpriseOTPService.master_secret := encode "M" |}
              (Register "D1" "alice") 100 empty_database)) = Some row
    /\ String.length (Device.derived_key_hash row) = 64%nat
    /\ Device.is_active row = true.
Proof.
  destruct (registration_stores_fingerprint (Settings.default "M")
              {| EnterpriseOTPService.master_secret := encode "M" |}
              empty_database "D1" "alice" 100 eq_refl)
    as [key [derived_key [row H]]].
  exists row. tauto.
Defined.



(** ** A session that is used again *)

(** X14. The audit row of a request turned down as unavailable stays
    pending in the session. When the same session serves a registration
    next, the commit of the registration writes both rows, the pending one
    first. *)
Theorem pending_audit_row_rides_next_commit (settings : Settings.t)
  (self : EnterpriseOTPService.t) (db : Database) (d1 : string) (otp : Z)
  (ip : string) (t1 : Z) (d2 u : string) (t2 : Z) :
  find (is_active_with_id d1) (devices db) = None ->
  Spec.find_device d2 db = None ->
  let s1 := snd (EnterpriseOTPService.verify_otp settings self d1 otp ip t1
                   (SessionLocal db)) in
  database s1 = db
  /\ snd (EnterpriseOTPService.register_device self d2 u t2 s1)
     = SessionLocal
         {| devices := devices db ++ [registration_row self d2 u t2];
            audit_logs := audit_logs db
                          ++ [audit_row d1 "INVALID_DEVICE" false t1 ip;
                              audit_row d2 "DEVICE_REGISTERED" true t2 "unknown"] |}.
Proof.
  intros Hun Hfresh s1. unfold s1.
  rewrite (verify_otp_unavailable settings self d1 otp ip t1 db Hun). cbn [snd].
  split; [reflexivity|].
  unfold EnterpriseOTPService.register_device, try_except, db_bind,
    Db.query_device_first.
  cbn [database]. unfold Spec.find_device, has_id in Hfresh. rewrite Hfresh.
  unfold Db.add_device, Db.add_log, Db.commit, Db.flush, db_ret.
  cbn [database new_devices new_logs dirty SessionLocal app fold_left
       Db.insert_row Device.new Device.device_id].
  apply find_none_existsb in Hfresh. rewrite Hfresh. reflexivity.
Qed.

(** The theorem on the empty store. *)
Lemma pending_audit_row_rides_next_commit_witness :
  let settings := Settings.default "M" in
  let self := {| EnterpriseOTPService.master_secret := encode "M" |} in
  let s1 := snd (EnterpriseOTPService.verify_otp settings self "ghost" 123456
                   "10.0.0.1" 100 (SessionLocal empty_database)) in
  database s1 = empty_database
  /\ snd (EnterpriseOTPService.register_device self "D1" "alice" 200 s1)
     = SessionLocal
         {| devices := [registration_row self "D1" "alice" 200];
            audit_logs := [audit_row "ghost" "INVALID_DEVICE" false 100 "10.0.0.1";
                           audit_row "D1" "DEVICE_REGISTERED" true 200 "unknown"] |}.
Proof.
  intros settings self.
  apply (pending_audit_row_rides_next_commit settings self empty_database "ghost"
           123456 "10.0.0.1" 100 "D1" "alice" 200); reflexivity.
Defined.

(** ** The endpoints *)



(** X17. An authorized verification request is answered with status 200
    exactly when the code was checked, and the body then carries the
    verdict: a wrong code is a 200 with [valid = false]. A device that is
    unknown or inactive, the rate limit and a failure of the check are all
    answered with status 400 and the error text of the service, never 500.
    The store is left as the service leaves it. *)
Theorem verify_endpoint_status (settings : Settings.t) (api_key : string)
  (svc : EnterpriseOTPService.t) (d : string) (otp : Z) (ip : string) (now : Z)
  (db : Database) :
  api_key <> ""%string ->
  let served := handle settings svc (Verify d otp ip) now db in
  let answer := Main.verify_otp settings api_key svc api_key d otp ip now db in
  snd answer = snd served
  /\ match fst answer with
     | Main.Respond body =>
         Main.success body = true
         /\ exists verdict,
              Main.data body = Main.ValidData verdict
              /\ fst served = VerifyResponse (Spec.Verdict verdict)
     | Main.HTTPException status_code detail =>
         status_code = 400
         /\ exists r, fst served = VerifyResponse r
                      /\ error r = Some detail /\ valid r = false
     end.
Proof.
  intros Hkey served answer.
  assert (Hauth : Main.verify_api_key api_key api_key = Main.Respond api_key).
  { unfold Main.verify_api_key. apply String.eqb_neq in Hkey.
    now rewrite Hkey, String.eqb_refl. }
  unfold answer, served, Main.verify_otp, handle. rewrite Hauth.
  assert (Hcases :
            exists r s,
              EnterpriseOTPService.verify_otp settings svc d otp ip now (SessionLocal db)
              = (r, s)
              /\ (r = Spec.DeviceUnavailable \/ r = Spec.RateLimited
                  \/ r = Spec.VerificationFailed \/ exists v, r = Spec.Verdict v)).
  { destruct (find (is_active_with_id d) (devices db)) as [dev|] eqn:Hfind.
    - destruct (Z.lt_ge_cases 10 (Spec.recent_attempts db d now)) as [Hover | Hok].
      + rewrite (verify_otp_rate_limited settings svc d otp ip now db dev Hfind Hover).
        do 2 eexists. split; [reflexivity|]. right. now left.
      + destruct (EnterpriseOTPService._verify_totp settings
                    (EnterpriseOTPService.generate_derived_key svc d) otp now)
          as [verdict|e] eqn:Htotp.
        * rewrite (verify_otp_verdict settings svc d otp ip now db dev verdict
                     Hfind Hok Htotp).
          do 2 eexists. split; [reflexivity|]. right. right. right. now exists verdict.
        * rewrite (verify_otp_raises settings svc d otp ip now db dev e
                     Hfind Hok Htotp).
          do 2 eexists. split; [reflexivity|]. right. right. now left.
    - rewrite (verify_otp_unavailable settings svc d otp ip now db Hfind).
      do 2 eexists. split; [reflexivity|]. now left. }
  destruct Hcases as [r [s [E Hr]]]. unfold Db.get_db. rewrite E.
  destruct Hr as [-> | [-> | [-> | [v ->]]]]; cbn [fst snd Spec.DeviceUnavailable
    Spec.RateLimited Spec.VerificationFailed Spec.Verdict error valid
    Main.success Main.data].
  - split; [reflexivity|]. split; [reflexivity|]. eexists. now repeat split.
  - split; [reflexivity|]. split; [reflexivity|]. eexists. now repeat split.
  - split; [reflexivity|]. split; [reflexivity|]. eexists. now repeat split.
  - split; [reflexivity|]. split; [reflexivity|]. exists v. now split.
Qed.

(** The theorem for a wrong code and for an unknown device. *)
Lemma verify_endpoint_status_witness :
  let settings := Settings.default "M" in
  let svc := {| EnterpriseOTPService.master_secret := encode "M" |} in
  let db := snd (handle settings svc (Register "D1" "alice") 1700000000
                   empty_database) in
  fst (Main.verify_otp settings "k3y" svc "k3y" "D1" 0 "10.0.0.1" 1700000005 db)
  = Main.Respond {| Main.success := true;
                    Main.message := "OTP verification completed";
                    Main.data := Main.ValidData false |}
  /\ (snd (Main.verify_otp settings "k3y" svc "k3y" "D2" 0 "10.0.0.1" 1700000005 db)
      = snd (handle settings svc (Verify "D2" 0 "10.0.0.1") 1700000005 db)
      /\ match fst (Main.verify_otp settings "k3y" svc "k3y" "D2" 0 "10.0.0.1"
                      1700000005 db) with
         | Main.Respond body =>
             Main.success body = true
             /\ exists verdict,
                  Main.data body = Main.ValidData verdict
                  /\ fst (handle settings svc (Verify "D2" 0 "10.0.0.1") 1700000005 db)
                     = VerifyResponse (Spec.Verdict verdict)
         | Main.HTTPException status_code detail =>
             status_code = 400
             /\ exists r,
                  fst (handle settings svc (Verify "D2" 0 "10.0.0.1") 1700000005 db)
                  = VerifyResponse r
                  /\ error r = Some detail /\ valid r = false
         end).
Proof.
  intros settings svc db. split; [vm_compute; reflexivity|].
  apply (verify_endpoint_status settings "k3y" svc "D2" 0 "10.0.0.1" 1700000005 db).
  discriminate.
Defined.

(** ** The rate limit expires *)




(** ** [simple_app.py] *)

Lemma simple_verify_loop_enterprise (window : Z) (key : bytes) (otp current : Z)
  (offsets : list Z) :
  SimpleApp.SimpleOTPService.verify_loop key otp current offsets
  = EnterpriseOTPService._verify_totp_loop (settings_with 6 30 window) key otp current
      offsets.
Proof.
  induction offsets as [|o rest IH]; [reflexivity|].
  cbn [SimpleApp.SimpleOTPService.verify_loop EnterpriseOTPService._verify_totp_loop].
  change (SimpleApp.SimpleOTPService.generate_otp_at_time key (current + o))
    with (EnterpriseOTPService._generate_otp (settings_with 6 30 window) key
            (current + o)).
  destruct (EnterpriseOTPService._generate_otp (settings_with 6 30 window) key
              (current + o)); cbn [py_bind]; [|reflexivity].
  now rewrite IH.
Qed.

Lemma simple_verify_otp_enterprise (master : bytes) (d : string) (otp window now : Z) :
  SimpleApp.SimpleOTPService.verify_otp
    {| SimpleApp.SimpleOTPService.master_secret := master |} d otp window now
  = EnterpriseOTPService._verify_totp (settings_with 6 30 window)
      (EnterpriseOTPService.generate_derived_key
         {| EnterpriseOTPService.master_secret := master |} d) otp now.
Proof.
  unfold SimpleApp.SimpleOTPService.verify_otp, EnterpriseOTPService._verify_totp.
  cbn [settings_with Settings.otp_interval Settings.otp_window].
  destruct (time_step_of now 30); cbn [py_bind]; [|reflexivity].
  apply simple_verify_loop_enterprise.
Qed.

(** X19. The service of [simple_app.py], with its interval of 30 seconds
    and its 6 digits written into the code, takes the same decision as the
    service of [app/otp_service.py] under those settings, or raises the
    same exception, for every master secret, device, code, window and
    time. *)
Theorem simple_service_agrees_with_service (master : bytes) (d : string)
  (otp window now : Z) :
  SimpleApp.SimpleOTPService.verify_otp
    {| SimpleApp.SimpleOTPService.master_secret := master |} d otp window now
  = EnterpriseOTPService._verify_totp (settings_with 6 30 window)
      (EnterpriseOTPService.generate_derived_key
         {| EnterpriseOTPService.master_secret := master |} d) otp now
  /\ SimpleApp.SimpleOTPService.generate_derived_key
       {| SimpleApp.SimpleOTPService.master_secret := master |} d
     = EnterpriseOTPService.generate_derived_key
         {| EnterpriseOTPService.master_secret := master |} d.
Proof.
  split; [apply simple_verify_otp_enterprise | reflexivity].
Qed.

Section SimpleEndpoints.

Variable API_KEY : string.
Variable svc : SimpleApp.SimpleOTPService.t.

Lemma simple_authorized :
  SimpleApp.verify_api_key API_KEY API_KEY = Main.Respond API_KEY.
Proof. unfold SimpleApp.verify_api_key. now rewrite String.eqb_refl. Qed.

Lemma simple_lookup_deactivated (d d' : string) (now : Z)
  (entries : list (string * SimpleApp.device)) :
  option_map snd
    (find (fun kv => String.eqb (fst kv) d')
       (map (fun kv : string * SimpleApp.device =>
               if String.eqb (fst kv) d
               then (fst kv,
                     {| SimpleApp.user_id := SimpleApp.user_id (snd kv);
                        SimpleApp.created_at := SimpleApp.created_at (snd kv);
                        SimpleApp.is_active := false;
                        SimpleApp.deactivated_at := Some now |})
               else kv) entries))
  = option_map
      (fun dev =>
         if String.eqb d' d
         then {| SimpleApp.user_id := SimpleApp.user_id dev;
                 SimpleApp.created_at := SimpleApp.created_at dev;
                 SimpleApp.is_active := false;
                 SimpleApp.deactivated_at := Some now |}
         else dev)
      (option_map snd (find (fun kv => String.eqb (fst kv) d') entries)).
Proof.
  induction entries as [|[k dev] entries IH]; [reflexivity|].
  cbn [map find fst snd].
  destruct (String.eqb_spec k d) as [-> | Hkd]; cbn [fst snd].
  - destruct (String.eqb_spec d d') as [-> | Hdd'].
    + cbn [option_map snd]. now rewrite String.eqb_refl.
    + exact IH.
  - destruct (String.eqb_spec k d') as [-> | Hkd'].
    + cbn [option_map snd].
      destruct (String.eqb_spec d' d); [congruence | reflexivity].
    + exact IH.
Qed.

End SimpleEndpoints.

(** X20. In [simple_app.py] an authorized verification request that is
    answered with an error (device not found, device inactive, failure of
    the check) leaves both tables as they were; one that is answered with
    a body carries the verdict of the check, appends one audit entry with
    that verdict and leaves [devices_db] as it was. There is no rate limit:
    the check runs for every request on an active device. *)
Theorem simple_verify_outcomes (API_KEY : string)
  (svc : SimpleApp.SimpleOTPService.t) (d : string) (otp : Z) (host : string)
  (now : Z) (st : SimpleApp.state) :
  let answer := SimpleApp.verify_otp API_KEY svc API_KEY d otp host now st in
  match fst answer with
  | Main.HTTPException status_code detail =>
      snd answer = st
      /\ ((status_code = 400 /\ detail = "Device not found"%string
           /\ SimpleApp.lookup d st = None)
          \/ (status_code = 400 /\ detail = "Device is inactive"%string
              /\ exists dev, SimpleApp.lookup d st = Some dev
                             /\ SimpleApp.is_active dev = false)
          \/ (status_code = 500 /\ detail = "Verification failed"%string
              /\ exists e, SimpleApp.SimpleOTPService.verify_otp svc d otp 1 now
                           = Raise e))
  | Main.Respond body =>
      exists verdict dev,
        Main.data body = Main.ValidData verdict
        /\ SimpleApp.lookup d st = Some dev /\ SimpleApp.is_active dev = true
        /\ SimpleApp.SimpleOTPService.verify_otp svc d otp 1 now = Return verdict
        /\ SimpleApp.devices_db (snd answer) = SimpleApp.devices_db st
        /\ SimpleApp.audit_logs (snd answer)
           = SimpleApp.audit_logs st
             ++ [{| SimpleApp.device_id := d;
                    SimpleApp.action := "OTP_VERIFICATION";
                    SimpleApp.success := verdict;
                    SimpleApp.timestamp := now;
                    SimpleApp.ip_address := Some host |}]
  end.
Proof.
  intros answer. unfold answer, SimpleApp.verify_otp.
  rewrite simple_authorized.
  destruct (SimpleApp.lookup d st) as [dev|] eqn:Hlookup.
  - destruct (SimpleApp.is_active dev) eqn:Hactive; cbn [negb].
    + destruct (SimpleApp.SimpleOTPService.verify_otp svc d otp 1 now)
        as [verdict|e] eqn:Hcheck; cbn [fst snd].
      * exists verdict, dev. now repeat split.
      * split; [reflexivity|]. right. right. repeat split. now exists e.
    + cbn [fst snd]. split; [reflexivity|]. right. left. repeat split.
      now exists dev.
  - cbn [fst snd]. split; [reflexivity|]. now left.
Qed.

(** X21. In [simple_app.py] deactivation is final for the requests the
    application serves: after an authorized deactivation of a device,
    every verification request for it is answered 400 "Device is inactive"
    whatever the code, and a registration of its identifier is answered
    400 "Device already registered"; neither changes the tables. *)
Theorem simple_deactivated_device_is_refused (API_KEY : string)
  (svc : SimpleApp.SimpleOTPService.t) (d u : string) (t0 now : Z) (otp : Z)
  (host : string) (st : SimpleApp.state) (dev : SimpleApp.device) :
  SimpleApp.lookup d st = Some dev ->
  let st' := snd (SimpleApp.deactivate_device API_KEY API_KEY d t0 st) in
  SimpleApp.verify_otp API_KEY svc API_KEY d otp host now st'
  = (Main.HTTPException 400 "Device is inactive", st')
  /\ SimpleApp.register_device API_KEY svc API_KEY d u now st'
     = (Main.HTTPException 400 "Device already registered", st').
Proof.
  intros Hlookup st'.
  assert (Hst' : SimpleApp.lookup d st'
                 = Some {| SimpleApp.user_id := SimpleApp.user_id dev;
                           SimpleApp.created_at := SimpleApp.created_at dev;
                           SimpleApp.is_active := false;
                           SimpleApp.deactivated_at := Some t0 |}).
  { unfold st', SimpleApp.deactivate_device. rewrite simple_authorized, Hlookup.
    cbn [snd]. unfold SimpleApp.lookup. cbn [SimpleApp.devices_db].
    rewrite simple_lookup_deactivated. unfold SimpleApp.lookup in Hlookup.
    rewrite Hlookup. cbn [option_map]. now rewrite String.eqb_refl. }
  unfold SimpleApp.verify_otp, SimpleApp.register_device.
  rewrite simple_authorized, Hst'. split; reflexivity.
Qed.

(** The theorem for a device registered, deactivated and then presented
    with a code that passes the check. *)
Lemma simple_deactivated_device_is_refused_witness :
  let svc := {| SimpleApp.SimpleOTPService.master_secret := encode "M" |} in
  let st := snd (SimpleApp.register_device "k3y" svc "k3y" "D1" "alice" 1700000000
                   SimpleApp.empty_state) in
  let st' := snd (SimpleApp.deactivate_device "k3y" "k3y" "D1" 1700000003 st) in
  SimpleApp.SimpleOTPService.verify_otp svc "D1" 809180 1 1700000005 = Return true
  /\ SimpleApp.verify_otp "k3y" svc "k3y" "D1" 809180 "10.0.0.1" 1700000005 st'
     = (Main.HTTPException 400 "Device is inactive", st')
  /\ SimpleApp.register_device "k3y" svc "k3y" "D1" "bob" 1700000005 st'
     = (Main.HTTPException 400 "Device already registered", st').
Proof.
  intros svc st st'. split; [vm_compute; reflexivity|].
  apply (simple_deactivated_device_is_refused "k3y" svc "D1" "bob" 1700000003
           1700000005 809180 "10.0.0.1" st
           {| SimpleApp.user_id := "alice"; SimpleApp.created_at := 1700000000;
              SimpleApp.is_active := true; SimpleApp.deactivated_at := None |}).
  reflexivity.
Defined.

(** X22. In [simple_app.py], within the first 30 seconds after the epoch
    a verification request for an active device is answered with status
    500 "Verification failed", whatever the code, and leaves the tables as
    they were: the check raises on the step [-1]. *)
Theorem simple_verify_near_epoch (API_KEY : string) (master : bytes) (d : string)
  (otp : Z) (host : string) (now : Z) (st : SimpleApp.state)
  (dev : SimpleApp.device) :
  SimpleApp.lookup d st = Some dev ->
  SimpleApp.is_active dev = true ->
  0 <= now < 30 ->
  SimpleApp.verify_otp API_KEY
    {| SimpleApp.SimpleOTPService.master_secret := master |} API_KEY d otp host now st
  = (Main.HTTPException 500 "Verification failed", st).
Proof.
  intros Hlookup Hactive Hnow. unfold SimpleApp.verify_otp.
  rewrite simple_authorized, Hlookup, Hactive. cbn [negb].
  rewrite simple_verify_otp_enterprise.
  rewrite verify_totp_near_epoch; [reflexivity | cbn; lia | cbn; lia |].
  cbn. unfold Spec.current_time_step. rewrite Z.div_small by lia. lia.
Qed.

(** The theorem 5 seconds after the epoch, for the code of step 0. *)
Lemma simple_verify_near_epoch_witness :
  let svc := {| SimpleApp.SimpleOTPService.master_secret := encode "M" |} in
  let st := snd (SimpleApp.register_device "k3y" svc "k3y" "D1" "alice" 0
                   SimpleApp.empty_state) in
  SimpleApp.verify_otp "k3y" svc "k3y" "D1" 686598 "10.0.0.1" 5 st
  = (Main.HTTPException 500 "Verification failed", st).
Proof.
  intros svc st.
  apply (simple_verify_near_epoch "k3y" (encode "M") "D1" 686598 "10.0.0.1" 5 st
           {| SimpleApp.user_id := "alice"; SimpleApp.created_at := 0;
              SimpleApp.is_active := true; SimpleApp.deactivated_at := None |});
    [reflexivity | reflexivity | lia].
Defined.
